(** * Live polling backend: the poll session engine of [src/server.js]

    A shallow embedding of the Express / Socket.io server of the
    repository.  The module-level variables of the server ([polls],
    [pollHistory], [activeParticipants], [chatMessages],
    [kickedOutStudents], [currentPoll]) become one record [State]; every
    route handler and every socket handler becomes a function from the
    request and the state to the new state, the response and the events
    it broadcasts.

    Conventions of the embedding.
    - Request fields are strings; a field the request leaves out is read
      as the empty string (both are falsy under [!x]).  [duration] and
      [correctAnswer] are optional integers with the defaults of the
      destructuring pattern.
    - Integer-valued JavaScript numbers (durations, indices, counters) are
      [Z].  The percentages, which are produced by a division, are IEEE 754
      doubles ([float]), computed with the same operations as the source.
    - [new Date()] is an input of every handler: the clock reading [now],
      in milliseconds; the ISO rendering of a date is left abstract.
    - [uuidv4()] is an input of the handlers that call it.
    - A JavaScript object used as a dictionary is a [gmap string _] from
      the keys the code writes to the values it reads back.  A key that is
      not written reads as the property inherited from [Object.prototype]
      when it is one of [JS.inheritedNames], which is truthy.  For the key
      [__proto__] the assignment of an object sets the prototype of the
      dictionary and adds no own property, and reading the key gives that
      object back: the entry of the map under [__proto__] is this
      prototype, and [JS.ownEntries] are the entries that [Object.keys]
      and [JSON.stringify] list.
    - A poll object is shared by [polls], [currentPoll] and the closure of
      its timer.  The store [polls] holds the object, [currentPoll] and
      the timers hold its id. *)

From Stdlib Require Import ZArith Floats String Ascii List.
From Stdlib Require Uint63.
From stdpp Require Import gmap strings list fin_maps.

Local Open Scope string_scope.
Local Open Scope Z_scope.

(** ** JavaScript primitives used by the server *)

Module JS.

(** White space and line terminators removed by [String.prototype.trim],
    for code units below 256: TAB, LF, VT, FF, CR, SP and NBSP. *)
Definition isWhiteSpace (c : ascii) : bool :=
  match N_of_ascii c with
  | 9%N | 10%N | 11%N | 12%N | 13%N | 32%N | 160%N => true
  | _ => false
  end.

Fixpoint trimStart (s : string) : string :=
  match s with
  | EmptyString => EmptyString
  | String c s' => if isWhiteSpace c then trimStart s' else s
  end.

Definition reverse (s : string) : string :=
  string_of_list_ascii (List.rev (list_ascii_of_string s)).

Definition trimEnd (s : string) : string := reverse (trimStart (reverse s)).

(** [s.trim()] *)
Definition trim (s : string) : string := trimEnd (trimStart s).

(** Truthiness of a string: [!s] holds exactly for the empty string. *)
Definition truthy (s : string) : bool :=
  match s with EmptyString => false | _ => true end.

(** [s.length > 0] *)
Definition nonEmpty (s : string) : bool := truthy s.

(** [arr.includes(x)] on an array of strings. *)
Definition includes (arr : list string) (x : string) : bool :=
  existsb (String.eqb x) arr.

(** [arr[i]] for an integer index: [undefined] out of range. *)
Definition index {A : Type} (arr : list A) (i : Z) : option A :=
  if (i <? 0)%Z then None else arr !! Z.to_nat i.

(** [arr.length] *)
Definition length {A : Type} (arr : list A) : Z := Z.of_nat (List.length arr).

(** The property names that every object inherits from
    [Object.prototype]; on a dictionary each of them reads as a function,
    [__proto__] as the prototype itself, hence as a truthy value. *)
Definition inheritedNames : list string :=
  ["constructor"; "__defineGetter__"; "__defineSetter__"; "hasOwnProperty";
   "__lookupGetter__"; "__lookupSetter__"; "isPrototypeOf";
   "propertyIsEnumerable"; "toString"; "valueOf"; "__proto__";
   "toLocaleString"].

(** [o[k]] is truthy for a key [k] that was never written to [o]. *)
Definition inherited (k : string) : bool := includes inheritedNames k.

(** The own entries of a dictionary, those that [Object.keys(o)] and
    [JSON.stringify(o)] list: the assignment [o['__proto__'] = v] of an
    object sets the prototype of [o] and adds no own property. *)
Definition ownEntries {A : Type} (o : gmap string A) : gmap string A :=
  delete "__proto__" o.

(** The double nearest to an integer. *)
Definition number (z : Z) : float :=
  SF2Prim (binary_normalize prec emax z 0 false).

(** [Math.round]: the integer nearest to [x], ties towards +infinity;
    [floor (x + 1/2)] is computed exactly on the mantissa and exponent.
    NaN and the infinities are returned as they are, and so is a zero; a
    negative [x] that rounds to zero gives [-0]. *)
Definition Math_round (x : float) : float :=
  match Prim2SF x with
  | S754_finite s m e =>
      let n := if s then Z.neg m else Z.pos m in
      let r := match e with
               | Z0 => n
               | Zpos k => n * 2 ^ Z.pos k
               | Zneg k => (2 * n + 2 ^ Z.pos k) / 2 ^ (Z.pos k + 1)
               end in
      if (r =? 0)%Z then (if s then (-0)%float else 0%float) else number r
  | _ => x
  end.

End JS.

(** ** Data model: the objects the server builds *)

(** [poll.responses[studentId]] *)
Module Response.
Record t := mk {
  studentId : string;
  studentName : string;
  selectedOption : string;
  timestamp : Z;
  isCorrect : bool
}.
End Response.

(** [{ studentId, studentName }], an entry of [results[option].participants] *)
Module Respondent.
Record t := mk { studentId : string; studentName : string }.
End Respondent.

(** [poll.results[option]]: [{ count, participants }] *)
Module Tally.
Record t := mk { count : Z; participants : list Respondent.t }.
End Tally.

(** [finalResults[option]]: [{ count, percentage, isCorrect }] *)
Module FinalResult.
Record t := mk { count : Z; percentage : float; isCorrect : bool }.
End FinalResult.

(** [poll.summary] *)
Module Summary.
Record t := mk {
  totalResponses : Z;
  correctResponses : Z;
  incorrectResponses : Z;
  correctPercentage : float;
  incorrectPercentage : float;
  correctAnswer : option string
}.
End Summary.

(** The poll object built by [POST /api/poll/create]; [finalResults] and
    [summary] are absent until [endPoll] assigns them. *)
Module Poll.
Record t := mk {
  id : string;
  question : string;
  options : list string;
  duration : Z;
  correctAnswer : Z;
  isActive : bool;
  responses : gmap string Response.t;
  results : gmap string Tally.t;
  startTime : option Z;
  endTime : option Z;
  timeLeft : Z;
  teacherId : string;
  teacherName : string;
  createdAt : Z;
  finalResults : option (gmap string FinalResult.t);
  summary : option Summary.t
}.
End Poll.

(** The object returned by [createPollResponse]. *)
Module PollView.
Record t := mk {
  id : string;
  question : string;
  options : list string;
  duration : Z;
  correctAnswer : Z;
  isActive : bool;
  startTime : option Z;
  endTime : option Z;
  timeLeft : Z;
  teacherId : string;
  teacherName : string;
  createdAt : Z;
  results : gmap string Tally.t;
  finalResults : gmap string FinalResult.t;
  summary : option Summary.t;
  responses : gmap string Response.t
}.
End PollView.

Inductive Role := teacher | student.

(** A value of [activeParticipants]. *)
Module Participant.
Record t := mk { id : string; name : string; role : Role; joinedAt : Z }.
End Participant.

(** An element of [chatMessages]. *)
Module ChatMessage.
Record t := mk {
  id : string;
  message : string;
  senderName : string;
  senderRole : string;
  senderId : string;
  timestamp : Z
}.
End ChatMessage.

(** An element of [pollHistory]: [{ ...poll, participants }]. *)
Module HistoryEntry.
Record t := mk { poll : Poll.t; participants : list Participant.t }.
End HistoryEntry.

(** The fields the handlers hang on a Socket.io socket. *)
Module Socket.
Record t := mk {
  role : option Role;
  teacherId : option string;
  teacherName : option string;
  studentId : option string;
  studentName : option string
}.
Definition fresh : t := mk None None None None None.
End Socket.

(** A JavaScript [Map] with string keys, in insertion order. *)
Module JSMap.
Section Ops.
Context {K V : Type} `{EqDecision K}.

Definition t := list (K * V).

Definition get (m : t) (k : K) : option V :=
  snd <$> List.find (fun kv => bool_decide (kv.1 = k)) m.

Definition has (m : t) (k : K) : bool :=
  match get m k with Some _ => true | None => false end.

(** [m.set(k, v)]: an existing key keeps its position. *)
Fixpoint set (m : t) (k : K) (v : V) : t :=
  match m with
  | [] => [(k, v)]
  | (k', v') :: m' => if decide (k' = k) then (k, v) :: m' else (k', v') :: set m' k v
  end.

(** [m.delete(k)] *)
Definition delete (m : t) (k : K) : t :=
  List.filter (fun kv => negb (bool_decide (kv.1 = k))) m.

(** [Array.from(m.values())] *)
Definition values (m : t) : list V := snd <$> m.
End Ops.
Arguments t : clear implicits.
End JSMap.

(** The module-level variables of [server.js], the running intervals and
    the connected sockets ([io.sockets.sockets]). *)
Record State := mkState {
  polls : gmap string Poll.t;
  pollHistory : list HistoryEntry.t;
  activeParticipants : JSMap.t string Participant.t;
  chatMessages : list ChatMessage.t;
  kickedOutStudents : gset string;
  currentPoll : option string;
  timers : list string;
  sockets : JSMap.t nat Socket.t
}.

Definition initial : State := mkState ∅ [] [] [] ∅ None [] [].

(** The events the server emits.  [kickedOut] and [connectionEstablished]
    go to one socket ([socket.emit]), the others to every socket
    ([io.emit]). *)
Inductive Event :=
| pollStarted (poll : PollView.t) (participants : list Participant.t)
| timerUpdate (timeLeft : Z)
| pollEnded (poll : PollView.t) (results : gmap string FinalResult.t)
    (summary : Summary.t)
| responseSubmitted (poll : PollView.t) (results : gmap string Tally.t)
    (newResponse : Respondent.t * string)
| participantJoined (participant : Participant.t)
    (participants : list Participant.t)
| participantRemoved (studentId reason : string)
    (participants : list Participant.t)
| newMessage (chatMessage : ChatMessage.t)
| kickedOut (to : nat) (reason : string)
| connectionEstablished (to : nat) (role : Role)
    (currentPoll : option PollView.t) (participants : list Participant.t)
    (chatMessages : list ChatMessage.t).

(** The spec's error taxonomy and the HTTP status that carries each. *)
Inductive ErrorKind :=
| ValidationError | ForbiddenError | NotFoundError | ConflictError
| InternalError.

Definition statusOf (e : ErrorKind) : Z :=
  match e with
  | ValidationError => 400
  | ForbiddenError => 403
  | NotFoundError => 404
  | ConflictError => 409
  | InternalError => 500
  end.

(** [res.status(n).json(body)]: either a body, or [{ error: message }]. *)
Inductive HttpResponse (A : Type) :=
| json (status : Z) (body : A)
| error (status : Z) (message : string).
Arguments json {A} status body.
Arguments error {A} status message.

Definition failsWith {A : Type} (r : HttpResponse A) (e : ErrorKind) : Prop :=
  exists message, r = error (statusOf e) message.

(** ** Request and response bodies *)

(** The body of [POST /api/poll/create]. *)
Module CreateRequest.
Record t := mk {
  question : string;
  options : list string;
  duration : option Z;
  teacherId : string;
  teacherName : string;
  correctAnswer : option Z
}.
End CreateRequest.

(** [{ poll, message }] *)
Module PollBody.
Record t := mk { poll : PollView.t; message : string }.
End PollBody.

(** The two shapes [GET /api/poll/current] answers with:
    [{ poll: null, message }] and [{ poll, participants, chatMessages }]. *)
Module CurrentBody.
Inductive t :=
| noPoll (message : string)
| current (poll : option PollView.t) (participants : list Participant.t)
    (chatMessages : list ChatMessage.t).

(** The fields of the body; [None] when the object has no such field. *)
Definition poll (b : t) : option (option PollView.t) :=
  match b with noPoll _ => Some None | current p _ _ => Some p end.
Definition participants (b : t) : option (list Participant.t) :=
  match b with noPoll _ => None | current _ ps _ => Some ps end.
Definition chatMessages (b : t) : option (list ChatMessage.t) :=
  match b with noPoll _ => None | current _ _ ms => Some ms end.
Definition message (b : t) : option string :=
  match b with noPoll m => Some m | current _ _ _ => None end.
End CurrentBody.

(** [{ message, isCorrect }] *)
Module SubmitBody.
Record t := mk { message : string; isCorrect : bool }.
End SubmitBody.

(** [{ message, participant }] *)
Module JoinBody.
Record t := mk { message : string; participant : option Participant.t }.
End JoinBody.

(** ** The server *)

(** [function createPollResponse(poll)], on a poll that is not null. *)
Definition pollView (poll : Poll.t) : PollView.t :=
  {| PollView.id := Poll.id poll;
     PollView.question := Poll.question poll;
     PollView.options := Poll.options poll;
     PollView.duration := Poll.duration poll;
     PollView.correctAnswer := Poll.correctAnswer poll;
     PollView.isActive := Poll.isActive poll;
     PollView.startTime := Poll.startTime poll;
     PollView.endTime := Poll.endTime poll;
     PollView.timeLeft := Poll.timeLeft poll;
     PollView.teacherId := Poll.teacherId poll;
     PollView.teacherName := Poll.teacherName poll;
     PollView.createdAt := Poll.createdAt poll;
     PollView.results := Poll.results poll;
     PollView.finalResults := default ∅ (Poll.finalResults poll);
     PollView.summary := Poll.summary poll;
     PollView.responses := Poll.responses poll |}.

Definition createPollResponse (poll : option Poll.t) : option PollView.t :=
  match poll with
  | None => None
  | Some p => Some (pollView p)
  end.

(** The object [currentPoll] refers to. *)
Definition currentPollObject (s : State) : option Poll.t :=
  match currentPoll s with
  | None => None
  | Some ref => polls s !! ref
  end.

(** [GET /api/poll/current] (the handler of [api/index.js] is the same). *)
Definition getCurrentPoll (s : State) : HttpResponse CurrentBody.t :=
  match currentPollObject s with
  | None => json 200 (CurrentBody.noPoll "No active poll")
  | Some poll =>
      json 200 (CurrentBody.current (createPollResponse (Some poll))
                  (JSMap.values (activeParticipants s)) (chatMessages s))
  end.

(** [currentPoll && currentPoll.isActive] *)
Definition currentPollActive (s : State) : bool :=
  match currentPollObject s with
  | None => false
  | Some poll => Poll.isActive poll
  end.

(** The poll object literal of [POST /api/poll/create]. *)
Definition newPoll (pollId : string) (now : Z) (req : CreateRequest.t) : Poll.t :=
  let duration := default 60 (CreateRequest.duration req) in
  let correctAnswer := default 0 (CreateRequest.correctAnswer req) in
  let options := CreateRequest.options req in
  {| Poll.id := pollId;
     Poll.question := JS.trim (CreateRequest.question req);
     Poll.options := List.filter JS.nonEmpty (List.map JS.trim options);
     Poll.duration := Z.min (Z.max duration 10) 300;
     Poll.correctAnswer := Z.max 0 (Z.min correctAnswer (JS.length options - 1));
     Poll.isActive := false;
     Poll.responses := ∅;
     Poll.results := ∅;
     Poll.startTime := None;
     Poll.endTime := None;
     Poll.timeLeft := duration;
     Poll.teacherId := CreateRequest.teacherId req;
     Poll.teacherName := CreateRequest.teacherName req;
     Poll.createdAt := now;
     Poll.finalResults := None;
     Poll.summary := None |}.

(** [POST /api/poll/create].  [pollId] is the value of [uuidv4()].  The
    request's [options] is a list, so [!options || !Array.isArray(options)]
    is false. *)
Definition createPoll (pollId : string) (now : Z) (req : CreateRequest.t)
    (s : State) : State * HttpResponse PollBody.t :=
  if negb (JS.truthy (CreateRequest.question req))
     || (JS.length (CreateRequest.options req) <? 2)
  then (s, error 400 "Question and at least 2 options are required")
  else if negb (JS.truthy (CreateRequest.teacherId req))
          || negb (JS.truthy (CreateRequest.teacherName req))
  then (s, error 400 "Teacher ID and name are required")
  else if currentPollActive s
  then (s, error 409 "There is already an active poll. Please end it before creating a new one.")
  else
    let poll := newPoll pollId now req in
    ({| polls := <[pollId := poll]> (polls s);
        pollHistory := pollHistory s;
        activeParticipants := activeParticipants s;
        chatMessages := chatMessages s;
        kickedOutStudents := kickedOutStudents s;
        currentPoll := Some pollId;
        timers := timers s;
        sockets := sockets s |},
     json 201 (PollBody.mk (pollView poll) "Poll created successfully")).

(** The poll after the assignments of [POST /api/poll/:pollId/start]:
    [results] gets a zero entry for each option, in order.  For the
    option text [__proto__] the assignment sets the prototype of
    [results], which the map holds under that key and
    [JS.ownEntries] leaves out. *)
Definition startedPoll (now : Z) (poll : Poll.t) : Poll.t :=
  {| Poll.id := Poll.id poll;
     Poll.question := Poll.question poll;
     Poll.options := Poll.options poll;
     Poll.duration := Poll.duration poll;
     Poll.correctAnswer := Poll.correctAnswer poll;
     Poll.isActive := true;
     Poll.responses := ∅;
     Poll.results :=
       fold_left (fun results option => <[option := Tally.mk 0 []]> results)
         (Poll.options poll) ∅;
     Poll.startTime := Some now;
     Poll.endTime := Some (now + Poll.duration poll * 1000);
     Poll.timeLeft := Poll.duration poll;
     Poll.teacherId := Poll.teacherId poll;
     Poll.teacherName := Poll.teacherName poll;
     Poll.createdAt := Poll.createdAt poll;
     Poll.finalResults := Poll.finalResults poll;
     Poll.summary := Poll.summary poll |}.

(** [POST /api/poll/:pollId/start].  [setInterval] registers a timer
    whose closure holds the poll. *)
Definition startPoll (now : Z) (pollId teacherId : string) (s : State)
    : State * HttpResponse PollBody.t * list Event :=
  match polls s !! pollId with
  | None => (s, error 404 "Poll not found", [])
  | Some poll =>
      if negb (String.eqb (Poll.teacherId poll) teacherId)
      then (s, error 403 "Only the poll creator can start this poll", [])
      else if Poll.isActive poll
      then (s, error 409 "Poll is already active", [])
      else
        let poll' := startedPoll now poll in
        ({| polls := <[pollId := poll']> (polls s);
            pollHistory := pollHistory s;
            activeParticipants := activeParticipants s;
            chatMessages := [];
            kickedOutStudents := kickedOutStudents s;
            currentPoll := currentPoll s;
            timers := timers s ++ [pollId];
            sockets := sockets s |},
         json 200 (PollBody.mk (pollView poll') "Poll started successfully"),
         [pollStarted (pollView poll') (JSMap.values (activeParticipants s))])
  end.

(** [poll.results[option]?.count || 0] *)
Definition tallyCount (results : gmap string Tally.t) (option : string) : Z :=
  match results !! option with
  | Some tally => Tally.count tally
  | None => 0
  end.

(** The first [forEach] of [endPoll]: the accumulator holds
    [finalResults], [totalResponses] and [correctResponses].  For the
    option text [__proto__] the assignment sets the prototype of
    [finalResults], held under that key and left out by
    [JS.ownEntries]. *)
Fixpoint countLoop (results : gmap string Tally.t) (correctAnswer : Z)
    (options : list string) (index : Z)
    (acc : gmap string FinalResult.t * Z * Z)
    : gmap string FinalResult.t * Z * Z :=
  match options with
  | [] => acc
  | option :: rest =>
      let '(finalResults, totalResponses, correctResponses) := acc in
      let count := tallyCount results option in
      let isCorrect := (index =? correctAnswer) in
      countLoop results correctAnswer rest (index + 1)
        (<[option := FinalResult.mk count 0 isCorrect]> finalResults,
         totalResponses + count,
         if isCorrect then correctResponses + count else correctResponses)
  end.

(** [Math.round((count / totalResponses) * 100)] *)
Definition percent (count totalResponses : Z) : float :=
  JS.Math_round (JS.number count / JS.number totalResponses * JS.number 100)%float.

(** The second [forEach] of [endPoll], run when [totalResponses > 0]. *)
Definition percentLoop (totalResponses : Z) (options : list string)
    (finalResults : gmap string FinalResult.t) : gmap string FinalResult.t :=
  fold_left
    (fun finalResults option =>
       alter (fun r => FinalResult.mk (FinalResult.count r)
                         (percent (FinalResult.count r) totalResponses)
                         (FinalResult.isCorrect r))
         option finalResults)
    options finalResults.

(** [finalResults], [totalResponses] and [correctResponses] after the
    first loop of [endPoll]. *)
Definition counted (poll : Poll.t) : gmap string FinalResult.t * Z * Z :=
  countLoop (Poll.results poll) (Poll.correctAnswer poll) (Poll.options poll)
    0 (∅, 0, 0).

(** The object [endPoll] assigns to [poll.finalResults]. *)
Definition finalResultsOf (poll : Poll.t) : gmap string FinalResult.t :=
  let '(finalResults, totalResponses, _) := counted poll in
  if (totalResponses >? 0)
  then percentLoop totalResponses (Poll.options poll) finalResults
  else finalResults.

(** The object [endPoll] assigns to [poll.summary]. *)
Definition summaryOf (poll : Poll.t) : Summary.t :=
  let '(_, totalResponses, correctResponses) := counted poll in
  let correctPercentage :=
    if (totalResponses >? 0) then percent correctResponses totalResponses
    else 0%float in
  let incorrectPercentage := (JS.number 100 - correctPercentage)%float in
  {| Summary.totalResponses := totalResponses;
     Summary.correctResponses := correctResponses;
     Summary.incorrectResponses := totalResponses - correctResponses;
     Summary.correctPercentage := correctPercentage;
     Summary.incorrectPercentage := incorrectPercentage;
     Summary.correctAnswer :=
       JS.index (Poll.options poll) (Poll.correctAnswer poll) |}.

(** The poll after [endPoll] has run on it. *)
Definition endedPoll (now : Z) (poll : Poll.t) : Poll.t :=
  {| Poll.id := Poll.id poll;
     Poll.question := Poll.question poll;
     Poll.options := Poll.options poll;
     Poll.duration := Poll.duration poll;
     Poll.correctAnswer := Poll.correctAnswer poll;
     Poll.isActive := false;
     Poll.responses := Poll.responses poll;
     Poll.results := Poll.results poll;
     Poll.startTime := Poll.startTime poll;
     Poll.endTime := Some now;
     Poll.timeLeft := 0;
     Poll.teacherId := Poll.teacherId poll;
     Poll.teacherName := Poll.teacherName poll;
     Poll.createdAt := Poll.createdAt poll;
     Poll.finalResults := Some (finalResultsOf poll);
     Poll.summary := Some (summaryOf poll) |}.

(** [function endPoll(poll)]; [ref] is the poll object in the store. *)
Definition endPoll (now : Z) (ref : string) (s : State) : State * list Event :=
  match polls s !! ref with
  | None => (s, [])
  | Some poll =>
      let poll' := endedPoll now poll in
      ({| polls := <[ref := poll']> (polls s);
          pollHistory :=
            pollHistory s ++
              [HistoryEntry.mk poll' (JSMap.values (activeParticipants s))];
          activeParticipants := activeParticipants s;
          chatMessages := chatMessages s;
          kickedOutStudents := kickedOutStudents s;
          currentPoll := currentPoll s;
          timers := timers s;
          sockets := sockets s |},
       [pollEnded (pollView poll') (finalResultsOf poll) (summaryOf poll)])
  end.

(** [poll.timeLeft--] *)
Definition decrementTimeLeft (poll : Poll.t) : Poll.t :=
  {| Poll.id := Poll.id poll;
     Poll.question := Poll.question poll;
     Poll.options := Poll.options poll;
     Poll.duration := Poll.duration poll;
     Poll.correctAnswer := Poll.correctAnswer poll;
     Poll.isActive := Poll.isActive poll;
     Poll.responses := Poll.responses poll;
     Poll.results := Poll.results poll;
     Poll.startTime := Poll.startTime poll;
     Poll.endTime := Poll.endTime poll;
     Poll.timeLeft := Poll.timeLeft poll - 1;
     Poll.teacherId := Poll.teacherId poll;
     Poll.teacherName := Poll.teacherName poll;
     Poll.createdAt := Poll.createdAt poll;
     Poll.finalResults := Poll.finalResults poll;
     Poll.summary := Poll.summary poll |}.

(** [clearInterval(timer)] for the timer of the poll [ref]. *)
Fixpoint clearInterval (ref : string) (timers : list string) : list string :=
  match timers with
  | [] => []
  | t :: rest => if String.eqb t ref then rest else t :: clearInterval ref rest
  end.

(** One run of the [setInterval] callback of the poll [ref]; nothing
    happens when no such interval is registered. *)
Definition tick (now : Z) (ref : string) (s : State) : State * list Event :=
  if negb (JS.includes (timers s) ref) then (s, [])
  else
    match polls s !! ref with
    | None => (s, [])
    | Some poll =>
        let poll' := decrementTimeLeft poll in
        let s1 :=
          {| polls := <[ref := poll']> (polls s);
             pollHistory := pollHistory s;
             activeParticipants := activeParticipants s;
             chatMessages := chatMessages s;
             kickedOutStudents := kickedOutStudents s;
             currentPoll := currentPoll s;
             timers := timers s;
             sockets := sockets s |} in
        let update := timerUpdate (Poll.timeLeft poll') in
        if (Poll.timeLeft poll' <=? 0)
        then
          let s2 :=
            {| polls := polls s1;
               pollHistory := pollHistory s1;
               activeParticipants := activeParticipants s1;
               chatMessages := chatMessages s1;
               kickedOutStudents := kickedOutStudents s1;
               currentPoll := currentPoll s1;
               timers := clearInterval ref (timers s1);
               sockets := sockets s1 |} in
          let '(s3, events) := endPoll now ref s2 in
          (s3, update :: events)
        else (s1, [update])
    end.

(** The poll after a response is recorded and counted.  After the start
    route [poll.results[selectedOption]] is the zero entry of the option,
    the prototype for the text [__proto__], so the count goes to the entry
    the map holds under the text. *)
Definition respondedPoll (now : Z) (studentId studentName selectedOption : string)
    (poll : Poll.t) : Poll.t :=
  let isCorrect :=
    bool_decide (JS.index (Poll.options poll) (Poll.correctAnswer poll)
                 = Some selectedOption) in
  let results1 :=
    match Poll.results poll !! selectedOption with
    | Some _ => Poll.results poll
    | None => <[selectedOption := Tally.mk 0 []]> (Poll.results poll)
    end in
  let results2 :=
    alter (fun tally =>
             Tally.mk (Tally.count tally + 1)
               (Tally.participants tally ++ [Respondent.mk studentId studentName]))
      selectedOption results1 in
  {| Poll.id := Poll.id poll;
     Poll.question := Poll.question poll;
     Poll.options := Poll.options poll;
     Poll.duration := Poll.duration poll;
     Poll.correctAnswer := Poll.correctAnswer poll;
     Poll.isActive := Poll.isActive poll;
     Poll.responses :=
       <[studentId := Response.mk studentId studentName selectedOption now isCorrect]>
         (Poll.responses poll);
     Poll.results := results2;
     Poll.startTime := Poll.startTime poll;
     Poll.endTime := Poll.endTime poll;
     Poll.timeLeft := Poll.timeLeft poll;
     Poll.teacherId := Poll.teacherId poll;
     Poll.teacherName := Poll.teacherName poll;
     Poll.createdAt := Poll.createdAt poll;
     Poll.finalResults := Poll.finalResults poll;
     Poll.summary := Poll.summary poll |}.

(** [POST /api/poll/:pollId/response] *)
Definition submitResponse (now : Z)
    (pollId studentId studentName selectedOption : string) (s : State)
    : State * HttpResponse SubmitBody.t * list Event :=
  if bool_decide (studentId ∈ kickedOutStudents s)
  then (s, error 403 "You have been removed from this session", [])
  else
    match polls s !! pollId with
    | None => (s, error 404 "Poll not found", [])
    | Some poll =>
        if negb (Poll.isActive poll)
        then (s, error 400 "Poll is not currently active", [])
        else if negb (JS.includes (Poll.options poll) selectedOption)
        then (s, error 400 "Invalid option selected", [])
        else
          match Poll.responses poll !! studentId with
          | Some _ =>
              (s, error 409 "You have already responded to this poll", [])
          | None =>
              if JS.inherited studentId
              then (s, error 409 "You have already responded to this poll", [])
              else
              let poll' :=
                respondedPoll now studentId studentName selectedOption poll in
              ({| polls := <[pollId := poll']> (polls s);
                  pollHistory := pollHistory s;
                  activeParticipants := activeParticipants s;
                  chatMessages := chatMessages s;
                  kickedOutStudents := kickedOutStudents s;
                  currentPoll := currentPoll s;
                  timers := timers s;
                  sockets := sockets s |},
               json 200
                 (SubmitBody.mk "Response submitted successfully"
                    (bool_decide
                       (JS.index (Poll.options poll) (Poll.correctAnswer poll)
                        = Some selectedOption))),
               [responseSubmitted (pollView poll') (Poll.results poll')
                  (Respondent.mk studentId studentName, selectedOption)])
          end
    end.

(** [POST /api/participant/join] *)
Definition join (now : Z) (studentId studentName : string) (s : State)
    : State * HttpResponse JoinBody.t :=
  if negb (JS.truthy studentId) || negb (JS.truthy studentName)
  then (s, error 400 "Student ID and name are required")
  else if bool_decide (studentId ∈ kickedOutStudents s)
  then (s, error 403 "You have been removed from this session")
  else
    let participants :=
      JSMap.set (activeParticipants s) studentId
        (Participant.mk studentId studentName student now) in
    ({| polls := polls s;
        pollHistory := pollHistory s;
        activeParticipants := participants;
        chatMessages := chatMessages s;
        kickedOutStudents := kickedOutStudents s;
        currentPoll := currentPoll s;
        timers := timers s;
        sockets := sockets s |},
     json 200 (JoinBody.mk "Successfully joined as participant"
                 (JSMap.get participants studentId))).

(** [GET /api/chat/messages] *)
Definition getChatMessages (s : State) : HttpResponse (list ChatMessage.t) :=
  json 200 (chatMessages s).

(** *** Socket handlers.  [socket] is the id of the connection the event
    arrives on; an event on a socket that is not connected is ignored. *)

Definition withSockets (s : State) (sockets' : JSMap.t nat Socket.t) : State :=
  {| polls := polls s;
     pollHistory := pollHistory s;
     activeParticipants := activeParticipants s;
     chatMessages := chatMessages s;
     kickedOutStudents := kickedOutStudents s;
     currentPoll := currentPoll s;
     timers := timers s;
     sockets := sockets' |}.

Definition withParticipants (s : State)
    (participants : JSMap.t string Participant.t) : State :=
  {| polls := polls s;
     pollHistory := pollHistory s;
     activeParticipants := participants;
     chatMessages := chatMessages s;
     kickedOutStudents := kickedOutStudents s;
     currentPoll := currentPoll s;
     timers := timers s;
     sockets := sockets s |}.

(** [io.on('connection', ...)] *)
Definition connection (socket : nat) (s : State) : State :=
  if JSMap.has (sockets s) socket then s
  else withSockets s (JSMap.set (sockets s) socket Socket.fresh).

(** [socket.on('joinTeacher', ...)] *)
Definition joinTeacher (socket : nat) (teacherId teacherName : string)
    (s : State) : State * list Event :=
  match JSMap.get (sockets s) socket with
  | None => (s, [])
  | Some sock =>
      let sock' :=
        {| Socket.role := Some teacher;
           Socket.teacherId := Some teacherId;
           Socket.teacherName := Some teacherName;
           Socket.studentId := Socket.studentId sock;
           Socket.studentName := Socket.studentName sock |} in
      (withSockets s (JSMap.set (sockets s) socket sock'),
       [connectionEstablished socket teacher
          (createPollResponse (currentPollObject s))
          (JSMap.values (activeParticipants s)) (chatMessages s)])
  end.

(** [socket.on('joinParticipant', ...)] *)
Definition joinParticipant (now : Z) (socket : nat)
    (studentId studentName : string) (s : State) : State * list Event :=
  match JSMap.get (sockets s) socket with
  | None => (s, [])
  | Some sock =>
      if bool_decide (studentId ∈ kickedOutStudents s)
      then (s, [kickedOut socket "You have been removed from this session"])
      else
        let sock' :=
          {| Socket.role := Some student;
             Socket.teacherId := Socket.teacherId sock;
             Socket.teacherName := Socket.teacherName sock;
             Socket.studentId := Some studentId;
             Socket.studentName := Some studentName |} in
        let participant := Participant.mk studentId studentName student now in
        let participants := JSMap.set (activeParticipants s) studentId participant in
        let s' :=
          withParticipants (withSockets s (JSMap.set (sockets s) socket sock'))
            participants in
        (s',
         [participantJoined participant (JSMap.values participants);
          connectionEstablished socket student
            (createPollResponse (currentPollObject s'))
            (JSMap.values participants) (chatMessages s')])
  end.

(** [socket.on('sendMessage', ...)]; [messageId] is the value of
    [uuidv4()].  [chatMessages.slice(-100)] keeps the last 100. *)
Definition sendMessage (now : Z) (socket : nat) (messageId : string)
    (message senderName senderRole senderId : string) (s : State)
    : State * list Event :=
  match JSMap.get (sockets s) socket with
  | None => (s, [])
  | Some _ =>
      if String.eqb senderRole "student"
         && bool_decide (senderId ∈ kickedOutStudents s)
      then (s, [])
      else
        let chatMessage :=
          ChatMessage.mk messageId (JS.trim message) senderName senderRole
            senderId now in
        let pushed := (chatMessages s ++ [chatMessage])%list in
        let kept :=
          if (JS.length pushed >? 100)
          then drop (List.length pushed - 100)%nat pushed
          else pushed in
        ({| polls := polls s;
            pollHistory := pollHistory s;
            activeParticipants := activeParticipants s;
            chatMessages := kept;
            kickedOutStudents := kickedOutStudents s;
            currentPoll := currentPoll s;
            timers := timers s;
            sockets := sockets s |},
         [newMessage chatMessage])
  end.

(** [socket.role === 'student' && socket.studentId] *)
Definition isStudentSocket (sock : Socket.t) : option string :=
  match Socket.role sock, Socket.studentId sock with
  | Some student, Some studentId =>
      if JS.truthy studentId then Some studentId else None
  | _, _ => None
  end.

(** [socket.on('disconnect', ...)], after the socket has left
    [io.sockets.sockets]. *)
Definition disconnect (socket : nat) (s : State) : State * list Event :=
  match JSMap.get (sockets s) socket with
  | None => (s, [])
  | Some sock =>
      let s1 := withSockets s (JSMap.delete (sockets s) socket) in
      match isStudentSocket sock with
      | None => (s1, [])
      | Some studentId =>
          let participants := JSMap.delete (activeParticipants s1) studentId in
          (withParticipants s1 participants,
           [participantRemoved studentId "disconnected"
              (JSMap.values participants)])
      end
  end.

(** [socket.on('kickParticipant', ...)]; [reason] has the default
    ['Removed by teacher'].  The first socket whose [studentId] is the
    kicked id is told and disconnected, which runs its disconnect
    handler. *)
Definition kickParticipant (socket : nat) (studentId : string)
    (reason : option string) (s : State) : State * list Event :=
  match JSMap.get (sockets s) socket with
  | None => (s, [])
  | Some sock =>
      match Socket.role sock with
      | Some teacher =>
          let reason := default "Removed by teacher" reason in
          let s1 :=
            {| polls := polls s;
               pollHistory := pollHistory s;
               activeParticipants := JSMap.delete (activeParticipants s) studentId;
               chatMessages := chatMessages s;
               kickedOutStudents := {[studentId]} ∪ kickedOutStudents s;
               currentPoll := currentPoll s;
               timers := timers s;
               sockets := sockets s |} in
          let studentSocket :=
            List.find
              (fun kv => bool_decide (Socket.studentId kv.2 = Some studentId))
              (sockets s1) in
          let '(s2, events) :=
            match studentSocket with
            | Some (k, _) =>
                let '(s2, events) := disconnect k s1 in
                (s2, kickedOut k reason :: events)
            | None => (s1, [])
            end in
          (s2,
           (events ++
              [participantRemoved studentId reason
                 (JSMap.values (activeParticipants s2))])%list)
      | _ => (s, [])
      end
  end.

(** ** The session as a transition system *)

(** One turn of the event loop: a request, a socket event or a timer
    callback, with the clock reading and the generated ids it uses. *)
Inductive Command :=
| CreatePoll (pollId : string) (now : Z) (req : CreateRequest.t)
| StartPoll (now : Z) (pollId teacherId : string)
| SubmitResponse (now : Z) (pollId studentId studentName selectedOption : string)
| Join (now : Z) (studentId studentName : string)
| Tick (now : Z) (ref : string)
| Connection (socket : nat)
| JoinTeacher (socket : nat) (teacherId teacherName : string)
| JoinParticipant (now : Z) (socket : nat) (studentId studentName : string)
| SendMessage (now : Z) (socket : nat) (messageId : string)
    (message senderName senderRole senderId : string)
| KickParticipant (socket : nat) (studentId : string) (reason : option string)
| Disconnect (socket : nat).

Definition exec (c : Command) (s : State) : State :=
  match c with
  | CreatePoll pollId now req => (createPoll pollId now req s).1
  | StartPoll now pollId teacherId => (startPoll now pollId teacherId s).1.1
  | SubmitResponse now pollId studentId studentName selectedOption =>
      (submitResponse now pollId studentId studentName selectedOption s).1.1
  | Join now studentId studentName => (join now studentId studentName s).1
  | Tick now ref => (tick now ref s).1
  | Connection socket => connection socket s
  | JoinTeacher socket teacherId teacherName =>
      (joinTeacher socket teacherId teacherName s).1
  | JoinParticipant now socket studentId studentName =>
      (joinParticipant now socket studentId studentName s).1
  | SendMessage now socket messageId message senderName senderRole senderId =>
      (sendMessage now socket messageId message senderName senderRole senderId s).1
  | KickParticipant socket studentId reason =>
      (kickParticipant socket studentId reason s).1
  | Disconnect socket => (disconnect socket s).1
  end.

(** What the environment guarantees: [uuidv4()] returns an id that no
    stored poll has. *)
Definition enabled (c : Command) (s : State) : bool :=
  match c with
  | CreatePoll pollId _ _ => bool_decide (polls s !! pollId = None)
  | _ => true
  end.

Definition run (cs : list Command) (s : State) : State :=
  fold_left (fun s c => exec c s) cs s.

Fixpoint allEnabled (cs : list Command) (s : State) : bool :=
  match cs with
  | [] => true
  | c :: cs' => enabled c s && allEnabled cs' (exec c s)
  end.

Inductive reachable : State -> Prop :=
| reachable_initial : reachable initial
| reachable_step s c :
    reachable s -> enabled c s = true -> reachable (exec c s).

(** The lifecycle state of the spec, read off the poll object: [isActive]
    is the only flag the code keeps; a poll that is not active has ended
    when [endPoll] has given it its [finalResults]. *)
Inductive PollState := Draft | Active | Ended.

Definition pollState (poll : Poll.t) : PollState :=
  if Poll.isActive poll then Active
  else match Poll.finalResults poll with
       | Some _ => Ended
       | None => Draft
       end.

(** The ids of the stored polls whose [isActive] flag is true. *)
Definition activePolls (s : State) : list string :=
  (map_to_list (filter (fun kv => Poll.isActive kv.2 = true) (polls s))).*1.

(** The sum of the counts of a tally object. *)
Definition sumCounts (results : gmap string Tally.t) : Z :=
  map_fold (fun _ tally acc => Tally.count tally + acc) 0 results.

(** ** The read-only routes of [server.js] *)

(** The [results] field of a history item: [poll.finalResults || poll.results]. *)
Module HistoryResults.
Inductive t :=
| final (finalResults : gmap string FinalResult.t)
| live (results : gmap string Tally.t).
End HistoryResults.

(** An element of the [history] array of [GET /api/poll/history]. *)
Module HistoryItem.
Record t := mk {
  id : string;
  question : string;
  options : list string;
  results : HistoryResults.t;
  summary : option Summary.t;
  totalVotes : Z;
  correctAnswer : Z;
  createdAt : Z;
  endTime : option Z
}.
End HistoryItem.

(** [{ history, total }] *)
Module HistoryBody.
Record t := mk { history : list HistoryItem.t; total : Z }.
End HistoryBody.

(** The object the history route builds for one entry of [pollHistory]. *)
Definition formatHistory (entry : HistoryEntry.t) : HistoryItem.t :=
  let poll := HistoryEntry.poll entry in
  {| HistoryItem.id := Poll.id poll;
     HistoryItem.question := Poll.question poll;
     HistoryItem.options := Poll.options poll;
     HistoryItem.results :=
       match Poll.finalResults poll with
       | Some finalResults => HistoryResults.final finalResults
       | None => HistoryResults.live (Poll.results poll)
       end;
     HistoryItem.summary := Poll.summary poll;
     HistoryItem.totalVotes :=
       match Poll.summary poll with
       | Some summary => Summary.totalResponses summary
       | None => 0
       end;
     HistoryItem.correctAnswer := Poll.correctAnswer poll;
     HistoryItem.createdAt := Poll.createdAt poll;
     HistoryItem.endTime := Poll.endTime poll |}.

(** [pollHistory.filter(poll => poll.teacherId === teacherId)] *)
Definition teacherHistory (teacherId : string) (history : list HistoryEntry.t)
    : list HistoryEntry.t :=
  List.filter
    (fun entry => String.eqb (Poll.teacherId (HistoryEntry.poll entry)) teacherId)
    history.

(** [GET /api/poll/history], the first of the two handlers registered for
    that path: it always answers, so the second one never runs. *)
Definition getHistory (teacherId : string) (s : State) : HttpResponse HistoryBody.t :=
  if negb (JS.truthy teacherId) then error 400 "Teacher ID is required"
  else
    let formattedHistory :=
      List.map formatHistory (teacherHistory teacherId (pollHistory s)) in
    json 200 (HistoryBody.mk formattedHistory (JS.length formattedHistory)).

(** The bodies of [GET /api/poll/:pollId/response/:userId]:
    [{ hasResponded: false, response: null }] and
    [{ hasResponded: true, response, isCorrect, correctAnswer }]; in the
    last one [response] and [isCorrect] are undefined, and left out of the
    JSON text, when [poll.responses[userId]] is an inherited property. *)
Module ResponseBody.
Inductive t :=
| notResponded
| responded (response : string) (isCorrect : bool) (correctAnswer : option string)
| inherited (correctAnswer : option string).
Definition hasResponded (b : t) : bool :=
  match b with notResponded => false | _ => true end.
End ResponseBody.

(** [GET /api/poll/:pollId/response/:userId] *)
Definition getResponse (pollId userId : string) (s : State)
    : HttpResponse ResponseBody.t :=
  match polls s !! pollId with
  | None => error 404 "Poll not found"
  | Some poll =>
      match Poll.responses poll !! userId with
      | None =>
          if JS.inherited userId
          then json 200
                 (ResponseBody.inherited
                    (JS.index (Poll.options poll) (Poll.correctAnswer poll)))
          else json 200 ResponseBody.notResponded
      | Some userResponse =>
          json 200
            (ResponseBody.responded (Response.selectedOption userResponse)
               (Response.isCorrect userResponse)
               (JS.index (Poll.options poll) (Poll.correctAnswer poll)))
      end
  end.

(** The bodies of [GET /api/poll/:pollId/user/:userId/response]:
    [{ hasResponded: false, message }] and
    [{ hasResponded: true, response, isCorrect, correctAnswer, timestamp }];
    in the last one only [correctAnswer] is defined when
    [poll.responses[userId]] is an inherited property. *)
Module UserResponseBody.
Inductive t :=
| notResponded (message : string)
| responded (response : string) (isCorrect : bool) (correctAnswer : option string)
    (timestamp : Z)
| inherited (correctAnswer : option string).
End UserResponseBody.


(** ** The serverless entry point, [api/index.js]

    The same module-level variables without Socket.io: no socket, no
    timer, no broadcast.  The poll objects are built and updated by the
    same assignments as in [server.js]. *)

Module Api.

Record State := mkState {
  polls : gmap string Poll.t;
  pollHistory : list HistoryEntry.t;
  activeParticipants : JSMap.t string Participant.t;
  chatMessages : list ChatMessage.t;
  kickedOutStudents : gset string;
  currentPoll : option string
}.

Definition initial : State := mkState ∅ [] [] [] ∅ None.

Definition currentPollObject (s : State) : option Poll.t :=
  match currentPoll s with
  | None => None
  | Some ref => polls s !! ref
  end.

(** [GET /api/poll/current] *)
Definition getCurrentPoll (s : State) : HttpResponse CurrentBody.t :=
  match currentPollObject s with
  | None => json 200 (CurrentBody.noPoll "No active poll")
  | Some poll =>
      json 200 (CurrentBody.current (createPollResponse (Some poll))
                  (JSMap.values (activeParticipants s)) (chatMessages s))
  end.

Definition currentPollActive (s : State) : bool :=
  match currentPollObject s with
  | None => false
  | Some poll => Poll.isActive poll
  end.

(** [POST /api/poll/create] *)
Definition createPoll (pollId : string) (now : Z) (req : CreateRequest.t)
    (s : State) : State * HttpResponse PollBody.t :=
  if negb (JS.truthy (CreateRequest.question req))
     || (JS.length (CreateRequest.options req) <? 2)
  then (s, error 400 "Question and at least 2 options are required")
  else if negb (JS.truthy (CreateRequest.teacherId req))
          || negb (JS.truthy (CreateRequest.teacherName req))
  then (s, error 400 "Teacher ID and name are required")
  else if currentPollActive s
  then (s, error 409 "There is already an active poll. Please end it before creating a new one.")
  else
    let poll := newPoll pollId now req in
    ({| polls := <[pollId := poll]> (polls s);
        pollHistory := pollHistory s;
        activeParticipants := activeParticipants s;
        chatMessages := chatMessages s;
        kickedOutStudents := kickedOutStudents s;
        currentPoll := Some pollId |},
     json 201 (PollBody.mk (pollView poll) "Poll created successfully")).

(** [GET /api/polls/history] *)
Definition getHistory (teacherId : string) (s : State) : HttpResponse HistoryBody.t :=
  if negb (JS.truthy teacherId) then error 400 "Teacher ID is required"
  else
    let formattedHistory :=
      List.map formatHistory (teacherHistory teacherId (pollHistory s)) in
    json 200 (HistoryBody.mk formattedHistory (JS.length formattedHistory)).

(** [GET /api/poll/:pollId/response/:userId] *)
Definition getResponse (pollId userId : string) (s : State)
    : HttpResponse ResponseBody.t :=
  match polls s !! pollId with
  | None => error 404 "Poll not found"
  | Some poll =>
      match Poll.responses poll !! userId with
      | None =>
          if JS.inherited userId
          then json 200
                 (ResponseBody.inherited
                    (JS.index (Poll.options poll) (Poll.correctAnswer poll)))
          else json 200 ResponseBody.notResponded
      | Some userResponse =>
          json 200
            (ResponseBody.responded (Response.selectedOption userResponse)
               (Response.isCorrect userResponse)
               (JS.index (Poll.options poll) (Poll.correctAnswer poll)))
      end
  end.

(** [POST /api/poll/:pollId/start]: no broadcast and no timer. *)
Definition startPoll (now : Z) (pollId teacherId : string) (s : State)
    : State * HttpResponse PollBody.t :=
  match polls s !! pollId with
  | None => (s, error 404 "Poll not found")
  | Some poll =>
      if negb (String.eqb (Poll.teacherId poll) teacherId)
      then (s, error 403 "Only the poll creator can start this poll")
      else if Poll.isActive poll
      then (s, error 409 "Poll is already active")
      else
        let poll' := startedPoll now poll in
        ({| polls := <[pollId := poll']> (polls s);
            pollHistory := pollHistory s;
            activeParticipants := activeParticipants s;
            chatMessages := [];
            kickedOutStudents := kickedOutStudents s;
            currentPoll := currentPoll s |},
         json 200 (PollBody.mk (pollView poll') "Poll started successfully"))
  end.

(** [POST /api/poll/:pollId/response] *)
Definition submitResponse (now : Z)
    (pollId studentId studentName selectedOption : string) (s : State)
    : State * HttpResponse SubmitBody.t :=
  if bool_decide (studentId ∈ kickedOutStudents s)
  then (s, error 403 "You have been removed from this session")
  else
    match polls s !! pollId with
    | None => (s, error 404 "Poll not found")
    | Some poll =>
        if negb (Poll.isActive poll)
        then (s, error 400 "Poll is not currently active")
        else if negb (JS.includes (Poll.options poll) selectedOption)
        then (s, error 400 "Invalid option selected")
        else
          match Poll.responses poll !! studentId with
          | Some _ => (s, error 409 "You have already responded to this poll")
          | None =>
              if JS.inherited studentId
              then (s, error 409 "You have already responded to this poll")
              else
              let poll' :=
                respondedPoll now studentId studentName selectedOption poll in
              ({| polls := <[pollId := poll']> (polls s);
                  pollHistory := pollHistory s;
                  activeParticipants := activeParticipants s;
                  chatMessages := chatMessages s;
                  kickedOutStudents := kickedOutStudents s;
                  currentPoll := currentPoll s |},
               json 200
                 (SubmitBody.mk "Response submitted successfully"
                    (bool_decide
                       (JS.index (Poll.options poll) (Poll.correctAnswer poll)
                        = Some selectedOption))))
          end
    end.

(** [POST /api/participant/join] *)
Definition join (now : Z) (studentId studentName : string) (s : State)
    : State * HttpResponse JoinBody.t :=
  if negb (JS.truthy studentId) || negb (JS.truthy studentName)
  then (s, error 400 "Student ID and name are required")
  else if bool_decide (studentId ∈ kickedOutStudents s)
  then (s, error 403 "You have been removed from this session")
  else
    let participants :=
      JSMap.set (activeParticipants s) studentId
        (Participant.mk studentId studentName student now) in
    ({| polls := polls s;
        pollHistory := pollHistory s;
        activeParticipants := participants;
        chatMessages := chatMessages s;
        kickedOutStudents := kickedOutStudents s;
        currentPoll := currentPoll s |},
     json 200 (JoinBody.mk "Successfully joined as participant"
                 (JSMap.get participants studentId))).

(** [GET /api/chat/messages] *)
Definition getChatMessages (s : State) : HttpResponse (list ChatMessage.t) :=
  json 200 (chatMessages s).

(** The requests that write the state. *)
Inductive Request :=
| CreatePoll (pollId : string) (now : Z) (req : CreateRequest.t)
| StartPoll (now : Z) (pollId teacherId : string)
| SubmitResponse (now : Z) (pollId studentId studentName selectedOption : string)
| Join (now : Z) (studentId studentName : string).

Definition exec (r : Request) (s : State) : State :=
  match r with
  | CreatePoll pollId now req => (createPoll pollId now req s).1
  | StartPoll now pollId teacherId => (startPoll now pollId teacherId s).1
  | SubmitResponse now pollId studentId studentName selectedOption =>
      (submitResponse now pollId studentId studentName selectedOption s).1
  | Join now studentId studentName => (join now studentId studentName s).1
  end.

Definition run (rs : list Request) (s : State) : State :=
  fold_left (fun s r => exec r s) rs s.

End Api.

(** The variables the two entry points share. *)
Definition apiView (s : State) : Api.State :=
  {| Api.polls := polls s;
     Api.pollHistory := pollHistory s;
     Api.activeParticipants := activeParticipants s;
     Api.chatMessages := chatMessages s;
     Api.kickedOutStudents := kickedOutStudents s;
     Api.currentPoll := currentPoll s |}.

(** The REST request as a turn of the socket server. *)
Definition asCommand (r : Api.Request) : Command :=
  match r with
  | Api.CreatePoll pollId now req => CreatePoll pollId now req
  | Api.StartPoll now pollId teacherId => StartPoll now pollId teacherId
  | Api.SubmitResponse now pollId studentId studentName selectedOption =>
      SubmitResponse now pollId studentId studentName selectedOption
  | Api.Join now studentId studentName => Join now studentId studentName
  end.

(** *** Predicates and measures used in the statements *)

(** What one turn can do to a stored poll object. *)
Inductive pollStep (c : Command) (ref : string) (poll : Poll.t) : Poll.t -> Prop :=
| step_same : pollStep c ref poll poll
| step_start now :
    c = StartPoll now ref (Poll.teacherId poll) ->
    Poll.isActive poll = false ->
    pollStep c ref poll (startedPoll now poll)
| step_respond now studentId studentName selectedOption :
    c = SubmitResponse now ref studentId studentName selectedOption ->
    Poll.isActive poll = true ->
    JS.includes (Poll.options poll) selectedOption = true ->
    Poll.responses poll !! studentId = None ->
    JS.inherited studentId = false ->
    pollStep c ref poll
      (respondedPoll now studentId studentName selectedOption poll)
| step_tick now :
    c = Tick now ref ->
    pollStep c ref poll (decrementTimeLeft poll)
| step_expire now :
    c = Tick now ref ->
    Poll.timeLeft poll - 1 <= 0 ->
    pollStep c ref poll (endedPoll now (decrementTimeLeft poll)).

(** Every entry of the tally has count zero. *)
Definition allZero (results : gmap string Tally.t) : Prop :=
  map_Forall (fun _ tally => Tally.count tally = 0) results.

(** The tally counts of a poll add up to the size of its responses. *)
Definition counted_once (poll : Poll.t) : Prop :=
  sumCounts (Poll.results poll) = Z.of_nat (size (Poll.responses poll)).

(** The sum of the counts read for a list of options. *)
Definition totalOf (results : gmap string Tally.t) (options : list string) : Z :=
  foldr Z.add 0 (tallyCount results <$> options).

(** What the second loop writes into an entry. *)
Definition withPercentage (totalResponses : Z) (r : FinalResult.t) : FinalResult.t :=
  FinalResult.mk (FinalResult.count r)
    (percent (FinalResult.count r) totalResponses) (FinalResult.isCorrect r).

(** Every key of the tally is an option of the poll. *)
Definition tallyInOptions (poll : Poll.t) : Prop :=
  forall option, is_Some (Poll.results poll !! option) -> option ∈ Poll.options poll.

(** An ended poll carries the summary and the final results of its own
    tally. *)
Definition endedSummary (poll : Poll.t) : Prop :=
  pollState poll = Ended ->
  Poll.summary poll = Some (summaryOf poll) /\
  Poll.finalResults poll = Some (finalResultsOf poll).

(** The integer [r] is the finite double with sign [s], mantissa [m] and
    exponent [e], that is [±m·2^e], rounded to an integer with a tie
    going up: [r - 1/2 <= ±m·2^e < r + 1/2]. *)
Definition roundedHalfUp (s : bool) (m : positive) (e r : Z) : Prop :=
  let n := if s then Z.neg m else Z.pos m in
  match e with
  | Zneg k => (2 * r - 1) * 2 ^ Z.pos k <= 2 * n < (2 * r + 1) * 2 ^ Z.pos k
  | _ => r = n * 2 ^ e
  end.

(** The percentage in the words of the spec, round-half-up of the exact
    ratio: the integer [p] with [p - 1/2 <= 100·count/total < p + 1/2]
    when the total is positive, and 0 otherwise. *)
Module SpecRule.
Definition percentage (count total : Z) : Z :=
  if (total >? 0) then (200 * count + total) / (2 * total) else 0.
End SpecRule.

(** The part of the state that only the poll routes and the timers
    write. *)
Definition sessionCore (s : State)
    : gmap string Poll.t * list HistoryEntry.t * list ChatMessage.t
      * option string * list string :=
  (polls s, pollHistory s, chatMessages s, currentPoll s, timers s).

(** Proof step: the poll is found again, as it was. *)
Ltac poll_kept poll := exists poll; split; [done | constructor].

(** *** Scenario A of the spec, and the states used as examples *)

Module Scenario.

Definition request (options : list string) (duration correctAnswer : option Z)
    : CreateRequest.t :=
  CreateRequest.mk "Which one?" options duration "t1" "Teacher" correctAnswer.

Definition created : list Command :=
  [CreatePoll "p1" 1000 (request ["A"; "B"] (Some 10) (Some 0))].

Definition answered : list Command :=
  created ++
  [StartPoll 2000 "p1" "t1";
   SubmitResponse 2300 "p1" "s1" "Ann" "A";
   SubmitResponse 2600 "p1" "s2" "Bob" "B"].

Definition ticks (n : nat) (ref : string) : list Command :=
  List.map (fun k => Tick (3000 + 1000 * Z.of_nat k) ref) (seq 0 n).

(** The poll is one tick away from expiry. *)
Definition beforeExpiry : State := run (answered ++ ticks 9 "p1") initial.

(** The timer has expired and [endPoll] has run. *)
Definition ended : State := run (answered ++ ticks 10 "p1") initial.

End Scenario.

(** Two drafts created one after the other, then both started. *)
Module TwoDrafts.

Definition commands : list Command :=
  [CreatePoll "p1" 1000 (Scenario.request ["A"; "B"] (Some 10) (Some 0));
   CreatePoll "p2" 2000 (Scenario.request ["C"; "D"] (Some 10) (Some 0));
   StartPoll 3000 "p1" "t1";
   StartPoll 4000 "p2" "t1"].

Definition final : State := run commands initial.

End TwoDrafts.

(** Scenario A with the option text A given twice and one response. *)
Module Repeated.

Definition commands : list Command :=
  [CreatePoll "p1" 1000 (Scenario.request ["A"; "A"] (Some 10) (Some 0));
   StartPoll 2000 "p1" "t1";
   SubmitResponse 2300 "p1" "s1" "Ann" "A"]
  ++ Scenario.ticks 10 "p1".

Definition final : State := run commands initial.

End Repeated.

(** Scenario A with the option texts A and [__proto__], one response
    for each. *)
Module Proto.

Definition commands : list Command :=
  [CreatePoll "p1" 1000 (Scenario.request ["A"; "__proto__"] (Some 10) (Some 0));
   StartPoll 2000 "p1" "t1";
   SubmitResponse 2300 "p1" "s1" "Ann" "A";
   SubmitResponse 2600 "p1" "s2" "Bob" "__proto__"]
  ++ Scenario.ticks 10 "p1".

Definition final : State := run commands initial.

End Proto.

(** Scenario A with forty students, of whom the first twenty-three
    answer A and the others B. *)
Module Tie.

Definition student (k : nat) : string :=
  String "s" (String (ascii_of_nat (48 + k / 10))
                (String (ascii_of_nat (48 + k mod 10)) EmptyString)).

Definition responses : list Command :=
  List.map
    (fun k =>
       SubmitResponse (2000 + Z.of_nat k) "p1" (student k) (student k)
         (if (k <? 23)%nat then "A" else "B"))
    (seq 0 40).

Definition commands : list Command :=
  [CreatePoll "p1" 1000 (Scenario.request ["A"; "B"] (Some 10) (Some 0));
   StartPoll 2000 "p1" "t1"]
  ++ responses ++ Scenario.ticks 10 "p1".

Definition final : State := run commands initial.

End Tie.

(** A teacher socket has kicked the student [s1]. *)
Module Kicked.

Definition commands : list Command :=
  [Connection 1; JoinTeacher 1 "t1" "Teacher"; KickParticipant 1 "s1" None].

Definition final : State := run commands initial.

End Kicked.

(** *** Predicates used in the statements about the primitives *)

(** Every code unit of the string is white space. *)
Definition allWhiteSpace (s : string) : bool :=
  forallb JS.isWhiteSpace (list_ascii_of_string s).

(** The first code unit of the string is white space. *)
Definition startsWithWhiteSpace (s : string) : bool :=
  match s with
  | EmptyString => false
  | String c _ => JS.isWhiteSpace c
  end.

(** The last code unit of the string is white space. *)
Definition endsWithWhiteSpace (s : string) : bool :=
  startsWithWhiteSpace (JS.reverse s).

(** *** Predicates used in the statements about the stored polls *)

(** The fields of a poll that the create route fixes. *)
Definition definitionOf (poll : Poll.t)
    : string * string * list string * Z * Z * string * string * Z :=
  (Poll.id poll, Poll.question poll, Poll.options poll, Poll.duration poll,
   Poll.correctAnswer poll, Poll.teacherId poll, Poll.teacherName poll,
   Poll.createdAt poll).

(** The two validation tests of the create route pass. *)
Definition validated (req : CreateRequest.t) : Prop :=
  CreateRequest.question req <> "" /\
  2 <= JS.length (CreateRequest.options req) /\
  CreateRequest.teacherId req <> "" /\
  CreateRequest.teacherName req <> "".

(** The poll stored under [ref] was built from a validated request. *)
Definition createdFrom (ref : string) (poll : Poll.t) : Prop :=
  exists now req,
    validated req /\ definitionOf poll = definitionOf (newPoll ref now req).

(** What one turn does to the polls, the timers and the history. *)
Inductive engineStep (s : State) (c : Command) (s' : State) : Prop :=
| engine_idle :
    polls s' = polls s -> timers s' = timers s ->
    pollHistory s' = pollHistory s ->
    engineStep s c s'
| engine_create pollId now req :
    c = CreatePoll pollId now req ->
    validated req ->
    currentPollActive s = false ->
    polls s' = <[pollId := newPoll pollId now req]> (polls s) ->
    timers s' = timers s ->
    pollHistory s' = pollHistory s ->
    engineStep s c s'
| engine_start now ref poll :
    c = StartPoll now ref (Poll.teacherId poll) ->
    polls s !! ref = Some poll ->
    Poll.isActive poll = false ->
    polls s' = <[ref := startedPoll now poll]> (polls s) ->
    timers s' = (timers s ++ [ref])%list ->
    pollHistory s' = pollHistory s ->
    engineStep s c s'
| engine_respond now ref studentId studentName selectedOption poll :
    c = SubmitResponse now ref studentId studentName selectedOption ->
    polls s !! ref = Some poll ->
    Poll.isActive poll = true ->
    JS.includes (Poll.options poll) selectedOption = true ->
    Poll.responses poll !! studentId = None ->
    JS.inherited studentId = false ->
    studentId ∉ kickedOutStudents s ->
    polls s'
    = <[ref := respondedPoll now studentId studentName selectedOption poll]>
        (polls s) ->
    timers s' = timers s ->
    pollHistory s' = pollHistory s ->
    engineStep s c s'
| engine_tick now ref poll :
    c = Tick now ref ->
    JS.includes (timers s) ref = true ->
    polls s !! ref = Some poll ->
    0 < Poll.timeLeft poll - 1 ->
    polls s' = <[ref := decrementTimeLeft poll]> (polls s) ->
    timers s' = timers s ->
    pollHistory s' = pollHistory s ->
    engineStep s c s'
| engine_expire now ref poll :
    c = Tick now ref ->
    JS.includes (timers s) ref = true ->
    polls s !! ref = Some poll ->
    Poll.timeLeft poll - 1 <= 0 ->
    polls s' = <[ref := endedPoll now (decrementTimeLeft poll)]> (polls s) ->
    timers s' = clearInterval ref (timers s) ->
    pollHistory s'
    = (pollHistory s ++
         [HistoryEntry.mk (endedPoll now (decrementTimeLeft poll))
            (JSMap.values (activeParticipants s))])%list ->
    engineStep s c s'.

(** The running timers are those of the active polls, one each, and an
    active poll has time left. *)
Definition timersMatch (s : State) : Prop :=
  NoDup (timers s) /\
  (forall ref,
     ref ∈ timers s <->
     exists poll, polls s !! ref = Some poll /\ Poll.isActive poll = true) /\
  (forall ref poll,
     polls s !! ref = Some poll -> Poll.isActive poll = true ->
     1 <= Poll.timeLeft poll <= Poll.duration poll).

(** The ticks of the timer of [ref] at the given clock readings. *)
Definition ticksAt (ref : string) (nows : list Z) : list Command :=
  List.map (fun now => Tick now ref) nows.

(** The responses of the poll that selected the option. *)
Definition responsesFor (poll : Poll.t) (option : string)
    : gmap string Response.t :=
  filter (fun kv => Response.selectedOption kv.2 = option) (Poll.responses poll).

(** The responses of the poll that are flagged correct. *)
Definition correctResponsesOf (poll : Poll.t) : gmap string Response.t :=
  filter (fun kv => Response.isCorrect kv.2 = true) (Poll.responses poll).

(** Every response is stored under its own student id, which is not a
    property name that objects inherit, selects an option of the poll,
    and is flagged correct exactly when it selects the option at the
    correct index. *)
Definition recorded (poll : Poll.t) : Prop :=
  forall studentId response,
    Poll.responses poll !! studentId = Some response ->
    JS.inherited studentId = false /\
    Response.studentId response = studentId /\
    Response.selectedOption response ∈ Poll.options poll /\
    Response.isCorrect response
    = bool_decide (JS.index (Poll.options poll) (Poll.correctAnswer poll)
                   = Some (Response.selectedOption response)).

(** The tally entry of every option counts the responses that selected
    it and lists their authors, each once. *)
Definition tallied (poll : Poll.t) : Prop :=
  forall option,
    tallyCount (Poll.results poll) option
    = Z.of_nat (size (responsesFor poll option)) /\
    forall tally,
      Poll.results poll !! option = Some tally ->
      Z.of_nat (List.length (Tally.participants tally)) = Tally.count tally /\
      NoDup (Respondent.studentId <$> Tally.participants tally) /\
      forall respondent,
        respondent ∈ Tally.participants tally ->
        exists response,
          Poll.responses poll !! Respondent.studentId respondent = Some response /\
          Response.selectedOption response = option /\
          Response.studentName response = Respondent.studentName respondent.

(** The response is a success body, not an error. *)
Definition accepted {A : Type} (r : HttpResponse A) : Prop :=
  exists status body, r = json status body.

(** The part of the state that the join, kick and disconnect handlers
    write. *)
Definition membership (s : State)
    : JSMap.t string Participant.t * gset string * JSMap.t nat Socket.t :=
  (activeParticipants s, kickedOutStudents s, sockets s).

(** The roster lists every id once, each entry under its own id as a
    student, and holds no id that has been kicked out; every connection is
    listed once. *)
Definition rosterOK (s : State) : Prop :=
  NoDup (sockets s).*1 /\
  NoDup (activeParticipants s).*1 /\
  forall studentId participant,
    (studentId, participant) ∈ activeParticipants s ->
    Participant.id participant = studentId /\
    Participant.role participant = student /\
    studentId ∉ kickedOutStudents s.

(** A history entry as [endPoll] leaves it: the copy of a poll that has
    just ended, with its aggregates, and the roster of that moment; the
    poll it was copied from is still stored, with the same definition. *)
Definition endedSnapshot (s : State) (entry : HistoryEntry.t) : Prop :=
  let poll := HistoryEntry.poll entry in
  Poll.isActive poll = false /\
  Poll.timeLeft poll = 0 /\
  is_Some (Poll.endTime poll) /\
  Poll.finalResults poll = Some (finalResultsOf poll) /\
  Poll.summary poll = Some (summaryOf poll) /\
  Forall (fun participant => Participant.role participant = student)
    (HistoryEntry.participants entry) /\
  exists stored,
    polls s !! Poll.id poll = Some stored /\
    definitionOf stored = definitionOf poll.

(** * Properties *)

(** ** Basic facts about the primitives and the transition system *)

Lemma run_app (cs1 cs2 : list Command) (s : State) :
  run (cs1 ++ cs2) s = run cs2 (run cs1 s).
Proof. unfold run. apply fold_left_app. Qed.

Lemma run_cons (c : Command) (cs : list Command) (s : State) :
  run (c :: cs) s = run cs (exec c s).
Proof. reflexivity. Qed.

Lemma reachable_run (cs : list Command) (s : State) :
  reachable s -> allEnabled cs s = true -> reachable (run cs s).
Proof.
  revert s. induction cs as [|c cs IH]; intros s Hs Hen; simpl in *.
  - exact Hs.
  - apply andb_true_iff in Hen as [Hc Hcs].
    apply IH; [by apply reachable_step | exact Hcs].
Qed.

Lemma failsWith_status {A : Type} (status : Z) (message : string) (e : ErrorKind) :
  failsWith (@error A status message) e <-> status = statusOf e.
Proof.
  unfold failsWith. split.
  - intros [m Hm]. congruence.
  - intros ->. by exists message.
Qed.

Lemma json_not_failsWith {A : Type} (status : Z) (body : A) (e : ErrorKind) :
  ~ failsWith (json status body) e.
Proof. intros [m Hm]. discriminate. Qed.

(** *** How each handler changes the store of polls *)

Lemma createPoll_polls pollId now req s :
  polls (createPoll pollId now req s).1 = polls s \/
  polls (createPoll pollId now req s).1 = <[pollId := newPoll pollId now req]> (polls s).
Proof.
  unfold createPoll.
  repeat match goal with |- context [if ?b then _ else _] => destruct b end;
    simpl; auto.
Qed.

Lemma startPoll_polls now pollId teacherId s :
  polls (startPoll now pollId teacherId s).1.1 =
    match polls s !! pollId with
    | Some poll =>
        if String.eqb (Poll.teacherId poll) teacherId && negb (Poll.isActive poll)
        then <[pollId := startedPoll now poll]> (polls s)
        else polls s
    | None => polls s
    end.
Proof.
  unfold startPoll. destruct (polls s !! pollId) as [poll|]; [|done].
  destruct (String.eqb _ _); simpl; [|done].
  by destruct (Poll.isActive poll).
Qed.

Lemma submitResponse_polls now pollId studentId studentName selectedOption s :
  polls (submitResponse now pollId studentId studentName selectedOption s).1.1
  = polls s \/
  exists poll,
    polls s !! pollId = Some poll /\ Poll.isActive poll = true /\
    JS.includes (Poll.options poll) selectedOption = true /\
    Poll.responses poll !! studentId = None /\
    JS.inherited studentId = false /\
    polls (submitResponse now pollId studentId studentName selectedOption s).1.1
    = <[pollId := respondedPoll now studentId studentName selectedOption poll]>
        (polls s).
Proof.
  unfold submitResponse. case_bool_decide; [by left|].
  destruct (polls s !! pollId) as [poll|] eqn:Hp; [|by left].
  destruct (Poll.isActive poll) eqn:Ha; simpl; [|by left].
  destruct (JS.includes _ _) eqn:Hi; simpl; [|by left].
  destruct (Poll.responses poll !! studentId) eqn:Hr; [by left|].
  destruct (JS.inherited studentId) eqn:Hn; [by left|].
  right. by exists poll.
Qed.

Lemma endPoll_polls now ref s :
  polls (endPoll now ref s).1 =
    match polls s !! ref with
    | Some poll => <[ref := endedPoll now poll]> (polls s)
    | None => polls s
    end.
Proof. unfold endPoll. by destruct (polls s !! ref). Qed.

Lemma tick_polls now ref s :
  polls (tick now ref s).1 =
    match polls s !! ref with
    | Some poll =>
        if negb (JS.includes (timers s) ref) then polls s
        else if Poll.timeLeft poll - 1 <=? 0
        then <[ref := endedPoll now (decrementTimeLeft poll)]> (polls s)
        else <[ref := decrementTimeLeft poll]> (polls s)
    | None => polls s
    end.
Proof.
  unfold tick. destruct (negb _); [by destruct (polls s !! ref)|].
  destruct (polls s !! ref) as [poll|] eqn:Hp; [|done].
  cbn [Poll.timeLeft decrementTimeLeft].
  destruct (Poll.timeLeft poll - 1 <=? 0); [|done].
  unfold endPoll. cbn [polls]. rewrite lookup_insert_eq. cbn.
  by rewrite insert_insert_eq.
Qed.

Lemma join_polls now studentId studentName s :
  polls (join now studentId studentName s).1 = polls s.
Proof.
  unfold join.
  repeat match goal with |- context [if ?b then _ else _] => destruct b end;
    done.
Qed.

Lemma connection_polls socket s : polls (connection socket s) = polls s.
Proof. unfold connection. by destruct (JSMap.has _ _). Qed.

Lemma joinTeacher_polls socket teacherId teacherName s :
  polls (joinTeacher socket teacherId teacherName s).1 = polls s.
Proof. unfold joinTeacher. by destruct (JSMap.get _ _). Qed.

Lemma joinParticipant_polls now socket studentId studentName s :
  polls (joinParticipant now socket studentId studentName s).1 = polls s.
Proof.
  unfold joinParticipant. destruct (JSMap.get _ _); [|done].
  by case_bool_decide.
Qed.

Lemma sendMessage_polls now socket messageId message senderName senderRole senderId s :
  polls (sendMessage now socket messageId message senderName senderRole senderId s).1
  = polls s.
Proof.
  unfold sendMessage. destruct (JSMap.get _ _); [|done].
  by destruct (_ && _).
Qed.

Lemma disconnect_polls socket s : polls (disconnect socket s).1 = polls s.
Proof.
  unfold disconnect. destruct (JSMap.get _ _) as [sock|]; [|done].
  by destruct (isStudentSocket sock).
Qed.

Lemma kickParticipant_polls socket studentId reason s :
  polls (kickParticipant socket studentId reason s).1 = polls s.
Proof.
  unfold kickParticipant. destruct (JSMap.get _ _) as [sock|]; [|done].
  destruct (Socket.role sock) as [[]|]; try done.
  destruct (List.find _ _) as [[k sock']|]; [|done].
  match goal with
  | |- context [disconnect k ?s1] =>
      pose proof (disconnect_polls k s1) as Hd;
      destruct (disconnect k s1) as [s2 events]
  end.
  exact Hd.
Qed.

Lemma exec_lookup_Some (s : State) (c : Command) (ref : string) (poll : Poll.t) :
  enabled c s = true ->
  polls s !! ref = Some poll ->
  exists poll', polls (exec c s) !! ref = Some poll' /\ pollStep c ref poll poll'.
Proof.
  intros Hen Hp. destruct c; cbn [exec enabled] in *.
  - apply bool_decide_eq_true_1 in Hen.
    assert (pollId <> ref) by congruence.
    exists poll. split; [|constructor].
    destruct (createPoll_polls pollId now req s) as [-> | ->]; [done|].
    by rewrite lookup_insert_ne.
  - rewrite startPoll_polls.
    destruct (decide (pollId = ref)) as [->|Hne].
    + rewrite Hp. destruct (String.eqb _ _) eqn:Ht; simpl.
      * apply String.eqb_eq in Ht. subst teacherId.
        destruct (Poll.isActive poll) eqn:Ha; simpl.
        -- poll_kept poll.
        -- eexists. rewrite lookup_insert_eq. split; [done|].
           by eapply step_start.
      * poll_kept poll.
    + exists poll. split; [|constructor].
      destruct (polls s !! pollId) as [other|]; [|done].
      destruct (_ && _); [by rewrite lookup_insert_ne | done].
  - destruct (submitResponse_polls now pollId studentId studentName selectedOption s)
      as [-> | (other & Ho & Ha & Hi & Hr & Hn & ->)].
    + poll_kept poll.
    + destruct (decide (pollId = ref)) as [->|Hne].
      * rewrite Hp in Ho. injection Ho as <-.
        eexists. rewrite lookup_insert_eq. split; [done|].
        by eapply step_respond.
      * rewrite lookup_insert_ne by done. poll_kept poll.
  - rewrite join_polls. poll_kept poll.
  - rewrite tick_polls.
    destruct (decide (ref0 = ref)) as [->|Hne].
    + rewrite Hp. destruct (negb _).
      * poll_kept poll.
      * destruct (Poll.timeLeft poll - 1 <=? 0) eqn:Ht.
        -- eexists. rewrite lookup_insert_eq. split; [done|].
           eapply step_expire; [done | lia].
        -- eexists. rewrite lookup_insert_eq. split; [done|].
           by eapply step_tick.
    + exists poll. split; [|constructor].
      destruct (polls s !! ref0) as [other|]; [|done].
      destruct (negb _); [done|].
      destruct (_ <=? _); by rewrite lookup_insert_ne.
  - rewrite connection_polls. poll_kept poll.
  - rewrite joinTeacher_polls. poll_kept poll.
  - rewrite joinParticipant_polls. poll_kept poll.
  - rewrite sendMessage_polls. poll_kept poll.
  - rewrite kickParticipant_polls. poll_kept poll.
  - rewrite disconnect_polls. poll_kept poll.
Qed.

Lemma exec_lookup_None (s : State) (c : Command) (ref : string) :
  polls s !! ref = None ->
  polls (exec c s) !! ref = None \/
  exists now req,
    c = CreatePoll ref now req /\
    polls (exec c s) !! ref = Some (newPoll ref now req).
Proof.
  intros Hp. destruct c; cbn [exec] in *.
  - destruct (createPoll_polls pollId now req s) as [-> | ->]; [by left|].
    destruct (decide (pollId = ref)) as [->|Hne].
    + right. exists now, req. by rewrite lookup_insert_eq.
    + left. by rewrite lookup_insert_ne.
  - left. rewrite startPoll_polls.
    destruct (polls s !! pollId) as [other|] eqn:Ho; [|done].
    destruct (_ && _); [|done].
    rewrite lookup_insert_ne; [done | congruence].
  - left.
    destruct (submitResponse_polls now pollId studentId studentName selectedOption s)
      as [-> | (other & Ho & _ & _ & _ & _ & ->)]; [done|].
    rewrite lookup_insert_ne; [done | congruence].
  - left. by rewrite join_polls.
  - left. rewrite tick_polls.
    destruct (polls s !! ref0) as [other|] eqn:Ho; [|done].
    destruct (negb _); [done|].
    destruct (_ <=? _); (rewrite lookup_insert_ne; [done | congruence]).
  - left. by rewrite connection_polls.
  - left. by rewrite joinTeacher_polls.
  - left. by rewrite joinParticipant_polls.
  - left. by rewrite sendMessage_polls.
  - left. by rewrite kickParticipant_polls.
  - left. by rewrite disconnect_polls.
Qed.

(** Induction principle for the stored polls: a property that holds of
    a new poll and is kept by every step of a poll holds of every poll of
    every reachable state. *)
Lemma reachable_poll_invariant (P : Poll.t -> Prop) :
  (forall pollId now req, P (newPoll pollId now req)) ->
  (forall c ref poll poll', pollStep c ref poll poll' -> P poll -> P poll') ->
  forall s, reachable s ->
  forall ref poll, polls s !! ref = Some poll -> P poll.
Proof.
  intros Hnew Hstep s. induction 1 as [|s c Hs IH Hen]; intros ref poll' Hp'.
  - change (polls initial) with (∅ : gmap string Poll.t) in Hp'.
    by rewrite lookup_empty in Hp'.
  - destruct (polls s !! ref) as [poll|] eqn:Hp.
    + destruct (exec_lookup_Some s c ref poll Hen Hp) as (poll'' & Hp'' & Hps).
      rewrite Hp' in Hp''. injection Hp'' as <-.
      eapply Hstep; [exact Hps | by eapply IH].
    + destruct (exec_lookup_None s c ref Hp) as [Hn | (now & req & _ & Hp'')].
      * congruence.
      * rewrite Hp' in Hp''. injection Hp'' as ->. apply Hnew.
Qed.

Lemma pollState_startedPoll now poll : pollState (startedPoll now poll) = Active.
Proof. reflexivity. Qed.

Lemma pollState_endedPoll now poll : pollState (endedPoll now poll) = Ended.
Proof. reflexivity. Qed.

Lemma pollState_respondedPoll now studentId studentName selectedOption poll :
  pollState (respondedPoll now studentId studentName selectedOption poll)
  = pollState poll.
Proof. reflexivity. Qed.

Lemma pollState_decrementTimeLeft poll :
  pollState (decrementTimeLeft poll) = pollState poll.
Proof. reflexivity. Qed.

Lemma pollState_Active poll : pollState poll = Active <-> Poll.isActive poll = true.
Proof.
  unfold pollState. destruct (Poll.isActive poll); [done|].
  destruct (Poll.finalResults poll); split; discriminate.
Qed.

(** ** C1: two polls can be active together *)

(** C1 (the code departs from the claim).  The guard of the create route
    looks at [currentPoll] only, and the start route has no guard on
    other polls: the state reached by creating two drafts and starting
    both has [isActive] true in both stored polls, so the store holds two
    active polls. *)
Theorem startPoll_two_active_polls :
  reachable TwoDrafts.final /\
  (Poll.isActive <$> polls TwoDrafts.final !! "p1") = Some true /\
  (Poll.isActive <$> polls TwoDrafts.final !! "p2") = Some true /\
  List.length (activePolls TwoDrafts.final) = 2%nat.
Proof.
  split.
  - apply reachable_run; [constructor | vm_compute; reflexivity].
  - vm_compute. repeat split; reflexivity.
Qed.

(** ** C2: what leaves Ended and what leaves Active *)

(** C2, counterexample.  After the timer of scenario A has expired the
    poll is Ended; its creator starts it again and it is Active. *)
Lemma ended_poll_started_again :
  (pollState <$> polls Scenario.ended !! "p1") = Some Ended /\
  (pollState <$> polls (exec (StartPoll 20000 "p1" "t1") Scenario.ended) !! "p1")
  = Some Active.
Proof. vm_compute. split; reflexivity. Qed.

(** What the start route leaves in [poll.results]: a zero entry for each
    option of the poll and nothing else. *)
Lemma initialised_results (options : list string) (results : gmap string Tally.t)
    (option : string) :
  fold_left (fun results option => <[option := Tally.mk 0 []]> results)
    options results !! option
  = if decide (option ∈ options) then Some (Tally.mk 0 [])
    else results !! option.
Proof.
  revert results. induction options as [|o options IH]; intros results;
    cbn [fold_left].
  - by rewrite decide_False by apply not_elem_of_nil.
  - rewrite IH. destruct (decide (option ∈ options)) as [Hin|Hnotin].
    + by rewrite decide_True by (by apply list_elem_of_further).
    + destruct (decide (option = o)) as [->|Hne].
      * rewrite decide_True by apply list_elem_of_here.
        apply lookup_insert_eq.
      * rewrite decide_False by (intros [?|?]%elem_of_cons; done).
        by rewrite lookup_insert_ne.
Qed.

Lemma startedPoll_reset (now : Z) (poll : Poll.t) :
  pollState (startedPoll now poll) = Active /\
  Poll.responses (startedPoll now poll) = ∅ /\
  (forall option,
     Poll.results (startedPoll now poll) !! option
     = if decide (option ∈ Poll.options poll) then Some (Tally.mk 0 [])
       else None) /\
  Poll.timeLeft (startedPoll now poll) = Poll.duration poll.
Proof.
  split; [apply pollState_startedPoll|]. split; [done|]. split; [|done].
  intros option. cbn [startedPoll Poll.results].
  by rewrite initialised_results, lookup_empty.
Qed.

(** C2 (amended).  In one turn of the server, with a fresh id for a
    created poll: a stored poll that is Ended stays Ended, unless the turn
    is a start request for its id by its creator; such a request always
    succeeds, it is answered 200 with the started poll, which is
    broadcast, and it makes the poll Active again with its responses
    emptied, its tally reset to a zero entry for each option and nothing
    else, and its whole duration left.  A stored poll that is Active
    stays Active, unless the turn is a tick of its own timer, which ends
    it. *)
Theorem ended_left_only_by_startPoll (s : State) (c : Command) (ref : string)
    (poll : Poll.t) :
  enabled c s = true ->
  polls s !! ref = Some poll ->
  (forall now,
     pollState poll = Ended ->
     exists started,
       startPoll now ref (Poll.teacherId poll) s
       = (exec (StartPoll now ref (Poll.teacherId poll)) s,
          json 200 (PollBody.mk (pollView started) "Poll started successfully"),
          [pollStarted (pollView started)
             (JSMap.values (activeParticipants s))]) /\
       polls (exec (StartPoll now ref (Poll.teacherId poll)) s) !! ref
       = Some started /\
       pollState started = Active /\
       Poll.responses started = ∅ /\
       (forall option,
          Poll.results started !! option
          = if decide (option ∈ Poll.options poll) then Some (Tally.mk 0 [])
            else None) /\
       Poll.timeLeft started = Poll.duration poll) /\
  exists poll',
    polls (exec c s) !! ref = Some poll' /\
    (pollState poll = Ended ->
     pollState poll' = Ended \/
     (pollState poll' = Active /\
      Poll.responses poll' = ∅ /\
      (forall option,
         Poll.results poll' !! option
         = if decide (option ∈ Poll.options poll) then Some (Tally.mk 0 [])
           else None) /\
      exists now, c = StartPoll now ref (Poll.teacherId poll))) /\
    (pollState poll = Active ->
     pollState poll' = Active \/
     (pollState poll' = Ended /\ exists now, c = Tick now ref)).
Proof.
  intros Hen Hp. split.
  - intros now Hs. exists (startedPoll now poll).
    assert (Poll.isActive poll = false) as Ha.
    { destruct (Poll.isActive poll) eqn:Ha; [|done].
      apply pollState_Active in Ha. congruence. }
    destruct (startedPoll_reset now poll) as (Hst & Hr & Ht & Hl).
    cbn [exec]. unfold startPoll. rewrite Hp, Ha, String.eqb_refl.
    cbn [negb fst polls]. rewrite lookup_insert_eq. done.
  - destruct (exec_lookup_Some s c ref poll Hen Hp) as (poll' & Hp' & Hstep).
    exists poll'. split; [exact Hp'|].
    destruct Hstep as [ | now Hc Ha | now sid sname opt Hc Ha Hi Hr | now Hc
                      | now Hc Ht ].
    + split; intros; by left.
    + split; intros Hs.
      * right. destruct (startedPoll_reset now poll) as (Hst & Hr & Ht & _).
        split; [done|]. split; [done|]. split; [done | by exists now].
      * apply pollState_Active in Hs. congruence.
    + rewrite pollState_respondedPoll. split; intros; by left.
    + rewrite pollState_decrementTimeLeft. split; intros; by left.
    + rewrite pollState_endedPoll. split; intros Hs.
      * by left.
      * right. split; [done | by exists now].
Qed.

(** The poll of scenario A after its timer has expired. *)
Lemma ended_poll_of_scenario :
  exists poll,
    polls Scenario.ended !! "p1" = Some poll /\
    pollState poll = Ended /\
    Poll.teacherId poll = "t1" /\
    Poll.options poll = ["A"; "B"] /\
    Poll.duration poll = 10 /\
    size (Poll.responses poll) = 2%nat /\
    sumCounts (Poll.results poll) = 2.
Proof.
  destruct (polls Scenario.ended !! "p1") as [poll|] eqn:Hp;
    [|vm_compute in Hp; discriminate].
  exists poll. split; [reflexivity|].
  vm_compute in Hp. injection Hp as <-.
  split; [reflexivity|]. split; [reflexivity|]. split; [reflexivity|].
  split; [reflexivity|]. split; vm_compute; reflexivity.
Qed.

(** C2, witness: the ended poll of scenario A, which holds two
    responses, is started again by its creator and is Active, without
    responses and with a zero count for A and for B. *)
Lemma ended_left_only_by_startPoll_witness :
  exists poll started,
    polls Scenario.ended !! "p1" = Some poll /\
    pollState poll = Ended /\
    size (Poll.responses poll) = 2%nat /\
    polls (exec (StartPoll 20000 "p1" "t1") Scenario.ended) !! "p1"
    = Some started /\
    (startPoll 20000 "p1" "t1" Scenario.ended).1.2
    = json 200 (PollBody.mk (pollView started) "Poll started successfully") /\
    pollState started = Active /\
    Poll.responses started = ∅ /\
    Poll.results started !! "A" = Some (Tally.mk 0 []) /\
    Poll.results started !! "B" = Some (Tally.mk 0 []) /\
    Poll.timeLeft started = 10.
Proof.
  destruct ended_poll_of_scenario
    as (poll & Hp & He & Ht & Ho & Hd & Hn & _).
  destruct (ended_left_only_by_startPoll Scenario.ended
              (StartPoll 20000 "p1" "t1") "p1" poll) as [Hstart _];
    [reflexivity | exact Hp |].
  destruct (Hstart 20000 He) as (started & Heq & Hs & Hst & Hr & Hres & Hl).
  rewrite Ht in Heq, Hs. exists poll, started.
  split; [exact Hp|]. split; [exact He|]. split; [exact Hn|].
  split; [exact Hs|]. split; [by rewrite Heq|]. split; [exact Hst|].
  split; [exact Hr|]. rewrite !Hres, Ho, Hl, Hd.
  split; [|split]; reflexivity.
Defined.

(** ** C3: validation of a create request *)

(** C3 (the code departs from the claim).  The length test of the create
    route is made on the request's [options] before they are trimmed and
    filtered: a request with the options ["A"; " "] passes it, and the
    poll that is created keeps one option. *)
Theorem createPoll_blank_option_accepted :
  let req := Scenario.request ["A"; " "] None None in
  List.length (List.filter JS.nonEmpty (List.map JS.trim (CreateRequest.options req)))
  = 1%nat /\
  exists body,
    (createPoll "p1" 1000 req initial).2 = json 201 body /\
    PollView.options (PollBody.poll body) = ["A"] /\
    (Poll.options <$> polls (createPoll "p1" 1000 req initial).1 !! "p1")
    = Some ["A"].
Proof.
  split; [reflexivity|]. eexists. split; [reflexivity|].
  split; reflexivity.
Qed.

(** What the validation of the create route does test: the question, the
    number of entries of the request's [options], and the creator. *)
Lemma createPoll_ValidationError pollId now req s :
  failsWith (createPoll pollId now req s).2 ValidationError <->
  CreateRequest.question req = "" \/
  JS.length (CreateRequest.options req) < 2 \/
  CreateRequest.teacherId req = "" \/
  CreateRequest.teacherName req = "".
Proof.
  unfold createPoll.
  destruct (CreateRequest.question req) as [|a q] eqn:Hq; simpl.
  { rewrite failsWith_status. simpl. split; [by left | done]. }
  destruct (JS.length (CreateRequest.options req) <? 2) eqn:Hl; simpl.
  { rewrite failsWith_status. simpl. split; [right; left; lia | done]. }
  destruct (CreateRequest.teacherId req) as [|b t] eqn:Ht; simpl.
  { rewrite failsWith_status. simpl. split; [by right; right; left | done]. }
  destruct (CreateRequest.teacherName req) as [|d n] eqn:Hn; simpl.
  { rewrite failsWith_status. simpl. split; [by right; right; right | done]. }
  assert (~ (String a q = "" \/ JS.length (CreateRequest.options req) < 2 \/
             String b t = "" \/ String d n = "")) as Hno.
  { intros [?|[?|[?|?]]]; try discriminate. lia. }
  destruct (currentPollActive s); simpl.
  - rewrite failsWith_status. simpl. split; [discriminate | done].
  - split; [|done]. intros H. by apply json_not_failsWith in H.
Qed.

(** ** C4: a second response by the same participant *)

(** C4, counterexample.  In scenario A the participant [s1] has answered
    "A" and the poll is active; a further response of [s1] with an option
    that the poll does not have is rejected with status 400, the
    validation error, not with the conflict error. *)
Lemma second_response_invalid_option :
  let s := run Scenario.answered initial in
  (Poll.isActive <$> polls s !! "p1") = Some true /\
  is_Some (polls s !! "p1" ≫= fun poll => Poll.responses poll !! "s1") /\
  (submitResponse 2800 "p1" "s1" "Ann" "Z" s).1.2
  = error 400 "Invalid option selected" /\
  ~ failsWith (submitResponse 2800 "p1" "s1" "Ann" "Z" s).1.2 ConflictError.
Proof.
  cbv zeta. split; [vm_compute; reflexivity|].
  split; [vm_compute; eexists; reflexivity|].
  assert ((submitResponse 2800 "p1" "s1" "Ann" "Z" (run Scenario.answered initial)).1.2
          = error 400 "Invalid option selected") as -> by (vm_compute; reflexivity).
  split; [reflexivity|]. rewrite failsWith_status. discriminate.
Qed.

(** C4 (amended).  When a participant already has a recorded response for
    an active poll, every further response of that participant is
    rejected and leaves the whole state, hence the poll's responses and
    tally, as it was, and nothing is broadcast.  The error is the
    forbidden error when the participant has been kicked out, else the
    validation error when the selected option is not one of the poll's
    options, else the conflict error. *)
Theorem second_response_rejected (s : State) (now : Z)
    (pollId studentId studentName selectedOption : string)
    (poll : Poll.t) (r : Response.t) :
  polls s !! pollId = Some poll ->
  Poll.isActive poll = true ->
  Poll.responses poll !! studentId = Some r ->
  submitResponse now pollId studentId studentName selectedOption s
  = (s,
     if bool_decide (studentId ∈ kickedOutStudents s)
     then error (statusOf ForbiddenError) "You have been removed from this session"
     else if JS.includes (Poll.options poll) selectedOption
          then error (statusOf ConflictError)
                 "You have already responded to this poll"
          else error (statusOf ValidationError) "Invalid option selected",
     []).
Proof.
  intros Hp Ha Hr. unfold submitResponse.
  case_bool_decide; [done|].
  rewrite Hp, Ha. simpl.
  destruct (JS.includes _ _); simpl; [|done].
  by rewrite Hr.
Qed.

(** C4, witness: in scenario A, [s1] answers again, now with "B". *)
Lemma second_response_rejected_witness :
  exists poll r,
    polls (run Scenario.answered initial) !! "p1" = Some poll /\
    Poll.isActive poll = true /\
    Poll.responses poll !! "s1" = Some r /\
    submitResponse 2800 "p1" "s1" "Ann" "B" (run Scenario.answered initial)
    = (run Scenario.answered initial,
       error (statusOf ConflictError) "You have already responded to this poll",
       []).
Proof.
  eexists _, _. split; [vm_compute; reflexivity|].
  split; [reflexivity|]. split; [vm_compute; reflexivity|].
  etrans.
  - eapply second_response_rejected;
      [vm_compute; reflexivity | reflexivity | vm_compute; reflexivity].
  - vm_compute. reflexivity.
Defined.

(** ** The counts of the results add up to the number of responses *)

Section SumCounts.
Implicit Types (results : gmap string Tally.t) (tally : Tally.t).

Lemma sumCounts_empty : sumCounts ∅ = 0.
Proof. apply map_fold_empty. Qed.

Lemma sumCounts_insert_None results option tally :
  results !! option = None ->
  sumCounts (<[option := tally]> results) = Tally.count tally + sumCounts results.
Proof.
  intros Hn. unfold sumCounts.
  rewrite map_fold_insert_L; [done | intros; lia | done].
Qed.

Lemma sumCounts_delete results option tally :
  results !! option = Some tally ->
  sumCounts results = Tally.count tally + sumCounts (delete option results).
Proof.
  intros Hs. unfold sumCounts.
  rewrite (map_fold_delete_L _ _ option tally); [done | intros; lia | done].
Qed.

Lemma sumCounts_insert_Some results option old tally :
  results !! option = Some old ->
  sumCounts (<[option := tally]> results)
  = sumCounts results - Tally.count old + Tally.count tally.
Proof.
  intros Hs. rewrite (sumCounts_delete results option old Hs).
  rewrite <- insert_delete_eq.
  rewrite sumCounts_insert_None by apply lookup_delete_eq. lia.
Qed.

Lemma sumCounts_alter results option old (f : Tally.t -> Tally.t) :
  results !! option = Some old ->
  sumCounts (alter f option results)
  = sumCounts results - Tally.count old + Tally.count (f old).
Proof.
  intros Hs. rewrite <- (sumCounts_insert_Some results option old (f old) Hs).
  f_equal. apply map_eq. intros k.
  destruct (decide (k = option)) as [->|Hne].
  - by rewrite lookup_alter_eq, lookup_insert_eq, Hs.
  - by rewrite lookup_alter_ne, lookup_insert_ne.
Qed.

Lemma allZero_sumCounts results : allZero results -> sumCounts results = 0.
Proof.
  induction results as [|option tally results Hn IH] using map_ind.
  - intros _. apply sumCounts_empty.
  - intros Hz. apply map_Forall_insert in Hz as [Ht Hz]; [|done].
    rewrite sumCounts_insert_None by done. rewrite IH by done. lia.
Qed.

Lemma allZero_initialised (options : list string) results :
  allZero results ->
  allZero
    (fold_left (fun results option => <[option := Tally.mk 0 []]> results)
       options results).
Proof.
  revert results. induction options as [|option options IH]; intros results Hz.
  - exact Hz.
  - simpl. apply IH. by apply map_Forall_insert_2.
Qed.

End SumCounts.

Lemma counted_once_newPoll pollId now req : counted_once (newPoll pollId now req).
Proof.
  unfold counted_once. cbn [newPoll Poll.results Poll.responses].
  by rewrite sumCounts_empty, map_size_empty.
Qed.

Lemma counted_once_startedPoll now poll : counted_once (startedPoll now poll).
Proof.
  unfold counted_once. cbn [startedPoll Poll.results Poll.responses].
  rewrite map_size_empty. apply allZero_sumCounts, allZero_initialised.
  apply map_Forall_empty.
Qed.

Lemma counted_once_respondedPoll now studentId studentName selectedOption poll :
  Poll.responses poll !! studentId = None ->
  counted_once poll ->
  counted_once (respondedPoll now studentId studentName selectedOption poll).
Proof.
  unfold counted_once. intros Hr Hc.
  cbn [respondedPoll Poll.results Poll.responses].
  rewrite map_size_insert_None by done.
  destruct (Poll.results poll !! selectedOption) as [old|] eqn:Ho.
  - rewrite (sumCounts_alter _ _ old) by done. simpl. lia.
  - rewrite (sumCounts_alter _ _ (Tally.mk 0 [])) by apply lookup_insert_eq.
    rewrite sumCounts_insert_None by done. simpl. lia.
Qed.

Lemma counted_once_pollStep c ref poll poll' :
  pollStep c ref poll poll' -> counted_once poll -> counted_once poll'.
Proof.
  intros Hstep Hc. destruct Hstep.
  - exact Hc.
  - apply counted_once_startedPoll.
  - by apply counted_once_respondedPoll.
  - exact Hc.
  - exact Hc.
Qed.

(** In every state the server can reach, the counts that the results of
    a stored poll hold, the one under the prototype key included, add up
    to the number of keys of its responses. *)
Lemma results_counts_match_responses (s : State) (ref : string)
    (poll : Poll.t) :
  reachable s ->
  polls s !! ref = Some poll ->
  sumCounts (Poll.results poll) = Z.of_nat (size (Poll.responses poll)).
Proof.
  intros Hs Hp. fold (counted_once poll).
  eapply (reachable_poll_invariant counted_once); [| |exact Hs|exact Hp].
  - apply counted_once_newPoll.
  - apply counted_once_pollStep.
Qed.

(** ** C6: clamping at creation *)

Lemma newPoll_duration pollId now req :
  let requested := default 60 (CreateRequest.duration req) in
  Poll.duration (newPoll pollId now req)
  = (if requested <? 10 then 10 else if 300 <? requested then 300 else requested)
  /\ 10 <= Poll.duration (newPoll pollId now req) <= 300.
Proof.
  cbn [newPoll Poll.duration]. split.
  - destruct (Z.ltb_spec (default 60 (CreateRequest.duration req)) 10);
      destruct (Z.ltb_spec 300 (default 60 (CreateRequest.duration req))); lia.
  - lia.
Qed.

(** The index is clamped against the number of entries of the request's
    [options], blank ones included. *)
Lemma newPoll_correctAnswer pollId now req :
  2 <= JS.length (CreateRequest.options req) ->
  0 <= Poll.correctAnswer (newPoll pollId now req)
    <= JS.length (CreateRequest.options req) - 1.
Proof. cbn [newPoll Poll.correctAnswer]. lia. Qed.

(** C6 (the code departs from the claim).  The index is clamped against
    the length of the request's [options], not of the options the poll
    keeps: with the options ["A"; "B"; " "] and the index 2, the created
    poll has the two options "A" and "B" and the index 2, which selects
    no option.  The duration 5 of the same request is clamped to 10. *)
Theorem createPoll_index_outside_kept_options :
  let req := Scenario.request ["A"; "B"; " "] (Some 5) (Some 2) in
  let poll := newPoll "p1" 1000 req in
  (createPoll "p1" 1000 req initial).2
  = json 201 (PollBody.mk (pollView poll) "Poll created successfully") /\
  polls (createPoll "p1" 1000 req initial).1 !! "p1" = Some poll /\
  Poll.duration poll = 10 /\
  Poll.options poll = ["A"; "B"] /\
  Poll.correctAnswer poll = 2 /\
  JS.index (Poll.options poll) (Poll.correctAnswer poll) = None.
Proof. cbv zeta. repeat split; vm_compute; reflexivity. Qed.

(** ** C7: aggregation at the end of a poll *)

Lemma totalOf_cons results option options :
  totalOf results (option :: options)
  = tallyCount results option + totalOf results options.
Proof. reflexivity. Qed.

Section CountLoop.
Variable results : gmap string Tally.t.
Variable correctAnswer : Z.

Lemma countLoop_total options index finalResults total correct :
  (countLoop results correctAnswer options index (finalResults, total, correct)).1.2
  = total + totalOf results options.
Proof.
  revert index finalResults total correct.
  induction options as [|option options IH]; intros; cbn [countLoop].
  - unfold totalOf. simpl. lia.
  - rewrite IH, totalOf_cons. lia.
Qed.

Lemma countLoop_lookup_notin options index finalResults total correct option :
  option ∉ options ->
  (countLoop results correctAnswer options index (finalResults, total, correct)).1.1
    !! option
  = finalResults !! option.
Proof.
  revert index finalResults total correct.
  induction options as [|o options IH]; intros index fr t c Hnotin;
    cbn [countLoop].
  - done.
  - apply not_elem_of_cons in Hnotin as [Hne Hnotin].
    rewrite IH by done. by rewrite lookup_insert_ne.
Qed.

Lemma countLoop_lookup options index finalResults total correct i option :
  NoDup options ->
  options !! i = Some option ->
  (countLoop results correctAnswer options index (finalResults, total, correct)).1.1
    !! option
  = Some (FinalResult.mk (tallyCount results option) 0
            (index + Z.of_nat i =? correctAnswer)).
Proof.
  revert index finalResults total correct i.
  induction options as [|o options IH]; intros index fr t c i Hnd Hi.
  - by rewrite lookup_nil in Hi.
  - apply NoDup_cons in Hnd as [Hnotin Hnd].
    destruct i as [|i]; cbn [countLoop]; simpl in Hi.
    + injection Hi as ->.
      rewrite countLoop_lookup_notin by done.
      rewrite lookup_insert_eq. by rewrite Z.add_0_r.
    + rewrite (IH _ _ _ _ i) by done.
      do 3 f_equal. lia.
Qed.

End CountLoop.

Lemma percentLoop_lookup totalResponses options finalResults option :
  percentLoop totalResponses options finalResults !! option
  = if decide (option ∈ options)
    then withPercentage totalResponses <$> finalResults !! option
    else finalResults !! option.
Proof.
  unfold percentLoop. revert finalResults.
  induction options as [|o options IH]; intros fr; simpl.
  - destruct (decide (option ∈ [])) as [Hin|]; [by apply elem_of_nil in Hin | done].
  - rewrite IH. fold (withPercentage totalResponses).
    destruct (decide (option = o)) as [->|Hne].
    + rewrite lookup_alter_eq.
      rewrite (decide_True _ _ (list_elem_of_here o options)).
      destruct (decide (o ∈ options)); [|done].
      by destruct (fr !! o).
    + rewrite lookup_alter_ne by done.
      destruct (decide (option ∈ options)) as [Hin|Hnotin].
      * by rewrite decide_True by (by apply list_elem_of_further).
      * rewrite decide_False; [done|].
        intros [?|?]%elem_of_cons; done.
Qed.

Lemma counted_total poll :
  (counted poll).1.2 = totalOf (Poll.results poll) (Poll.options poll).
Proof. unfold counted. by rewrite countLoop_total. Qed.

Lemma finalResultsOf_unfold poll :
  finalResultsOf poll
  = if totalOf (Poll.results poll) (Poll.options poll) >? 0
    then percentLoop (totalOf (Poll.results poll) (Poll.options poll))
           (Poll.options poll) (counted poll).1.1
    else (counted poll).1.1.
Proof.
  unfold finalResultsOf. rewrite <- counted_total.
  by destruct (counted poll) as [[finalResults total] correct].
Qed.

Lemma summaryOf_total poll :
  Summary.totalResponses (summaryOf poll)
  = totalOf (Poll.results poll) (Poll.options poll).
Proof.
  rewrite <- counted_total. unfold summaryOf.
  by destruct (counted poll) as [[finalResults total] correct].
Qed.

Lemma summaryOf_correctPercentage poll :
  Summary.correctPercentage (summaryOf poll)
  = if Summary.totalResponses (summaryOf poll) >? 0
    then percent (Summary.correctResponses (summaryOf poll))
           (Summary.totalResponses (summaryOf poll))
    else 0%float.
Proof.
  unfold summaryOf. by destruct (counted poll) as [[finalResults total] correct].
Qed.

(** The rule of [endPoll] for the entry of an option, when the option
    texts are distinct: the count read from the tally, its rounded share
    of the total, and whether its index is the correct one. *)
Lemma finalResultsOf_rule (poll : Poll.t) (i : nat) (option : string) :
  NoDup (Poll.options poll) ->
  Poll.options poll !! i = Some option ->
  let total := totalOf (Poll.results poll) (Poll.options poll) in
  let count := tallyCount (Poll.results poll) option in
  finalResultsOf poll !! option
  = Some (FinalResult.mk count
            (if total >? 0 then percent count total else 0%float)
            (Z.of_nat i =? Poll.correctAnswer poll)).
Proof.
  intros Hnd Hi total count. rewrite finalResultsOf_unfold. fold total.
  assert ((counted poll).1.1 !! option
          = Some (FinalResult.mk count 0 (Z.of_nat i =? Poll.correctAnswer poll)))
    as Hc.
  { unfold counted. by rewrite (countLoop_lookup _ _ _ _ _ _ _ i). }
  destruct (total >? 0).
  - rewrite percentLoop_lookup.
    rewrite decide_True by (by eapply list_elem_of_lookup_2).
    by rewrite Hc.
  - exact Hc.
Qed.

Lemma finalResultsOf_scenario (poll : Poll.t) :
  Poll.options poll = ["A"; "B"] ->
  Poll.correctAnswer poll = 0 ->
  tallyCount (Poll.results poll) "A" = 1 ->
  tallyCount (Poll.results poll) "B" = 1 ->
  finalResultsOf poll
  = {[ "A" := FinalResult.mk 1 50 true; "B" := FinalResult.mk 1 50 false ]} /\
  Summary.correctPercentage (summaryOf poll) = 50%float.
Proof.
  intros Ho Hc Ha Hb. unfold finalResultsOf, summaryOf, counted.
  rewrite Ho, Hc. cbn [countLoop]. rewrite Ha, Hb.
  split; vm_compute; reflexivity.
Qed.

(** [Math.round] gives the integer nearest to a finite double, a tie
    going up; it returns a NaN or an infinity as it is. *)
Lemma Math_round_spec (x : float) :
  match Prim2SF x with
  | S754_finite s m e =>
      exists r,
        roundedHalfUp s m e r /\
        JS.Math_round x
        = (if r =? 0 then (if s then (-0)%float else 0%float)
           else JS.number r)
  | _ => JS.Math_round x = x
  end.
Proof.
  unfold JS.Math_round. destruct (Prim2SF x) as [sg|sg| |sg m e]; try done.
  eexists. split; [|reflexivity]. unfold roundedHalfUp.
  destruct e as [|k|k]; [lia | done |].
  set (n := if sg then Z.neg m else Z.pos m).
  assert (0 < 2 ^ Z.pos k) as Hpos by (apply Z.pow_pos_nonneg; lia).
  replace (2 ^ (Z.pos k + 1)) with (2 * 2 ^ Z.pos k)
    by (rewrite Z.pow_add_r by lia; lia).
  pose proof (Z.div_mod (2 * n + 2 ^ Z.pos k) (2 * 2 ^ Z.pos k) ltac:(lia)) as Hd.
  pose proof (Z.mod_pos_bound (2 * n + 2 ^ Z.pos k) (2 * 2 ^ Z.pos k) ltac:(lia))
    as Hm.
  nia.
Qed.

(** [JS.number] is the conversion of the kernel on the unsigned 63-bit
    integers. *)
Lemma number_of_uint63 (z : Z) :
  0 <= z < 2 ^ 63 -> JS.number z = PrimFloat.of_uint63 (Uint63.of_Z z).
Proof.
  intros Hz. unfold JS.number.
  rewrite <- (SF2Prim_Prim2SF (PrimFloat.of_uint63 (Uint63.of_Z z))).
  f_equal. rewrite of_uint63_spec. f_equal.
  rewrite Uint63.of_Z_spec. symmetry. apply Z.mod_small.
  change Uint63.wB with (2 ^ 63). lia.
Qed.

Lemma index_cons {A : Type} (x : A) (l : list A) (i : Z) :
  JS.index (x :: l) i = if i =? 0 then Some x else JS.index l (i - 1).
Proof.
  unfold JS.index.
  destruct (Z.ltb_spec i 0), (Z.eqb_spec i 0), (Z.ltb_spec (i - 1) 0); try lia;
    try done.
  - by subst.
  - replace (Z.to_nat i) with (S (Z.to_nat (i - 1))) by lia. done.
Qed.

Lemma countLoop_correct results correctAnswer options index finalResults total
    correct :
  (countLoop results correctAnswer options index (finalResults, total, correct)).2
  = correct + match JS.index options (correctAnswer - index) with
              | Some option => tallyCount results option
              | None => 0
              end.
Proof.
  revert index finalResults total correct.
  induction options as [|o options IH]; intros index fr t c; cbn [countLoop].
  - unfold JS.index. destruct (_ <? 0); simpl; lia.
  - rewrite IH, index_cons.
    destruct (Z.eqb_spec index correctAnswer) as [->|Hne].
    + rewrite Z.sub_diag. simpl.
      replace (correctAnswer - (correctAnswer + 1)) with (-1) by lia.
      unfold JS.index. simpl. lia.
    + destruct (Z.eqb_spec (correctAnswer - index) 0); [lia|].
      by replace (correctAnswer - (index + 1)) with (correctAnswer - index - 1)
        by lia.
Qed.

(** The correct count of the summary is the count read for the option at
    the correct index, 0 when the index selects no option. *)
Lemma summaryOf_correctResponses poll :
  Summary.correctResponses (summaryOf poll)
  = match JS.index (Poll.options poll) (Poll.correctAnswer poll) with
    | Some option => tallyCount (Poll.results poll) option
    | None => 0
    end.
Proof.
  unfold summaryOf.
  pose proof (countLoop_correct (Poll.results poll) (Poll.correctAnswer poll)
                (Poll.options poll) 0 ∅ 0 0) as Hc.
  fold (counted poll) in Hc.
  destruct (counted poll) as [[finalResults total] correct]. simpl in *.
  rewrite Hc, Z.sub_0_r. lia.
Qed.

(** [finalResults] has no entry for a text that is not an option. *)
Lemma finalResultsOf_notin (poll : Poll.t) (option : string) :
  option ∉ Poll.options poll -> finalResultsOf poll !! option = None.
Proof.
  intros Hnotin. rewrite finalResultsOf_unfold.
  assert ((counted poll).1.1 !! option = None) as Hc.
  { unfold counted. rewrite countLoop_lookup_notin by done.
    apply lookup_empty. }
  destruct (_ >? 0); [|exact Hc].
  rewrite percentLoop_lookup. by rewrite decide_False.
Qed.

(** C7, counterexample.  Three ended polls on which the rule of the
    claim fails.  With 23 answers for A out of 40 the ratio is exactly
    57.5, which rounds half up to 58, and the percentage of A is 57: the
    double [(23 / 40) * 100] lies just below 57.5.  With the text A at
    the indices 0 and 1 and the correct index 0, the entry of A, the
    option at index 0, is marked not correct.  With the option text
    [__proto__] the object built for that option is the prototype of the
    final results, which have an entry for A and none for that option. *)
Lemma percentage_tie_rounded_down :
  (reachable Tie.final /\
   (pollState <$> polls Tie.final !! "p1") = Some Ended /\
   (Poll.options <$> polls Tie.final !! "p1") = Some ["A"; "B"] /\
   ((fun poll =>
       (tallyCount (Poll.results poll) "A",
        totalOf (Poll.results poll) (Poll.options poll)))
      <$> polls Tie.final !! "p1") = Some (23, 40) /\
   (polls Tie.final !! "p1" ≫= fun poll =>
      Poll.finalResults poll ≫= fun finalResults => finalResults !! "A")
   = Some (FinalResult.mk 23 57 true) /\
   2 * (100 * 23) = (2 * 57 + 1) * 40 /\
   SpecRule.percentage 23 40 = 58) /\
  (reachable Repeated.final /\
   (polls Repeated.final !! "p1" ≫= fun poll => Poll.options poll !! 0%nat)
   = Some "A" /\
   (Poll.correctAnswer <$> polls Repeated.final !! "p1") = Some 0 /\
   (polls Repeated.final !! "p1" ≫= fun poll =>
      Poll.finalResults poll ≫= fun finalResults => finalResults !! "A")
   = Some (FinalResult.mk 1 50 false)) /\
  (reachable Proto.final /\
   (polls Proto.final !! "p1" ≫= fun poll => Poll.options poll !! 1%nat)
   = Some "__proto__" /\
   ((fun finalResults =>
       (finalResults !! "__proto__",
        JS.ownEntries finalResults !! "__proto__",
        JS.ownEntries finalResults !! "A"))
      <$> (polls Proto.final !! "p1" ≫= Poll.finalResults))
   = Some (Some (FinalResult.mk 1 50 false), None,
           Some (FinalResult.mk 1 50 true))).
Proof.
  split; [|split].
  - split; [apply reachable_run; [constructor | vm_compute; reflexivity]|].
    split; [vm_compute; reflexivity|]. split; [vm_compute; reflexivity|].
    split; [vm_compute; reflexivity|]. split; [vm_compute; reflexivity|].
    split; [lia | vm_compute; reflexivity].
  - split; [apply reachable_run; [constructor | vm_compute; reflexivity]|].
    split; [vm_compute; reflexivity|]. split; vm_compute; reflexivity.
  - split; [apply reachable_run; [constructor | vm_compute; reflexivity]|].
    split; vm_compute; reflexivity.
Qed.

(** C7 (amended).  When the timer of a stored poll expires, [endPoll]
    leaves the poll Ended with [finalResults] and [summary] such that,
    the option texts being distinct and none of them [__proto__], the
    entry of the option at index [i] holds the count of its tally, the
    percentage [Math.round((count / total) * 100)] in double arithmetic
    when the total of the counts is positive and 0 otherwise, and the
    flag [i == correctAnswer], and these are all the entries; the
    summary holds that total, the count of the option at the correct
    index as its correct count, and the correct percentage by the same
    rule.  [Math.round] gives the integer nearest to the double it is
    given, a tie going up, and the counts enter the division as the
    doubles of the kernel's conversion.  For the options "A" and "B" with
    correct index 0 and one response each, both entries have count 1 and
    percentage 50, only "A" is marked correct, and the correct percentage
    is 50. *)
Theorem tick_expiry_aggregates (s : State) (now : Z) (ref : string)
    (poll : Poll.t) :
  polls s !! ref = Some poll ->
  JS.includes (timers s) ref = true ->
  Poll.timeLeft poll <= 1 ->
  NoDup (Poll.options poll) ->
  "__proto__" ∉ Poll.options poll ->
  let total := totalOf (Poll.results poll) (Poll.options poll) in
  let percentage := fun count =>
    if total >? 0
    then JS.Math_round (JS.number count / JS.number total * JS.number 100)%float
    else 0%float in
  exists ended finalResults summary,
    polls (tick now ref s).1 !! ref = Some ended /\
    pollState ended = Ended /\
    Poll.finalResults ended = Some finalResults /\
    Poll.summary ended = Some summary /\
    (forall i option,
       Poll.options poll !! i = Some option ->
       finalResults !! option
       = Some (FinalResult.mk (tallyCount (Poll.results poll) option)
                 (percentage (tallyCount (Poll.results poll) option))
                 (Z.of_nat i =? Poll.correctAnswer poll))) /\
    (forall option,
       option ∉ Poll.options poll -> finalResults !! option = None) /\
    JS.ownEntries finalResults = finalResults /\
    Summary.totalResponses summary = total /\
    Summary.correctResponses summary
    = match JS.index (Poll.options poll) (Poll.correctAnswer poll) with
      | Some option => tallyCount (Poll.results poll) option
      | None => 0
      end /\
    Summary.correctPercentage summary
    = percentage (Summary.correctResponses summary) /\
    (forall x : float,
       match Prim2SF x with
       | S754_finite sign m e =>
           exists r,
             roundedHalfUp sign m e r /\
             JS.Math_round x
             = (if r =? 0 then (if sign then (-0)%float else 0%float)
                else JS.number r)
       | _ => JS.Math_round x = x
       end) /\
    (forall z,
       0 <= z < 2 ^ 63 -> JS.number z = PrimFloat.of_uint63 (Uint63.of_Z z)) /\
    (Poll.options poll = ["A"; "B"] ->
     Poll.correctAnswer poll = 0 ->
     tallyCount (Poll.results poll) "A" = 1 ->
     tallyCount (Poll.results poll) "B" = 1 ->
     finalResults
     = {[ "A" := FinalResult.mk 1 50 true; "B" := FinalResult.mk 1 50 false ]} /\
     Summary.correctPercentage summary = 50%float).
Proof.
  intros Hp Ht Hl Hnd Hproto total percentage.
  exists (endedPoll now (decrementTimeLeft poll)),
    (finalResultsOf poll), (summaryOf poll).
  split.
  { rewrite tick_polls, Hp, Ht. simpl.
    destruct (Z.leb_spec (Poll.timeLeft poll - 1) 0); [|lia].
    by rewrite lookup_insert_eq. }
  split; [reflexivity|]. split; [reflexivity|]. split; [reflexivity|].
  split; [intros i option Hi; by apply finalResultsOf_rule|].
  split; [apply finalResultsOf_notin|].
  split.
  { unfold JS.ownEntries. apply delete_id. by apply finalResultsOf_notin. }
  split; [apply summaryOf_total|].
  split; [apply summaryOf_correctResponses|].
  split.
  { rewrite summaryOf_correctPercentage, summaryOf_total. reflexivity. }
  split; [apply Math_round_spec|].
  split; [apply number_of_uint63|].
  apply finalResultsOf_scenario.
Qed.

(** The tenth tick of scenario A is the one that ends the poll. *)
Lemma expiry_state :
  (tick 12000 "p1" Scenario.beforeExpiry).1 = Scenario.ended.
Proof. vm_compute. reflexivity. Qed.

(** C7, witness: the last tick of scenario A. *)
Lemma tick_expiry_aggregates_witness :
  exists ended,
    polls Scenario.ended !! "p1" = Some ended /\
    Poll.finalResults ended
    = Some {[ "A" := FinalResult.mk 1 50 true;
              "B" := FinalResult.mk 1 50 false ]} /\
    (Summary.correctPercentage <$> Poll.summary ended) = Some 50%float.
Proof.
  destruct (polls Scenario.beforeExpiry !! "p1") as [poll|] eqn:Hp;
    [|vm_compute in Hp; discriminate].
  assert (Poll.options poll = ["A"; "B"] /\ Poll.correctAnswer poll = 0 /\
          tallyCount (Poll.results poll) "A" = 1 /\
          tallyCount (Poll.results poll) "B" = 1 /\
          Poll.timeLeft poll = 1) as (Ho & Hc & Ha & Hb & Hl).
  { pose proof Hp as Hq. vm_compute in Hq. injection Hq as <-.
    repeat split; vm_compute; reflexivity. }
  assert (NoDup (Poll.options poll)) as Hnd.
  { rewrite Ho. apply NoDup_cons. split; [|apply NoDup_singleton].
    intros Hin%list_elem_of_singleton. discriminate. }
  assert ("__proto__" ∉ Poll.options poll) as Hproto.
  { rewrite Ho. intros [Heq | [Heq | Hin]%elem_of_cons]%elem_of_cons;
      [discriminate | discriminate | by apply elem_of_nil in Hin]. }
  assert (JS.includes (timers Scenario.beforeExpiry) "p1" = true) as Ht
    by (vm_compute; reflexivity).
  destruct (tick_expiry_aggregates Scenario.beforeExpiry 12000 "p1" poll Hp
              Ht ltac:(lia) Hnd Hproto)
    as (ended & finalResults & summary & Hended & _ & Hf & Hs & _ & _ & _ & _
        & _ & _ & _ & _ & Hsc).
  destruct (Hsc Ho Hc Ha Hb) as [-> Hcp].
  rewrite expiry_state in Hended.
  exists ended. split; [exact Hended|]. split; [exact Hf|].
  by rewrite Hs, <- Hcp.
Defined.

(** *** The total of the summary.  [endPoll] adds up the counts it reads
    option by option; when the option texts of the poll are distinct this
    is the sum of the tally, hence the number of responses. *)

Lemma includes_elem_of (options : list string) (option : string) :
  JS.includes options option = true <-> option ∈ options.
Proof.
  unfold JS.includes. rewrite existsb_exists. split.
  - intros (o & Hin & Heq). apply String.eqb_eq in Heq as ->.
    by apply list_elem_of_In.
  - intros Hin. exists option. split; [by apply list_elem_of_In|].
    apply String.eqb_refl.
Qed.

Lemma initialised_lookup (options : list string) (results : gmap string Tally.t)
    (option : string) :
  is_Some
    (fold_left (fun results option => <[option := Tally.mk 0 []]> results)
       options results !! option) ->
  option ∈ options \/ is_Some (results !! option).
Proof.
  revert results. induction options as [|o options IH]; intros results Hs.
  - by right.
  - simpl in Hs. destruct (IH _ Hs) as [Hin | Hin].
    + left. by apply list_elem_of_further.
    + destruct (decide (o = option)) as [->|Hne].
      * left. apply list_elem_of_here.
      * right. by rewrite lookup_insert_ne in Hin.
Qed.

Lemma tallyInOptions_pollStep c ref poll poll' :
  pollStep c ref poll poll' -> tallyInOptions poll -> tallyInOptions poll'.
Proof.
  intros Hstep Hin. destruct Hstep as [ | | now sid sname opt _ _ Hi _ | | ];
    try exact Hin.
  - intros option Hs. cbn [startedPoll Poll.results Poll.options] in *.
    destruct (initialised_lookup _ _ _ Hs) as [Ho | Ho]; [done|].
    rewrite lookup_empty in Ho. by destruct Ho.
  - intros option Hs. cbn [respondedPoll Poll.results Poll.options] in *.
    destruct (decide (option = opt)) as [->|Hne]; [by apply includes_elem_of|].
    rewrite lookup_alter_ne in Hs by done. apply Hin.
    destruct (Poll.results poll !! opt); [done|].
    by rewrite lookup_insert_ne in Hs.
Qed.

Lemma endedSummary_pollStep c ref poll poll' :
  pollStep c ref poll poll' -> endedSummary poll -> endedSummary poll'.
Proof.
  intros Hstep He. destruct Hstep as [ | | now sid sname opt _ Ha _ _ | | ].
  - exact He.
  - intros Hs. by rewrite pollState_startedPoll in Hs.
  - intros Hs. rewrite pollState_respondedPoll in Hs.
    apply pollState_Active in Ha. congruence.
  - intros Hs. rewrite pollState_decrementTimeLeft in Hs. exact (He Hs).
  - intros _. split; reflexivity.
Qed.

Lemma reachable_summary (s : State) (ref : string) (poll : Poll.t) :
  reachable s ->
  polls s !! ref = Some poll ->
  counted_once poll /\ tallyInOptions poll /\ endedSummary poll.
Proof.
  intros Hs Hp.
  eapply (reachable_poll_invariant
            (fun poll => counted_once poll /\ tallyInOptions poll /\
                         endedSummary poll)); [| |exact Hs|exact Hp].
  - intros pollId now req. split; [apply counted_once_newPoll|]. split.
    + intros option Hs'. cbn [newPoll Poll.results] in Hs'.
      rewrite lookup_empty in Hs'. by destruct Hs'.
    + intros Hs'. discriminate.
  - intros c r p p' Hstep (Hc & Hin & He). split; [|split].
    + by eapply counted_once_pollStep.
    + by eapply tallyInOptions_pollStep.
    + by eapply endedSummary_pollStep.
Qed.

Lemma tallyCount_delete results option option' :
  option <> option' ->
  tallyCount (delete option results) option' = tallyCount results option'.
Proof. intros Hne. unfold tallyCount. by rewrite lookup_delete_ne. Qed.

Lemma totalOf_delete results option options :
  option ∉ options ->
  totalOf (delete option results) options = totalOf results options.
Proof.
  induction options as [|o options IH]; intros Hnotin; [done|].
  apply not_elem_of_cons in Hnotin as [Hne Hnotin].
  rewrite !totalOf_cons, IH by done. by rewrite tallyCount_delete.
Qed.

Lemma totalOf_sumCounts (options : list string) (results : gmap string Tally.t) :
  NoDup options ->
  (forall option, is_Some (results !! option) -> option ∈ options) ->
  totalOf results options = sumCounts results.
Proof.
  revert results. induction options as [|o options IH]; intros results Hnd Hin.
  - assert (results = ∅) as ->.
    { apply map_empty. intros k. apply eq_None_not_Some. intros Hs.
      by apply Hin, elem_of_nil in Hs. }
    by rewrite sumCounts_empty.
  - apply NoDup_cons in Hnd as [Hnotin Hnd]. rewrite totalOf_cons.
    rewrite <- (totalOf_delete results o options Hnotin).
    rewrite (IH (delete o results)); [|done|].
    + unfold tallyCount. destruct (results !! o) as [tally|] eqn:Ho.
      * by rewrite (sumCounts_delete results o tally).
      * rewrite delete_id by done. lia.
    + intros option Hs. destruct (decide (o = option)) as [->|Hne].
      * rewrite lookup_delete_eq in Hs. by destruct Hs.
      * rewrite lookup_delete_ne in Hs by done.
        apply Hin, elem_of_cons in Hs as [->|Hs]; done.
Qed.

(** The total of an ended poll whose option texts are distinct is the
    number of its responses. *)
Lemma ended_poll_total_responses (s : State) (ref : string) (poll : Poll.t) :
  reachable s ->
  polls s !! ref = Some poll ->
  pollState poll = Ended ->
  NoDup (Poll.options poll) ->
  (Summary.totalResponses <$> Poll.summary poll)
  = Some (Z.of_nat (size (Poll.responses poll))).
Proof.
  intros Hs Hp He Hnd.
  destruct (reachable_summary s ref poll Hs Hp) as (Hc & Hin & Hsum).
  destruct (Hsum He) as [-> _]. simpl. f_equal.
  rewrite summaryOf_total, totalOf_sumCounts by done.
  exact Hc.
Qed.

(** The own entries of the tally of a poll without the option text
    [__proto__] are all its entries. *)
Lemma ownEntries_results (poll : Poll.t) :
  tallyInOptions poll ->
  "__proto__" ∉ Poll.options poll ->
  JS.ownEntries (Poll.results poll) = Poll.results poll.
Proof.
  intros Hin Hproto. unfold JS.ownEntries. apply delete_id.
  apply eq_None_not_Some. intros Hs. by apply Hproto, Hin.
Qed.

(** Where the claim of C5 holds: for an ended poll whose option texts are
    distinct and are not [__proto__], the counts read for its options, the
    counts of the own entries of its tally and the total of its summary
    are all the number of its responses. *)
Lemma distinct_options_counts_match (s : State) (ref : string) (poll : Poll.t) :
  reachable s ->
  polls s !! ref = Some poll ->
  pollState poll = Ended ->
  NoDup (Poll.options poll) ->
  "__proto__" ∉ Poll.options poll ->
  totalOf (Poll.results poll) (Poll.options poll)
  = Z.of_nat (size (Poll.responses poll)) /\
  sumCounts (JS.ownEntries (Poll.results poll))
  = Z.of_nat (size (Poll.responses poll)) /\
  (Summary.totalResponses <$> Poll.summary poll)
  = Some (Z.of_nat (size (Poll.responses poll))).
Proof.
  intros Hs Hp He Hnd Hproto.
  destruct (reachable_summary s ref poll Hs Hp) as (Hc & Hin & Hsum).
  split; [|split].
  - rewrite totalOf_sumCounts by done. exact Hc.
  - rewrite ownEntries_results by done. exact Hc.
  - by apply (ended_poll_total_responses s ref).
Qed.

(** ** C5: the per-option counts and the number of responses *)

(** C5 (the code departs from the claim).  The tally is keyed by option
    text and [endPoll] adds the count it reads once for each position of
    [poll.options]; the create route keeps equal texts.  In the state
    reached by creating a poll with the options A and A, starting it,
    recording the one response of [s1] for A and letting the timer expire,
    the poll is Ended, its responses hold one id, the counts read for its
    two options are 1 and 1, their sum and the summary's
    [totalResponses] are 2, and the one answer given is reported with 50
    percent. *)
Theorem repeated_option_counted_twice :
  reachable Repeated.final /\
  exists poll summary,
    polls Repeated.final !! "p1" = Some poll /\
    pollState poll = Ended /\
    Poll.options poll = ["A"; "A"] /\
    size (Poll.responses poll) = 1%nat /\
    is_Some (Poll.responses poll !! "s1") /\
    (tallyCount (Poll.results poll) <$> Poll.options poll) = [1; 1] /\
    totalOf (Poll.results poll) (Poll.options poll) = 2 /\
    Poll.summary poll = Some summary /\
    Summary.totalResponses summary = 2 /\
    Poll.finalResults poll = Some {[ "A" := FinalResult.mk 1 50 false ]}.
Proof.
  split; [apply reachable_run; [constructor | vm_compute; reflexivity]|].
  destruct (polls Repeated.final !! "p1") as [poll|] eqn:Hp;
    [|vm_compute in Hp; discriminate].
  destruct (Poll.summary poll) as [summary|] eqn:Hs.
  2: { vm_compute in Hp. injection Hp as <-. vm_compute in Hs. discriminate Hs. }
  exists poll, summary. split; [reflexivity|].
  vm_compute in Hp. injection Hp as <-.
  vm_compute in Hs. injection Hs as <-.
  split; [reflexivity|]. split; [reflexivity|].
  split; [vm_compute; reflexivity|]. split; [by eexists|].
  split; [vm_compute; reflexivity|]. split; [vm_compute; reflexivity|].
  split; [reflexivity|]. split; [reflexivity|]. vm_compute. reflexivity.
Qed.

(** The same departure with the option text [__proto__]: the start route
    sets the prototype of [poll.results] instead of adding an entry, the
    response for that option is counted on the prototype, and the entries
    of the tally add up to 1 for two responses. *)
Lemma proto_option_outside_tally :
  reachable Proto.final /\
  exists poll,
    polls Proto.final !! "p1" = Some poll /\
    pollState poll = Ended /\
    size (Poll.responses poll) = 2%nat /\
    JS.ownEntries (Poll.results poll)
    = {[ "A" := Tally.mk 1 [Respondent.mk "s1" "Ann"] ]} /\
    sumCounts (JS.ownEntries (Poll.results poll)) = 1 /\
    (Summary.totalResponses <$> Poll.summary poll) = Some 2.
Proof.
  split; [apply reachable_run; [constructor | vm_compute; reflexivity]|].
  destruct (polls Proto.final !! "p1") as [poll|] eqn:Hp;
    [|vm_compute in Hp; discriminate].
  exists poll. split; [reflexivity|].
  vm_compute in Hp. injection Hp as <-.
  split; [reflexivity|]. split; [vm_compute; reflexivity|].
  split; [vm_compute; reflexivity|]. split; vm_compute; reflexivity.
Qed.

(** ** C8: ejection *)

Lemma disconnect_frame socket s :
  sessionCore (disconnect socket s).1 = sessionCore s /\
  kickedOutStudents (disconnect socket s).1 = kickedOutStudents s.
Proof.
  unfold disconnect. destruct (JSMap.get _ _) as [sock|]; [|done].
  by destruct (isStudentSocket sock).
Qed.

Lemma kickParticipant_kicked socket studentId reason s :
  kickedOutStudents (kickParticipant socket studentId reason s).1
  = match JSMap.get (sockets s) socket ≫= Socket.role with
    | Some teacher => {[studentId]} ∪ kickedOutStudents s
    | _ => kickedOutStudents s
    end.
Proof.
  unfold kickParticipant. destruct (JSMap.get _ _) as [sock|]; [|done].
  simpl. destruct (Socket.role sock) as [[]|]; try done.
  destruct (List.find _ _) as [[k sock']|]; [|done].
  match goal with
  | |- context [disconnect k ?s1] =>
      pose proof (proj2 (disconnect_frame k s1)) as Hd;
      destruct (disconnect k s1) as [s2 events]
  end.
  exact Hd.
Qed.

Lemma kickParticipant_sessionCore socket studentId reason s :
  sessionCore (kickParticipant socket studentId reason s).1 = sessionCore s.
Proof.
  unfold kickParticipant. destruct (JSMap.get _ _) as [sock|]; [|done].
  destruct (Socket.role sock) as [[]|]; try done.
  destruct (List.find _ _) as [[k sock']|]; [|done].
  match goal with
  | |- context [disconnect k ?s1] =>
      pose proof (proj1 (disconnect_frame k s1)) as Hd;
      destruct (disconnect k s1) as [s2 events]
  end.
  exact Hd.
Qed.

Lemma exec_kicked_mono (c : Command) (s : State) (studentId : string) :
  studentId ∈ kickedOutStudents s -> studentId ∈ kickedOutStudents (exec c s).
Proof.
  intros Hin. destruct c; cbn [exec].
  - unfold createPoll. by repeat case_match.
  - unfold startPoll. by repeat case_match.
  - unfold submitResponse. by repeat case_match.
  - unfold join. by repeat case_match.
  - unfold tick, endPoll. by repeat (case_match; simplify_eq/=).
  - unfold connection. by repeat case_match.
  - unfold joinTeacher. by repeat case_match.
  - unfold joinParticipant. by repeat case_match.
  - unfold sendMessage. by repeat case_match.
  - rewrite kickParticipant_kicked. repeat case_match; set_solver.
  - by rewrite (proj2 (disconnect_frame socket s)).
Qed.

Lemma run_kicked_mono (cs : list Command) (s : State) (studentId : string) :
  studentId ∈ kickedOutStudents s -> studentId ∈ kickedOutStudents (run cs s).
Proof.
  revert s. induction cs as [|c cs IH]; intros s Hin; [done|].
  rewrite run_cons. by apply IH, exec_kicked_mono.
Qed.

(** C8, counterexample.  The student [s1] has been kicked out; a join
    request with that id and no name is rejected with status 400, the
    validation error, not with the forbidden error. *)
Lemma kicked_join_without_name :
  "s1" ∈ kickedOutStudents Kicked.final /\
  join 9000 "s1" "" Kicked.final
  = (Kicked.final, error 400 "Student ID and name are required") /\
  ~ failsWith (join 9000 "s1" "" Kicked.final).2 ForbiddenError.
Proof.
  split; [by vm_compute|].
  assert (join 9000 "s1" "" Kicked.final
          = (Kicked.final, error 400 "Student ID and name are required")) as ->
    by reflexivity.
  split; [reflexivity|]. cbn [snd]. rewrite failsWith_status. discriminate.
Qed.

(** C8 (amended).  Once a teacher socket has kicked an id, the id is in
    [kickedOutStudents] after any further turns of the server, whatever
    they are.  From then on every response request with that id is
    rejected with the forbidden error; a join request with that id is
    rejected with the forbidden error when it carries an id and a name
    that are not empty, and with the validation error otherwise; a
    [joinParticipant] socket event with that id gets the [kickedOut]
    notice.  None of them changes the state. *)
Theorem kicked_out_for_good (s : State) (socket : nat) (sock : Socket.t)
    (studentId : string) (reason : option string) (cs : list Command) :
  JSMap.get (sockets s) socket = Some sock ->
  Socket.role sock = Some teacher ->
  let s' := run cs (kickParticipant socket studentId reason s).1 in
  studentId ∈ kickedOutStudents s' /\
  (forall now pollId studentName selectedOption,
     submitResponse now pollId studentId studentName selectedOption s'
     = (s',
        error (statusOf ForbiddenError) "You have been removed from this session",
        [])) /\
  (forall now studentName,
     join now studentId studentName s'
     = (s',
        if JS.truthy studentId && JS.truthy studentName
        then error (statusOf ForbiddenError)
               "You have been removed from this session"
        else error (statusOf ValidationError)
               "Student ID and name are required")) /\
  (forall now socket' studentName,
     joinParticipant now socket' studentId studentName s'
     = (s',
        if JSMap.has (sockets s') socket'
        then [kickedOut socket' "You have been removed from this session"]
        else [])).
Proof.
  intros Hsock Hrole s'.
  assert (studentId ∈ kickedOutStudents s') as Hin.
  { apply run_kicked_mono. rewrite kickParticipant_kicked, Hsock. simpl.
    rewrite Hrole. set_solver. }
  split; [exact Hin|]. split; [|split].
  - intros. unfold submitResponse. by rewrite bool_decide_eq_true_2.
  - intros. unfold join.
    destruct (JS.truthy studentId), (JS.truthy studentName); simpl; try done.
    by rewrite bool_decide_eq_true_2.
  - intros. unfold joinParticipant, JSMap.has.
    destruct (JSMap.get (sockets s') socket'); [|done].
    by rewrite bool_decide_eq_true_2.
Qed.

(** C8, witness: [s1] is kicked, disconnects and tries again. *)
Lemma kicked_out_for_good_witness :
  let s := run [Connection 1; JoinTeacher 1 "t1" "Teacher";
                Connection 2; JoinParticipant 500 2 "s1" "Ann"] initial in
  let s' := run [Disconnect 2; Connection 3; Join 9000 "s1" "Ann"]
              (kickParticipant 1 "s1" None s).1 in
  "s1" ∈ kickedOutStudents s' /\
  join 9500 "s1" "Ann" s'
  = (s', error (statusOf ForbiddenError) "You have been removed from this session") /\
  submitResponse 9600 "p1" "s1" "Ann" "A" s'
  = (s', error (statusOf ForbiddenError) "You have been removed from this session",
     []).
Proof.
  cbv zeta.
  destruct (kicked_out_for_good
              (run [Connection 1; JoinTeacher 1 "t1" "Teacher";
                    Connection 2; JoinParticipant 500 2 "s1" "Ann"] initial)
              1 (Socket.mk (Some teacher) (Some "t1") (Some "Teacher") None None)
              "s1" None [Disconnect 2; Connection 3; Join 9000 "s1" "Ann"]
              eq_refl eq_refl) as (Hin & Hsubmit & Hjoin & _).
  split; [exact Hin|]. split; [exact (Hjoin 9500 "Ann") | apply Hsubmit].
Defined.

(** ** C9: the answer of the current-poll route *)

Lemma exec_currentPoll (c : Command) (s : State) :
  currentPoll (exec c s) = currentPoll s \/
  exists pollId now req,
    c = CreatePoll pollId now req /\
    currentPoll (exec c s) = Some pollId /\
    polls (exec c s) !! pollId = Some (newPoll pollId now req).
Proof.
  destruct c; cbn [exec].
  - unfold createPoll. repeat case_match; try by left.
    right. exists pollId, now, req. simpl. by rewrite lookup_insert_eq.
  - left. unfold startPoll. by repeat case_match.
  - left. unfold submitResponse. by repeat case_match.
  - left. unfold join. by repeat case_match.
  - left. unfold tick, endPoll. by repeat (case_match; simplify_eq/=).
  - left. unfold connection. by repeat case_match.
  - left. unfold joinTeacher. by repeat case_match.
  - left. unfold joinParticipant. by repeat case_match.
  - left. unfold sendMessage. by repeat case_match.
  - left.
    pose proof (kickParticipant_sessionCore socket studentId reason s) as Hcore.
    unfold sessionCore in Hcore. by injection Hcore.
  - left. pose proof (proj1 (disconnect_frame socket s)) as Hcore.
    unfold sessionCore in Hcore. by injection Hcore.
Qed.

(** [currentPoll] always refers to a stored poll. *)
Lemma reachable_currentPoll (s : State) :
  reachable s ->
  forall ref, currentPoll s = Some ref -> is_Some (polls s !! ref).
Proof.
  induction 1 as [|s c Hs IH Hen]; intros ref Href; [done|].
  destruct (exec_currentPoll c s) as [Hsame | (pollId & now & req & _ & Hcur & Hp)].
  - rewrite Hsame in Href. destruct (IH ref Href) as [poll Hp].
    destruct (exec_lookup_Some s c ref poll Hen Hp) as (poll' & Hp' & _).
    by exists poll'.
  - rewrite Hcur in Href. injection Href as <-. by eexists.
Qed.

(** C9, counterexample.  A student has joined and no poll has been
    created: the route answers [{ poll: null, message }], a body with
    no [participants] and no [chatMessages] field. *)
Lemma getCurrentPoll_without_poll :
  let s := run [Join 1000 "s1" "Ann"] initial in
  currentPoll s = None /\
  JSMap.values (activeParticipants s) <> [] /\
  getCurrentPoll s = json 200 (CurrentBody.noPoll "No active poll") /\
  CurrentBody.participants (CurrentBody.noPoll "No active poll") = None /\
  CurrentBody.chatMessages (CurrentBody.noPoll "No active poll") = None.
Proof. cbv zeta. repeat split; try reflexivity. by vm_compute. Qed.

(** C9 (amended).  In every state the server can reach the route answers
    with status 200.  When [currentPoll] is null the body is
    [{ poll: null, message: 'No active poll' }], without participants
    and chat messages; when [currentPoll] is a poll the body is
    [{ poll, participants, chatMessages }] with the view of that poll,
    the values of [activeParticipants] and the chat log. *)
Theorem getCurrentPoll_shape (s : State) :
  reachable s ->
  (currentPoll s = None ->
   getCurrentPoll s = json 200 (CurrentBody.noPoll "No active poll")) /\
  (forall ref,
     currentPoll s = Some ref ->
     exists poll,
       polls s !! ref = Some poll /\
       getCurrentPoll s
       = json 200
           (CurrentBody.current (Some (pollView poll))
              (JSMap.values (activeParticipants s)) (chatMessages s))).
Proof.
  intros Hs. unfold getCurrentPoll, currentPollObject. split.
  - by intros ->.
  - intros ref Href. destruct (reachable_currentPoll s Hs ref Href) as [poll Hp].
    exists poll. by rewrite Href, Hp.
Qed.

(** C9, witness: the route before and after the poll of scenario A is
    created. *)
Lemma getCurrentPoll_shape_witness :
  getCurrentPoll initial = json 200 (CurrentBody.noPoll "No active poll") /\
  exists poll,
    polls (run Scenario.created initial) !! "p1" = Some poll /\
    getCurrentPoll (run Scenario.created initial)
    = json 200 (CurrentBody.current (Some (pollView poll)) [] []).
Proof.
  split.
  - exact (proj1 (getCurrentPoll_shape initial reachable_initial) eq_refl).
  - assert (reachable (run Scenario.created initial)) as Hs.
    { apply reachable_run; [constructor | vm_compute; reflexivity]. }
    exact (proj2 (getCurrentPoll_shape _ Hs) "p1" eq_refl).
Defined.

(** ** C10: what a kick leaves alone *)

(** C10.  A kick leaves the stored polls (their responses, tallies and
    respondent lists included), the history, the chat log, the current
    poll and the timers as they were: besides the connection it closes, it
    writes [kickedOutStudents] and [activeParticipants] only.  So the
    polls after the next timer callback, and the final results [endPoll]
    computes, are the same whether or not the kick took place. *)
Theorem kickParticipant_leaves_polls (socket : nat) (studentId : string)
    (reason : option string) (s : State) :
  let s' := (kickParticipant socket studentId reason s).1 in
  polls s' = polls s /\
  pollHistory s' = pollHistory s /\
  chatMessages s' = chatMessages s /\
  currentPoll s' = currentPoll s /\
  timers s' = timers s /\
  (forall now ref, polls (tick now ref s').1 = polls (tick now ref s).1) /\
  (forall now ref, polls (endPoll now ref s').1 = polls (endPoll now ref s).1).
Proof.
  intros s'.
  pose proof (kickParticipant_sessionCore socket studentId reason s) as Hcore.
  fold s' in Hcore. unfold sessionCore in Hcore.
  injection Hcore as Hp Hh Hm Hc Ht.
  repeat split; try done.
  - intros. by rewrite !tick_polls, Hp, Ht.
  - intros. by rewrite !endPoll_polls, Hp.
Qed.

(** In scenario A the teacher kicks [s1] after the two responses: when
    the timer expires, the response of [s1] is counted all the same. *)
Lemma kicked_respondent_still_counted :
  let s := run (Scenario.answered ++
                [Connection 1; JoinTeacher 1 "t1" "Teacher";
                 KickParticipant 1 "s1" None] ++ Scenario.ticks 10 "p1")
             initial in
  "s1" ∈ kickedOutStudents s /\
  (Poll.finalResults <$> polls s !! "p1")
  = Some (Some {[ "A" := FinalResult.mk 1 50 true;
                  "B" := FinalResult.mk 1 50 false ]}).
Proof. cbv zeta. split; [by vm_compute | vm_compute; reflexivity]. Qed.

(** * Further properties of the code *)

(** ** [String.prototype.trim] as the routes use it *)

Lemma list_ascii_app (a b : string) :
  list_ascii_of_string (a ++ b)
  = (list_ascii_of_string a ++ list_ascii_of_string b)%list.
Proof. induction a as [|c a IH]; simpl; [done | by rewrite IH]. Qed.

Lemma string_of_list_ascii_app (l1 l2 : list ascii) :
  string_of_list_ascii (l1 ++ l2)
  = string_of_list_ascii l1 ++ string_of_list_ascii l2.
Proof. induction l1 as [|c l1 IH]; simpl; [done | by rewrite IH]. Qed.

Lemma reverse_involutive (s : string) : JS.reverse (JS.reverse s) = s.
Proof.
  unfold JS.reverse. rewrite list_ascii_of_string_of_list_ascii, rev_involutive.
  apply string_of_list_ascii_of_string.
Qed.

Lemma reverse_app (a b : string) :
  JS.reverse (a ++ b) = JS.reverse b ++ JS.reverse a.
Proof.
  unfold JS.reverse. by rewrite list_ascii_app, rev_app_distr, string_of_list_ascii_app.
Qed.

Lemma allWhiteSpace_reverse (s : string) :
  allWhiteSpace (JS.reverse s) = allWhiteSpace s.
Proof.
  unfold allWhiteSpace, JS.reverse. rewrite list_ascii_of_string_of_list_ascii.
  induction (list_ascii_of_string s) as [|c l IH]; [done|].
  simpl. rewrite forallb_app, IH. simpl. rewrite andb_true_r. apply andb_comm.
Qed.

Lemma trimStart_decompose (s : string) :
  exists pre,
    s = pre ++ JS.trimStart s /\ allWhiteSpace pre = true /\
    startsWithWhiteSpace (JS.trimStart s) = false.
Proof.
  induction s as [|c s (pre & Hs & Hpre & Hstart)]; [by exists ""|].
  simpl. destruct (JS.isWhiteSpace c) eqn:Hc.
  - exists (String c pre). split.
    { change (String c s = String c (pre ++ JS.trimStart s)). congruence. }
    split; [|done]. unfold allWhiteSpace in *. simpl. by rewrite Hc.
  - exists "". by rewrite <- Hc.
Qed.

Lemma trimEnd_decompose (s : string) :
  exists post,
    s = JS.trimEnd s ++ post /\ allWhiteSpace post = true /\
    endsWithWhiteSpace (JS.trimEnd s) = false.
Proof.
  destruct (trimStart_decompose (JS.reverse s)) as (pre & Hs & Hpre & Hstart).
  exists (JS.reverse pre). split; [|split].
  - unfold JS.trimEnd. rewrite <- reverse_app, <- Hs. by rewrite reverse_involutive.
  - by rewrite allWhiteSpace_reverse.
  - unfold endsWithWhiteSpace, JS.trimEnd. by rewrite reverse_involutive.
Qed.

Lemma trimEnd_keeps_start (s : string) :
  startsWithWhiteSpace s = false -> startsWithWhiteSpace (JS.trimEnd s) = false.
Proof.
  intros Hs. destruct (trimEnd_decompose s) as (post & Heq & _ & _).
  destruct (JS.trimEnd s) as [|c r]; [done|].
  rewrite Heq in Hs. exact Hs.
Qed.

Lemma trimStart_fixed (s : string) :
  startsWithWhiteSpace s = false -> JS.trimStart s = s.
Proof. destruct s as [|c s]; [done|]. simpl. by intros ->. Qed.

Lemma trimEnd_fixed (s : string) :
  endsWithWhiteSpace s = false -> JS.trimEnd s = s.
Proof.
  intros Hs. unfold JS.trimEnd. rewrite trimStart_fixed by exact Hs.
  apply reverse_involutive.
Qed.

Lemma trim_idempotent (s : string) : JS.trim (JS.trim s) = JS.trim s.
Proof.
  destruct (trimStart_decompose s) as (pre & Hs & Hpre & Hstart).
  destruct (trimEnd_decompose (JS.trimStart s)) as (post & Ht & Hpost & Hend).
  change (JS.trim (JS.trim s)) with (JS.trimEnd (JS.trimStart (JS.trim s))).
  rewrite (trimStart_fixed (JS.trim s)) by (by apply trimEnd_keeps_start).
  apply trimEnd_fixed, Hend.
Qed.

(** [trim] removes white space at both ends and nothing else: the
    string is a run of white space, then its trim, then a run of white
    space; the trim neither starts nor ends with white space; and trimming
    twice is trimming once. *)
Lemma trim_decompose (s : string) :
  (exists pre post,
     s = pre ++ JS.trim s ++ post /\
     allWhiteSpace pre = true /\ allWhiteSpace post = true) /\
  startsWithWhiteSpace (JS.trim s) = false /\
  endsWithWhiteSpace (JS.trim s) = false /\
  JS.trim (JS.trim s) = JS.trim s.
Proof.
  destruct (trimStart_decompose s) as (pre & Hs & Hpre & Hstart).
  destruct (trimEnd_decompose (JS.trimStart s)) as (post & Ht & Hpost & Hend).
  assert (startsWithWhiteSpace (JS.trim s) = false) as Hstart'
    by (by apply trimEnd_keeps_start).
  split; [|split; [exact Hstart' | split; [exact Hend|]]].
  - exists pre, post. split; [|done]. unfold JS.trim. by rewrite <- Ht.
  - change (JS.trim (JS.trim s)) with (JS.trimEnd (JS.trimStart (JS.trim s))).
    rewrite (trimStart_fixed _ Hstart'). apply trimEnd_fixed, Hend.
Qed.

(** ** The definition of a stored poll *)

Lemma truthy_ne (s : string) : JS.truthy s = true <-> s <> "".
Proof. destruct s; simpl; split; congruence. Qed.

Lemma createPoll_stored pollId now req s :
  polls s !! pollId = None ->
  is_Some (polls (createPoll pollId now req s).1 !! pollId) ->
  validated req /\
  (createPoll pollId now req s).1
  = {| polls := <[pollId := newPoll pollId now req]> (polls s);
       pollHistory := pollHistory s;
       activeParticipants := activeParticipants s;
       chatMessages := chatMessages s;
       kickedOutStudents := kickedOutStudents s;
       currentPoll := Some pollId;
       timers := timers s;
       sockets := sockets s |}.
Proof.
  intros Hn. unfold createPoll, validated.
  destruct (JS.truthy (CreateRequest.question req)) eqn:Hq; simpl;
    [|rewrite Hn; by intros []].
  destruct (Z.ltb_spec (JS.length (CreateRequest.options req)) 2); simpl;
    [rewrite Hn; by intros []|].
  destruct (JS.truthy (CreateRequest.teacherId req)) eqn:Ht; simpl;
    [|rewrite Hn; by intros []].
  destruct (JS.truthy (CreateRequest.teacherName req)) eqn:Hm; simpl;
    [|rewrite Hn; by intros []].
  destruct (currentPollActive s); simpl; [rewrite Hn; by intros []|].
  intros _. apply truthy_ne in Hq, Ht, Hm. done.
Qed.

Lemma pollStep_definitionOf c ref poll poll' :
  pollStep c ref poll poll' -> definitionOf poll' = definitionOf poll.
Proof. by intros []. Qed.

Lemma exec_createdFrom (s : State) (c : Command) :
  enabled c s = true ->
  (forall ref poll, polls s !! ref = Some poll -> createdFrom ref poll) ->
  forall ref poll, polls (exec c s) !! ref = Some poll -> createdFrom ref poll.
Proof.
  intros Hen IH ref poll' Hp'.
  destruct (polls s !! ref) as [poll|] eqn:Hp.
  - destruct (exec_lookup_Some s c ref poll Hen Hp) as (poll'' & Hp'' & Hstep).
    rewrite Hp' in Hp''. injection Hp'' as <-.
    destruct (IH ref poll Hp) as (now & req & Hv & Hd).
    exists now, req. split; [done|].
    by rewrite (pollStep_definitionOf _ _ _ _ Hstep).
  - destruct (exec_lookup_None s c ref Hp) as [Hn | (now & req & -> & Hnew)];
      [congruence|].
    cbn [exec] in *.
    destruct (createPoll_stored ref now req s Hp) as [Hv _]; [by eexists|].
    rewrite Hp' in Hnew. injection Hnew as ->. by exists now, req.
Qed.

Lemma reachable_createdFrom (s : State) :
  reachable s ->
  forall ref poll, polls s !! ref = Some poll -> createdFrom ref poll.
Proof.
  induction 1 as [|s c Hs IH Hen].
  - intros ref poll Hp.
    change (polls initial) with (∅ : gmap string Poll.t) in Hp.
    by rewrite lookup_empty in Hp.
  - by apply exec_createdFrom.
Qed.

Lemma stored_poll_bounds (s : State) (ref : string) (poll : Poll.t) :
  reachable s ->
  polls s !! ref = Some poll ->
  10 <= Poll.duration poll <= 300 /\ Poll.id poll = ref.
Proof.
  intros Hs Hp.
  destruct (reachable_createdFrom s Hs ref poll Hp) as (now & req & _ & Hd).
  unfold definitionOf in Hd. cbn [newPoll Poll.id Poll.duration] in Hd.
  injection Hd as -> _ _ -> _ _ _ _. split; [lia | done].
Qed.

(** X2.  Every poll of a reachable state is stored under its own id, has
    a duration between 10 and 300 seconds and a correct index that is not
    negative, a question that is trimmed, options that are trimmed and not
    empty, and a creator id and name that are not empty. *)
Theorem stored_poll_wellformed (s : State) (ref : string) (poll : Poll.t) :
  reachable s ->
  polls s !! ref = Some poll ->
  Poll.id poll = ref /\
  10 <= Poll.duration poll <= 300 /\
  0 <= Poll.correctAnswer poll /\
  JS.trim (Poll.question poll) = Poll.question poll /\
  Forall (fun option => option <> "" /\ JS.trim option = option)
    (Poll.options poll) /\
  Poll.teacherId poll <> "" /\
  Poll.teacherName poll <> "".
Proof.
  intros Hs Hp.
  destruct (reachable_createdFrom s Hs ref poll Hp)
    as (now & req & (Hq & Hl & Ht & Hn) & Hd).
  unfold definitionOf in Hd. cbn [newPoll Poll.id Poll.question Poll.options
    Poll.duration Poll.correctAnswer Poll.teacherId Poll.teacherName
    Poll.createdAt] in Hd.
  injection Hd as -> -> -> -> -> -> -> _.
  split; [done|]. split; [lia|]. split; [lia|].
  split; [apply trim_idempotent|].
  split; [|done].
  apply Forall_forall. intros option Hin.
  apply list_elem_of_In, filter_In in Hin as [Hin Hne].
  apply in_map_iff in Hin as (raw & <- & _).
  split; [by apply truthy_ne | apply trim_idempotent].
Qed.

Lemma run_lookup_Some (cs : list Command) (s : State) (ref : string)
    (poll : Poll.t) :
  allEnabled cs s = true ->
  polls s !! ref = Some poll ->
  exists poll',
    polls (run cs s) !! ref = Some poll' /\
    definitionOf poll' = definitionOf poll.
Proof.
  revert s poll. induction cs as [|c cs IH]; intros s poll Hen Hp.
  - by exists poll.
  - cbn [allEnabled] in Hen. apply andb_true_iff in Hen as [Hc Hcs].
    destruct (exec_lookup_Some s c ref poll Hc Hp) as (poll1 & Hp1 & Hstep).
    destruct (IH (exec c s) poll1 Hcs Hp1) as (poll' & Hp' & Hd).
    exists poll'. split; [by rewrite run_cons|].
    by rewrite Hd, (pollStep_definitionOf _ _ _ _ Hstep).
Qed.

(** ** The turns of the poll engine *)

Lemma exec_engineStep (c : Command) (s : State) : engineStep s c (exec c s).
Proof.
  destruct c; cbn [exec].
  - unfold createPoll.
    destruct (JS.truthy (CreateRequest.question req)) eqn:Hq; simpl;
      [|by apply engine_idle].
    destruct (Z.ltb_spec (JS.length (CreateRequest.options req)) 2); simpl;
      [by apply engine_idle|].
    destruct (JS.truthy (CreateRequest.teacherId req)) eqn:Ht; simpl;
      [|by apply engine_idle].
    destruct (JS.truthy (CreateRequest.teacherName req)) eqn:Hn; simpl;
      [|by apply engine_idle].
    destruct (currentPollActive s) eqn:Ha; simpl; [by apply engine_idle|].
    apply truthy_ne in Hq, Ht, Hn.
    by eapply engine_create.
  - unfold startPoll. destruct (polls s !! pollId) as [poll|] eqn:Hp;
      [|by apply engine_idle].
    destruct (String.eqb _ _) eqn:Ht; simpl; [|by apply engine_idle].
    apply String.eqb_eq in Ht as <-.
    destruct (Poll.isActive poll) eqn:Ha; [by apply engine_idle|].
    by eapply engine_start.
  - unfold submitResponse. case_bool_decide as Hk; [by apply engine_idle|].
    destruct (polls s !! pollId) as [poll|] eqn:Hp; [|by apply engine_idle].
    destruct (Poll.isActive poll) eqn:Ha; simpl; [|by apply engine_idle].
    destruct (JS.includes _ _) eqn:Hi; simpl; [|by apply engine_idle].
    destruct (Poll.responses poll !! studentId) eqn:Hr; [by apply engine_idle|].
    destruct (JS.inherited studentId) eqn:Hn; [by apply engine_idle|].
    by eapply engine_respond.
  - apply engine_idle; unfold join; by repeat case_match.
  - unfold tick. destruct (JS.includes (timers s) ref) eqn:Hi; simpl;
      [|by apply engine_idle].
    destruct (polls s !! ref) as [poll|] eqn:Hp; [|by apply engine_idle].
    cbn [Poll.timeLeft decrementTimeLeft].
    destruct (Z.leb_spec (Poll.timeLeft poll - 1) 0) as [Hle|Hgt].
    + unfold endPoll. cbn [polls]. rewrite lookup_insert_eq. cbn.
      eapply engine_expire; try done. cbn. by rewrite insert_insert_eq.
    + by eapply engine_tick.
  - apply engine_idle; unfold connection; by repeat case_match.
  - apply engine_idle; unfold joinTeacher; by repeat case_match.
  - apply engine_idle; unfold joinParticipant; by repeat case_match.
  - apply engine_idle; unfold sendMessage; by repeat case_match.
  - pose proof (kickParticipant_sessionCore socket studentId reason s) as Hcore.
    unfold sessionCore in Hcore. injection Hcore as Hp Hh _ _ Ht.
    by apply engine_idle.
  - pose proof (proj1 (disconnect_frame socket s)) as Hcore.
    unfold sessionCore in Hcore. injection Hcore as Hp Hh _ _ Ht.
    by apply engine_idle.
Qed.

(** ** Timers *)

Lemma clearInterval_elem_of (ref x : string) (timers : list string) :
  NoDup timers ->
  x ∈ clearInterval ref timers <-> x ∈ timers /\ x <> ref.
Proof.
  induction timers as [|t timers IH]; intros Hnd; simpl.
  - rewrite elem_of_nil. tauto.
  - apply NoDup_cons in Hnd as [Hnotin Hnd].
    destruct (String.eqb_spec t ref) as [->|Hne].
    + rewrite elem_of_cons. split.
      * intros Hin. split; [by right|]. by intros ->.
      * intros [[->|Hin] Hx]; done.
    + rewrite !elem_of_cons, IH by done. split.
      * intros [->|[Hin Hx]]; [split; [by left | done] | split; [by right | done]].
      * intros [[->|Hin] Hx]; [by left | by right].
Qed.

Lemma clearInterval_NoDup (ref : string) (timers : list string) :
  NoDup timers -> NoDup (clearInterval ref timers).
Proof.
  induction timers as [|t timers IH]; intros Hnd; simpl; [done|].
  apply NoDup_cons in Hnd as [Hnotin Hnd].
  destruct (String.eqb t ref); [done|].
  apply NoDup_cons. split; [|by apply IH].
  rewrite clearInterval_elem_of by done. tauto.
Qed.

Lemma reachable_timersMatch (s : State) : reachable s -> timersMatch s.
Proof.
  induction 1 as [|s c Hs (Hnd & Hin & Hleft) Hen].
  - split; [constructor|]. split.
    + intros ref. change (timers initial) with (@nil string).
      change (polls initial) with (∅ : gmap string Poll.t).
      rewrite elem_of_nil. split; [done|].
      intros (poll & Hp & _). by rewrite lookup_empty in Hp.
    + intros ref poll Hp.
      change (polls initial) with (∅ : gmap string Poll.t) in Hp.
      by rewrite lookup_empty in Hp.
  - unfold timersMatch.
    destruct (exec_engineStep c s)
      as [ Hp Ht _
         | pollId now req -> Hv _ Hp Ht _
         | now ref poll -> Hpoll Ha Hp Ht _
         | now ref sid sname opt poll -> Hpoll Ha _ _ _ _ Hp Ht _
         | now ref poll -> Hi Hpoll Hgt Hp Ht _
         | now ref poll -> Hi Hpoll Hle Hp Ht _ ];
      rewrite Hp, Ht.
    + done.
    + cbn [enabled] in Hen. apply bool_decide_eq_true_1 in Hen.
      split; [done|]. split.
      * intros ref. rewrite Hin. split.
        -- intros (poll & Hpoll & Ha). exists poll.
           rewrite lookup_insert_ne by congruence. done.
        -- intros (poll & Hpoll & Ha).
           destruct (decide (pollId = ref)) as [->|Hne].
           ++ rewrite lookup_insert_eq in Hpoll. by injection Hpoll as <-.
           ++ rewrite lookup_insert_ne in Hpoll by done. by exists poll.
      * intros ref poll Hpoll Ha.
        destruct (decide (pollId = ref)) as [->|Hne].
        -- rewrite lookup_insert_eq in Hpoll. by injection Hpoll as <-.
        -- rewrite lookup_insert_ne in Hpoll by done. by eapply Hleft.
    + assert (ref ∉ timers s) as Hnotin.
      { rewrite Hin. intros (poll' & Hpoll' & Ha'). congruence. }
      split; [|split].
      * apply NoDup_app. split; [done|]. split; [|apply NoDup_singleton].
        intros x Hx ->%list_elem_of_singleton. done.
      * intros x. rewrite elem_of_app, list_elem_of_singleton, Hin.
        destruct (decide (ref = x)) as [->|Hne].
        -- rewrite lookup_insert_eq. split; [|by right].
           intros _. by eexists.
        -- rewrite lookup_insert_ne by done. split; [|by left].
           intros [Hx | ->]; done.
      * intros x poll' Hpoll' Ha'.
        destruct (decide (ref = x)) as [->|Hne].
        -- rewrite lookup_insert_eq in Hpoll'. injection Hpoll' as <-.
           cbn [startedPoll Poll.timeLeft Poll.duration].
           destruct (stored_poll_bounds s x poll Hs Hpoll) as [Hd _]. lia.
        -- rewrite lookup_insert_ne in Hpoll' by done. by eapply Hleft.
    + split; [done|]. split.
      * intros x. rewrite Hin.
        destruct (decide (ref = x)) as [->|Hne].
        -- rewrite lookup_insert_eq. split; [|by eexists].
           intros _. by eexists.
        -- by rewrite lookup_insert_ne.
      * intros x poll' Hpoll' Ha'.
        destruct (decide (ref = x)) as [->|Hne].
        -- rewrite lookup_insert_eq in Hpoll'. injection Hpoll' as <-.
           exact (Hleft x poll Hpoll Ha).
        -- rewrite lookup_insert_ne in Hpoll' by done. by eapply Hleft.
    + assert (Poll.isActive poll = true) as Ha.
      { apply includes_elem_of, Hin in Hi as (poll' & Hpoll' & Ha'). congruence. }
      split; [done|]. split.
      * intros x. rewrite Hin.
        destruct (decide (ref = x)) as [->|Hne].
        -- rewrite lookup_insert_eq. split; [|by eexists].
           intros _. by eexists.
        -- by rewrite lookup_insert_ne.
      * intros x poll' Hpoll' Ha'.
        destruct (decide (ref = x)) as [->|Hne].
        -- rewrite lookup_insert_eq in Hpoll'. injection Hpoll' as <-.
           cbn [decrementTimeLeft Poll.timeLeft Poll.duration].
           pose proof (Hleft x poll Hpoll Ha). lia.
        -- rewrite lookup_insert_ne in Hpoll' by done. by eapply Hleft.
    + split; [by apply clearInterval_NoDup|]. split.
      * intros x. rewrite clearInterval_elem_of, Hin by done.
        destruct (decide (ref = x)) as [->|Hne].
        -- rewrite lookup_insert_eq. split; [by intros [_ ?]|].
           intros (poll' & Hpoll' & Ha'). by injection Hpoll' as <-.
        -- rewrite lookup_insert_ne by done. split; [by intros [? _]|].
           intros ?. done.
      * intros x poll' Hpoll' Ha'.
        destruct (decide (ref = x)) as [->|Hne].
        -- rewrite lookup_insert_eq in Hpoll'. by injection Hpoll' as <-.
        -- rewrite lookup_insert_ne in Hpoll' by done. by eapply Hleft.
Qed.

(** X4.  In every reachable state the running timers are exactly those of
    the active polls, one for each, and an active poll has between 1
    second and its duration left. *)
Theorem timers_of_active_polls (s : State) :
  reachable s ->
  NoDup (timers s) /\
  (forall ref,
     ref ∈ timers s <->
     exists poll, polls s !! ref = Some poll /\ Poll.isActive poll = true) /\
  (forall ref poll,
     polls s !! ref = Some poll -> Poll.isActive poll = true ->
     1 <= Poll.timeLeft poll <= Poll.duration poll).
Proof. intros Hs. exact (reachable_timersMatch s Hs). Qed.

Lemma tick_unregistered now ref s :
  JS.includes (timers s) ref = false -> tick now ref s = (s, []).
Proof. intros Hi. unfold tick. by rewrite Hi. Qed.

Lemma run_ticks_unregistered ref nows s :
  JS.includes (timers s) ref = false -> run (ticksAt ref nows) s = s.
Proof.
  induction nows as [|now nows IH]; intros Hi; [done|].
  unfold ticksAt. cbn [List.map]. rewrite run_cons. cbn [exec].
  rewrite tick_unregistered by done. by apply IH.
Qed.

Lemma includes_false (options : list string) (option : string) :
  JS.includes options option = false <-> option ∉ options.
Proof.
  rewrite <- includes_elem_of. destruct (JS.includes options option); split;
    congruence.
Qed.

Lemma active_poll_ticks (nows : list Z) (s : State) (ref : string)
    (poll : Poll.t) :
  reachable s ->
  polls s !! ref = Some poll ->
  Poll.isActive poll = true ->
  exists poll',
    polls (run (ticksAt ref nows) s) !! ref = Some poll' /\
    if Z.of_nat (List.length nows) <? Poll.timeLeft poll
    then Poll.isActive poll' = true /\
         Poll.timeLeft poll' = Poll.timeLeft poll - Z.of_nat (List.length nows)
    else pollState poll' = Ended /\
         ref ∉ timers (run (ticksAt ref nows) s).
Proof.
  revert s poll. induction nows as [|now nows IH]; intros s poll Hs Hp Ha.
  - destruct (reachable_timersMatch s Hs) as (_ & _ & Hleft).
    pose proof (Hleft ref poll Hp Ha) as Hl. exists poll. split; [done|].
    cbn [List.length]. destruct (Z.ltb_spec (Z.of_nat 0) (Poll.timeLeft poll));
      [|lia]. split; [done | lia].
  - destruct (reachable_timersMatch s Hs) as (_ & Hin & Hleft).
    pose proof (Hleft ref poll Hp Ha) as Hl.
    assert (JS.includes (timers s) ref = true) as Hi.
    { apply includes_elem_of, Hin. by exists poll. }
    assert (reachable (exec (Tick now ref) s)) as Hs1
      by (by apply reachable_step).
    unfold ticksAt. cbn [List.map]. rewrite run_cons.
    fold (ticksAt ref nows).
    pose proof (tick_polls now ref s) as Hpolls.
    rewrite Hp, Hi in Hpolls. cbn [negb] in Hpolls.
    destruct (Z.leb_spec (Poll.timeLeft poll - 1) 0) as [Hle|Hgt].
    + assert (polls (exec (Tick now ref) s) !! ref
              = Some (endedPoll now (decrementTimeLeft poll))) as Hp1.
      { cbn [exec]. by rewrite Hpolls, lookup_insert_eq. }
      assert (ref ∉ timers (exec (Tick now ref) s)) as Hnotin.
      { destruct (reachable_timersMatch _ Hs1) as (_ & Hin1 & _).
        rewrite Hin1. intros (poll1 & Hpoll1 & Ha1).
        rewrite Hp1 in Hpoll1. by injection Hpoll1 as <-. }
      rewrite run_ticks_unregistered by (by apply includes_false).
      eexists. split; [exact Hp1|].
      destruct (Z.ltb_spec (Z.of_nat (List.length (now :: nows)))
                  (Poll.timeLeft poll)) as [Hlt|_].
      * cbn [List.length] in Hlt. lia.
      * done.
    + assert (polls (exec (Tick now ref) s) !! ref
              = Some (decrementTimeLeft poll)) as Hp1.
      { cbn [exec]. by rewrite Hpolls, lookup_insert_eq. }
      destruct (IH _ _ Hs1 Hp1 Ha) as (poll' & Hp' & Hres).
      exists poll'. split; [exact Hp'|].
      cbn [decrementTimeLeft Poll.timeLeft] in Hres. cbn [List.length].
      destruct (Z.ltb_spec (Z.of_nat (List.length nows)) (Poll.timeLeft poll - 1));
        destruct (Z.ltb_spec (Z.of_nat (S (List.length nows)))
                    (Poll.timeLeft poll)); try lia.
      * destruct Hres as [Ha' Hl']. split; [done | lia].
      * done.
Qed.

(** X5.  A started poll ends by itself: from a reachable state in which
    a stored poll is active, the ticks of its timer keep it active while
    there are fewer of them than the seconds it has left, each taking one
    second off, and from the tick that uses up the time left on, the poll
    is Ended and its timer is gone.  At most 300 ticks are needed. *)
Theorem active_poll_expires (s : State) (ref : string) (poll : Poll.t)
    (nows : list Z) :
  reachable s ->
  polls s !! ref = Some poll ->
  Poll.isActive poll = true ->
  Poll.timeLeft poll <= 300 /\
  exists poll',
    polls (run (ticksAt ref nows) s) !! ref = Some poll' /\
    if Z.of_nat (List.length nows) <? Poll.timeLeft poll
    then Poll.isActive poll' = true /\
         Poll.timeLeft poll' = Poll.timeLeft poll - Z.of_nat (List.length nows)
    else pollState poll' = Ended /\
         ref ∉ timers (run (ticksAt ref nows) s).
Proof.
  intros Hs Hp Ha. split.
  - destruct (reachable_timersMatch s Hs) as (_ & _ & Hleft).
    pose proof (Hleft ref poll Hp Ha).
    destruct (stored_poll_bounds s ref poll Hs Hp). lia.
  - by apply active_poll_ticks.
Qed.

(** ** The tally, option by option *)

Lemma initialised_lookup_Some (options : list string)
    (results : gmap string Tally.t) (option : string) (tally : Tally.t) :
  fold_left (fun results option => <[option := Tally.mk 0 []]> results)
    options results !! option = Some tally ->
  tally = Tally.mk 0 [] \/ results !! option = Some tally.
Proof.
  revert results. induction options as [|o options IH]; intros results Hs.
  - by right.
  - simpl in Hs. destruct (IH _ Hs) as [Ht | Ht]; [by left|].
    destruct (decide (o = option)) as [->|Hne].
    + rewrite lookup_insert_eq in Ht. left. congruence.
    + right. by rewrite lookup_insert_ne in Ht.
Qed.

Lemma recorded_pollStep c ref poll poll' :
  pollStep c ref poll poll' -> recorded poll -> recorded poll'.
Proof.
  intros Hstep Hr.
  destruct Hstep as [ | | now sid sname opt _ _ Hi Hnone Hn | | ];
    try exact Hr.
  - intros studentId response Hs. cbn [startedPoll Poll.responses] in Hs.
    by rewrite lookup_empty in Hs.
  - intros studentId response Hs.
    cbn [respondedPoll Poll.responses Poll.options Poll.correctAnswer] in *.
    destruct (decide (sid = studentId)) as [->|Hne].
    + rewrite lookup_insert_eq in Hs. injection Hs as <-. simpl.
      split; [done|]. split; [done|].
      split; [by apply includes_elem_of | done].
    + rewrite lookup_insert_ne in Hs by done. by apply Hr.
Qed.

Lemma responsesFor_respondedPoll now studentId studentName selectedOption poll
    option :
  Poll.responses poll !! studentId = None ->
  size (responsesFor (respondedPoll now studentId studentName selectedOption poll)
          option)
  = if decide (selectedOption = option)
    then S (size (responsesFor poll option))
    else size (responsesFor poll option).
Proof.
  intros Hnone. unfold responsesFor. cbn [respondedPoll Poll.responses].
  destruct (decide (selectedOption = option)) as [->|Hne].
  - rewrite map_filter_insert_True by done.
    rewrite map_size_insert_None; [done|].
    apply map_lookup_filter_None. by left.
  - rewrite map_filter_insert_False by done. by rewrite delete_id.
Qed.

Lemma results_respondedPoll now studentId studentName selectedOption poll option :
  Poll.results (respondedPoll now studentId studentName selectedOption poll)
    !! option
  = if decide (selectedOption = option)
    then
      let old := default (Tally.mk 0 []) (Poll.results poll !! option) in
      Some (Tally.mk (Tally.count old + 1)
              (Tally.participants old ++ [Respondent.mk studentId studentName]))
    else Poll.results poll !! option.
Proof.
  cbn [respondedPoll Poll.results].
  destruct (decide (selectedOption = option)) as [->|Hne].
  - rewrite lookup_alter_eq.
    destruct (Poll.results poll !! option) as [old|] eqn:Ho; simpl.
    + by rewrite Ho.
    + by rewrite lookup_insert_eq.
  - rewrite lookup_alter_ne by done.
    destruct (Poll.results poll !! selectedOption); [done|].
    by rewrite lookup_insert_ne.
Qed.

Lemma tallied_pollStep c ref poll poll' :
  pollStep c ref poll poll' -> tallied poll -> tallied poll'.
Proof.
  intros Hstep Ht.
  destruct Hstep as [ | | now sid sname opt _ _ Hi Hnone | | ]; try exact Ht.
  - intros option. unfold tallyCount, responsesFor.
    cbn [startedPoll Poll.results Poll.responses].
    rewrite map_filter_empty, map_size_empty. split.
    + destruct (fold_left _ _ _ !! option) as [tally|] eqn:Hl; [|done].
      apply initialised_lookup_Some in Hl as [-> | Hl]; [done|].
      by rewrite lookup_empty in Hl.
    + intros tally Hl.
      apply initialised_lookup_Some in Hl as [-> | Hl];
        [|by rewrite lookup_empty in Hl].
      simpl. split; [done|]. split; [constructor|].
      intros respondent Hin. by apply elem_of_nil in Hin.
  - intros option. destruct (Ht option) as [Hcount Hlist].
    unfold tallyCount in *.
    rewrite results_respondedPoll, responsesFor_respondedPoll by done.
    destruct (decide (opt = option)) as [->|Hne].
    + assert (let old := default (Tally.mk 0 []) (Poll.results poll !! option) in
              Z.of_nat (List.length (Tally.participants old)) = Tally.count old /\
              NoDup (Respondent.studentId <$> Tally.participants old) /\
              (forall respondent,
                 respondent ∈ Tally.participants old ->
                 exists response,
                   Poll.responses poll !! Respondent.studentId respondent
                   = Some response /\
                   Response.selectedOption response = option /\
                   Response.studentName response
                   = Respondent.studentName respondent) /\
              Tally.count old = Z.of_nat (size (responsesFor poll option)))
        as (Hlen & Hnd & Hmem & Hc).
      { destruct (Poll.results poll !! option) as [old|] eqn:Ho; simpl.
        - destruct (Hlist old eq_refl) as (? & ? & ?). done.
        - split; [done|]. split; [constructor|]. split; [|done].
          intros respondent Hin. by apply elem_of_nil in Hin. }
      cbn zeta. simpl. split; [lia|].
      intros tally [= <-]. simpl. split; [rewrite length_app; simpl; lia|].
      split.
      * rewrite fmap_app. apply NoDup_app. split; [done|].
        split; [|apply NoDup_singleton].
        intros x Hx ->%list_elem_of_singleton.
        apply list_elem_of_fmap in Hx as (respondent & Hid & Hin).
        destruct (Hmem respondent Hin) as (response & Hresp & _).
        simpl in Hid. rewrite <- Hid in Hresp. congruence.
      * intros respondent [Hin | ->%list_elem_of_singleton]%elem_of_app.
        -- destruct (Hmem respondent Hin) as (response & Hresp & Hsel & Hname).
           exists response. split; [|done].
           cbn [respondedPoll Poll.responses].
           rewrite lookup_insert_ne; [done|]. congruence.
        -- eexists. cbn [respondedPoll Poll.responses Respondent.studentId].
           rewrite lookup_insert_eq. done.
    + split; [done|]. intros tally Hl.
      destruct (Hlist tally Hl) as (Hlen & Hnd & Hmem).
      split; [done|]. split; [done|].
      intros respondent Hin.
      destruct (Hmem respondent Hin) as (response & Hresp & Hsel & Hname).
      exists response. split; [|done].
      cbn [respondedPoll Poll.responses].
      rewrite lookup_insert_ne; [done|]. congruence.
Qed.

Lemma reachable_tallied (s : State) (ref : string) (poll : Poll.t) :
  reachable s ->
  polls s !! ref = Some poll ->
  recorded poll /\ tallied poll.
Proof.
  intros Hs Hp.
  eapply (reachable_poll_invariant (fun poll => recorded poll /\ tallied poll));
    [| |exact Hs|exact Hp].
  - intros pollId now req. split.
    + intros studentId response Hl. cbn [newPoll Poll.responses] in Hl.
      by rewrite lookup_empty in Hl.
    + intros option. unfold tallyCount, responsesFor.
      cbn [newPoll Poll.results Poll.responses].
      rewrite map_filter_empty, map_size_empty, lookup_empty. split; [done|].
      intros tally Hl. discriminate.
  - intros c r p p' Hstep [Hr Ht]. split.
    + by eapply recorded_pollStep.
    + by eapply tallied_pollStep.
Qed.

(** X6.  In every reachable state, the tally entry of every option of
    every stored poll counts exactly the stored responses that selected
    that option, and its participant list names the authors of those
    responses, each once. *)
Theorem tally_entry_counts_its_responses (s : State) (ref : string)
    (poll : Poll.t) (option : string) :
  reachable s ->
  polls s !! ref = Some poll ->
  tallyCount (Poll.results poll) option
  = Z.of_nat (size (responsesFor poll option)) /\
  forall tally,
    Poll.results poll !! option = Some tally ->
    Z.of_nat (List.length (Tally.participants tally)) = Tally.count tally /\
    NoDup (Respondent.studentId <$> Tally.participants tally) /\
    forall respondent,
      respondent ∈ Tally.participants tally ->
      exists response,
        Poll.responses poll !! Respondent.studentId respondent = Some response /\
        Response.selectedOption response = option /\
        Response.studentName response = Respondent.studentName respondent.
Proof.
  intros Hs Hp. destruct (reachable_tallied s ref poll Hs Hp) as [_ Ht].
  exact (Ht option).
Qed.

(** X7.  In every reachable state, every stored response is filed under
    the id of its author, which is never a property name that every
    object inherits (the route answers 409 to such an id), selects one of
    the options of its poll, and is flagged correct exactly when the
    selected option is the one at the poll's correct index. *)
Theorem response_flag_matches_correct_option (s : State) (ref : string)
    (poll : Poll.t) (studentId : string) (response : Response.t) :
  reachable s ->
  polls s !! ref = Some poll ->
  Poll.responses poll !! studentId = Some response ->
  JS.inherited studentId = false /\
  Response.studentId response = studentId /\
  Response.selectedOption response ∈ Poll.options poll /\
  (Response.isCorrect response = true <->
   JS.index (Poll.options poll) (Poll.correctAnswer poll)
   = Some (Response.selectedOption response)).
Proof.
  intros Hs Hp Hr. destruct (reachable_tallied s ref poll Hs Hp) as [Hrec _].
  destruct (Hrec studentId response Hr) as (Hn & Hid & Hin & Hflag).
  split; [done|]. split; [done|]. split; [done|].
  rewrite Hflag. apply bool_decide_eq_true.
Qed.

(** ** The correct count of the summary *)

Lemma correctResponsesOf_size poll :
  recorded poll ->
  size (correctResponsesOf poll)
  = match JS.index (Poll.options poll) (Poll.correctAnswer poll) with
    | Some option => size (responsesFor poll option)
    | None => 0%nat
    end.
Proof.
  intros Hrec. unfold correctResponsesOf, responsesFor.
  destruct (JS.index (Poll.options poll) (Poll.correctAnswer poll))
    as [option|] eqn:Hi.
  - f_equal. apply map_filter_ext. intros studentId response Hr. simpl.
    destruct (Hrec studentId response Hr) as (_ & _ & _ & ->).
    rewrite bool_decide_eq_true. split; congruence.
  - apply map_size_empty_iff, map_empty. intros studentId.
    apply map_lookup_filter_None. right. intros response Hr. simpl.
    destruct (Hrec studentId response Hr) as (_ & _ & _ & ->).
    rewrite bool_decide_eq_true. congruence.
Qed.

(** X8.  In every reachable state, the summary of an ended poll counts as
    correct exactly the stored responses that are flagged correct, none
    when the correct index selects no option; when the option texts are
    distinct its total is the number of responses and its incorrect count
    is the rest. *)
Theorem summary_counts_flagged_responses (s : State) (ref : string)
    (poll : Poll.t) :
  reachable s ->
  polls s !! ref = Some poll ->
  pollState poll = Ended ->
  exists summary,
    Poll.summary poll = Some summary /\
    Summary.correctResponses summary
    = Z.of_nat (size (correctResponsesOf poll)) /\
    (JS.index (Poll.options poll) (Poll.correctAnswer poll) = None ->
     Summary.correctResponses summary = 0) /\
    (NoDup (Poll.options poll) ->
     Summary.totalResponses summary = Z.of_nat (size (Poll.responses poll)) /\
     Summary.incorrectResponses summary
     = Z.of_nat (size (Poll.responses poll))
       - Z.of_nat (size (correctResponsesOf poll))).
Proof.
  intros Hs Hp He.
  destruct (reachable_summary s ref poll Hs Hp) as (Hc & Hin & Hsum).
  destruct (reachable_tallied s ref poll Hs Hp) as [Hrec Ht].
  destruct (Hsum He) as [Hsm _]. exists (summaryOf poll). split; [exact Hsm|].
  assert (Summary.correctResponses (summaryOf poll)
          = Z.of_nat (size (correctResponsesOf poll))) as Hcorrect.
  { rewrite summaryOf_correctResponses, correctResponsesOf_size by done.
    destruct (JS.index _ _) as [option|]; [|done].
    by destruct (Ht option) as [-> _]. }
  split; [exact Hcorrect|]. split.
  - intros Hi. by rewrite summaryOf_correctResponses, Hi.
  - intros Hnd.
    assert (Summary.totalResponses (summaryOf poll)
            = Z.of_nat (size (Poll.responses poll))) as Htotal.
    { rewrite summaryOf_total, totalOf_sumCounts by done. exact Hc. }
    split; [exact Htotal|].
    rewrite <- Htotal, <- Hcorrect. unfold summaryOf.
    by destruct (counted poll) as [[finalResults total] correct].
Qed.

(** ** The outcomes of the write routes *)

Lemma accepted_json {A : Type} (status : Z) (body : A) : accepted (json status body).
Proof. by exists status, body. Qed.

Lemma accepted_error {A : Type} (status : Z) (message : string) :
  ~ accepted (@error A status message).
Proof. intros (st & body & Heq). discriminate. Qed.

(** X9.  The start route answers 404 for an unknown poll, 403 for a
    requester who is not the creator, 409 for a poll that is active, in
    that order, and leaves the state alone; otherwise it succeeds: the
    poll becomes active with the whole duration left, its responses are
    emptied, its tally holds a zero entry for each of its options and
    nothing else, the chat log is emptied, a timer is registered for it,
    no other poll changes, and one [pollStarted] event is broadcast. *)
Theorem startPoll_outcome (now : Z) (pollId teacherId : string) (s : State) :
  let '(s', response, events) := startPoll now pollId teacherId s in
  match polls s !! pollId with
  | None => failsWith response NotFoundError /\ s' = s /\ events = []
  | Some poll =>
      if negb (String.eqb (Poll.teacherId poll) teacherId)
      then failsWith response ForbiddenError /\ s' = s /\ events = []
      else if Poll.isActive poll
      then failsWith response ConflictError /\ s' = s /\ events = []
      else
        exists poll',
          polls s' !! pollId = Some poll' /\
          response
          = json 200 (PollBody.mk (pollView poll') "Poll started successfully") /\
          events
          = [pollStarted (pollView poll') (JSMap.values (activeParticipants s))] /\
          Poll.isActive poll' = true /\
          Poll.timeLeft poll' = Poll.duration poll /\
          Poll.startTime poll' = Some now /\
          Poll.endTime poll' = Some (now + Poll.duration poll * 1000) /\
          Poll.responses poll' = ∅ /\
          (forall option,
             Poll.results poll' !! option
             = if decide (option ∈ Poll.options poll)
               then Some (Tally.mk 0 []) else None) /\
          definitionOf poll' = definitionOf poll /\
          chatMessages s' = [] /\
          timers s' = (timers s ++ [pollId])%list /\
          (forall other, other <> pollId -> polls s' !! other = polls s !! other) /\
          pollHistory s' = pollHistory s /\
          activeParticipants s' = activeParticipants s /\
          kickedOutStudents s' = kickedOutStudents s /\
          currentPoll s' = currentPoll s
  end.
Proof.
  unfold startPoll. destruct (polls s !! pollId) as [poll|] eqn:Hp.
  - destruct (negb (String.eqb (Poll.teacherId poll) teacherId)).
    + split; [by eexists | done].
    + destruct (Poll.isActive poll).
      * split; [by eexists | done].
      * exists (startedPoll now poll). cbn [polls chatMessages timers
          pollHistory activeParticipants kickedOutStudents currentPoll].
        rewrite lookup_insert_eq. repeat split; try done.
        -- intros option. cbn [startedPoll Poll.results Poll.options].
           by rewrite initialised_results, lookup_empty.
        -- intros other Hne. by rewrite lookup_insert_ne.
  - split; [by eexists | done].
Qed.

Lemma accepted_error_iff {A : Type} (status : Z) (message : string) :
  accepted (@error A status message) <-> False.
Proof. split; [apply accepted_error | done]. Qed.

Lemma accepted_json_iff {A : Type} (status : Z) (body : A) :
  accepted (json status body) <-> True.
Proof. split; [done | intros _; apply accepted_json]. Qed.

Lemma failsWith_json_iff {A : Type} (status : Z) (body : A) (e : ErrorKind) :
  failsWith (json status body) e <-> False.
Proof. split; [apply json_not_failsWith | done]. Qed.

(** Proof step: the status tests of an outcome, by the facts at hand. *)
Ltac outcome :=
  rewrite ?failsWith_status, ?accepted_error_iff, ?accepted_json_iff,
    ?failsWith_json_iff;
  cbn [statusOf]; split_and!; try (split; intros);
  repeat match goal with
         | H : _ /\ _ |- _ => destruct H
         | H : exists _, _ |- _ => destruct H
         | H : _ \/ _ |- _ => destruct H
         | H : is_Some _ |- _ => destruct H
         end;
  simplify_eq; try done; try congruence; try (split; [done|]); eauto 10.

(** X10.  The response route accepts a response exactly when the student
    is not kicked out, the poll exists and is active, the option is one
    of the poll's options and [poll.responses[studentId]] is not truthy:
    the student has no response yet and the id is not a property name
    that every object inherits; in every other case it answers 403, 404,
    400, 400 or 409, tested in that order, changes nothing and broadcasts
    nothing. *)
Theorem submitResponse_outcome (now : Z)
    (pollId studentId studentName selectedOption : string) (s : State) :
  let '(s', response, events) :=
    submitResponse now pollId studentId studentName selectedOption s in
  (accepted response <->
   (studentId ∉ kickedOutStudents s) /\
   exists poll,
     polls s !! pollId = Some poll /\ Poll.isActive poll = true /\
     selectedOption ∈ Poll.options poll /\
     Poll.responses poll !! studentId = None /\
     JS.inherited studentId = false) /\
  (failsWith response ForbiddenError <-> studentId ∈ kickedOutStudents s) /\
  (failsWith response NotFoundError <->
   (studentId ∉ kickedOutStudents s) /\ polls s !! pollId = None) /\
  (failsWith response ValidationError <->
   (studentId ∉ kickedOutStudents s) /\
   exists poll,
     polls s !! pollId = Some poll /\
     (Poll.isActive poll = false \/ selectedOption ∉ Poll.options poll)) /\
  (failsWith response ConflictError <->
   (studentId ∉ kickedOutStudents s) /\
   exists poll,
     polls s !! pollId = Some poll /\ Poll.isActive poll = true /\
     selectedOption ∈ Poll.options poll /\
     (is_Some (Poll.responses poll !! studentId) \/
      JS.inherited studentId = true)) /\
  (~ accepted response -> s' = s /\ events = []).
Proof.
  unfold submitResponse. case_bool_decide as Hk; [outcome|].
  destruct (polls s !! pollId) as [poll|] eqn:Hp; [|outcome].
  destruct (Poll.isActive poll) eqn:Ha; simpl; [|outcome].
  destruct (JS.includes (Poll.options poll) selectedOption) eqn:Hi; simpl.
  - apply includes_elem_of in Hi.
    destruct (Poll.responses poll !! studentId) as [old|] eqn:Hr; [outcome|].
    destruct (JS.inherited studentId) eqn:Hn; outcome.
  - apply includes_false in Hi. outcome.
Qed.


(** X12.  The create route rejects a request with 400 exactly when the
    question is empty, the request has fewer than two options, or the
    creator's id or name is empty; it rejects a valid request with 409
    exactly when the current poll is active; a rejection changes nothing.
    Otherwise it stores a new inactive poll with no responses under the
    generated id, makes it the current poll, which the current-poll route
    then returns, and leaves every other stored poll as it was, also when
    the previous current poll was never started. *)
Theorem createPoll_outcome (pollId : string) (now : Z) (req : CreateRequest.t)
    (s : State) :
  let '(s', response) := createPoll pollId now req s in
  (failsWith response ValidationError <-> ~ validated req) /\
  (failsWith response ConflictError <->
   validated req /\ currentPollActive s = true) /\
  (accepted response <-> validated req /\ currentPollActive s = false) /\
  (~ accepted response -> s' = s) /\
  (accepted response ->
   response
   = json 201 (PollBody.mk (pollView (newPoll pollId now req))
                 "Poll created successfully") /\
   polls s' !! pollId = Some (newPoll pollId now req) /\
   pollState (newPoll pollId now req) = Draft /\
   Poll.responses (newPoll pollId now req) = ∅ /\
   currentPoll s' = Some pollId /\
   getCurrentPoll s'
   = json 200
       (CurrentBody.current (Some (pollView (newPoll pollId now req)))
          (JSMap.values (activeParticipants s)) (chatMessages s)) /\
   (forall other, other <> pollId -> polls s' !! other = polls s !! other) /\
   sessionCore s'
   = (polls s', pollHistory s, chatMessages s, Some pollId, timers s) /\
   activeParticipants s' = activeParticipants s /\
   kickedOutStudents s' = kickedOutStudents s).
Proof.
  unfold createPoll, validated.
  destruct (JS.truthy (CreateRequest.question req)) eqn:Hq; simpl.
  2: { assert (CreateRequest.question req = "")
         by (by destruct (CreateRequest.question req)).
       outcome; by intros (? & _). }
  destruct (Z.ltb_spec (JS.length (CreateRequest.options req)) 2); simpl.
  { outcome; try lia; intros (_ & ? & _); lia. }
  destruct (JS.truthy (CreateRequest.teacherId req)) eqn:Ht; simpl.
  2: { assert (CreateRequest.teacherId req = "")
         by (by destruct (CreateRequest.teacherId req)).
       outcome; try lia; by intros (_ & _ & ? & _). }
  destruct (JS.truthy (CreateRequest.teacherName req)) eqn:Hn; simpl.
  2: { assert (CreateRequest.teacherName req = "")
         by (by destruct (CreateRequest.teacherName req)).
       outcome; try lia; by intros (_ & _ & _ & ?). }
  apply truthy_ne in Hq, Ht, Hn.
  destruct (currentPollActive s) eqn:Ha; simpl.
  - outcome; exfalso; match goal with Hno : ~ _ |- _ => by apply Hno end.
  - outcome.
    split; [apply lookup_insert_eq|]. repeat split; try done.
    + unfold getCurrentPoll, currentPollObject. cbn.
      by rewrite lookup_insert_eq.
    + intros other Hne. by rewrite lookup_insert_ne.
Qed.

(** ** The [Map] of participants *)

Section JSMapFacts.
Context {K V : Type} `{EqDecision K}.
Implicit Types (m : JSMap.t K V) (k : K) (v : V).

Lemma JSMap_get_Some m k v :
  JSMap.get m k = Some v -> (k, v) ∈ m.
Proof.
  unfold JSMap.get. destruct (List.find _ m) as [[k' v']|] eqn:Hf; [|done].
  simpl. intros [= ->]. apply find_some in Hf as [Hin Hk].
  apply bool_decide_eq_true_1 in Hk. simpl in Hk. subst.
  by apply list_elem_of_In.
Qed.

Lemma JSMap_get_None m k : JSMap.get m k = None <-> k ∉ m.*1.
Proof.
  unfold JSMap.get. induction m as [|[k' v'] m IH]; simpl.
  - split; [intros _; apply not_elem_of_nil | done].
  - rewrite not_elem_of_cons. case_bool_decide as Hk; simpl in *.
    + split; [done | intros [? _]; congruence].
    + rewrite IH. split; [intros ?; split; [congruence | done] | by intros [_ ?]].
Qed.

Lemma JSMap_get_set m k v k' :
  JSMap.get (JSMap.set m k v) k' = if decide (k = k') then Some v else JSMap.get m k'.
Proof.
  unfold JSMap.get. induction m as [|[k0 v0] m IH]; simpl.
  - destruct (decide (k = k')) as [->|Hne].
    + by rewrite bool_decide_eq_true_2.
    + by rewrite bool_decide_eq_false_2.
  - destruct (decide (k0 = k)) as [->|Hne0]; simpl.
    + destruct (decide (k = k')) as [->|Hne].
      * by rewrite bool_decide_eq_true_2.
      * by rewrite !bool_decide_eq_false_2.
    + case_bool_decide as Hk; simpl in *.
      * subst. by rewrite decide_False by congruence.
      * exact IH.
Qed.

Lemma JSMap_get_delete m k k' :
  JSMap.get (JSMap.delete m k) k' = if decide (k = k') then None else JSMap.get m k'.
Proof.
  unfold JSMap.get, JSMap.delete. induction m as [|[k0 v0] m IH]; simpl.
  - by destruct (decide (k = k')).
  - case_bool_decide as Hk0; simpl in *.
    + subst k0. rewrite IH. destruct (decide (k = k')) as [->|Hne]; [done|].
      by rewrite bool_decide_eq_false_2.
    + case_bool_decide as Hk; simpl in *.
      * subst. by rewrite decide_False by congruence.
      * exact IH.
Qed.

Lemma JSMap_set_keys m k v :
  (JSMap.set m k v).*1 = if decide (k ∈ m.*1) then m.*1 else (m.*1 ++ [k])%list.
Proof.
  induction m as [|[k0 v0] m IH].
  - by rewrite decide_False by apply not_elem_of_nil.
  - cbn [JSMap.set]. destruct (decide (k0 = k)) as [->|Hne];
      rewrite !fmap_cons; cbn [fst].
    + by rewrite decide_True by apply list_elem_of_here.
    + rewrite IH. destruct (decide (k ∈ m.*1)) as [Hin|Hnotin].
      * by rewrite decide_True by (by apply list_elem_of_further).
      * rewrite decide_False; [done|]. intros [?|?]%elem_of_cons; congruence.
Qed.

Lemma JSMap_set_NoDup m k v : NoDup m.*1 -> NoDup (JSMap.set m k v).*1.
Proof.
  intros Hnd. rewrite JSMap_set_keys. destruct (decide _) as [|Hnotin]; [done|].
  apply NoDup_app. split; [done|]. split; [|apply NoDup_singleton].
  intros x Hx ->%list_elem_of_singleton. done.
Qed.

Lemma JSMap_elem_of_set m k v k' v' :
  (k', v') ∈ JSMap.set m k v -> (k' = k /\ v' = v) \/ (k', v') ∈ m.
Proof.
  induction m as [|[k0 v0] m IH]; simpl.
  - intros [= -> ->]%list_elem_of_singleton. by left.
  - destruct (decide (k0 = k)) as [->|Hne].
    + intros [[= -> ->]|Hin]%elem_of_cons; [by left|].
      right. by apply list_elem_of_further.
    + intros [[= -> ->]|Hin]%elem_of_cons; [right; apply list_elem_of_here|].
      destruct (IH Hin) as [?|?]; [by left|].
      right. by apply list_elem_of_further.
Qed.

Lemma JSMap_elem_of_delete m k k' v' :
  (k', v') ∈ JSMap.delete m k <-> (k', v') ∈ m /\ k' <> k.
Proof.
  unfold JSMap.delete. rewrite !list_elem_of_In, filter_In.
  simpl. rewrite negb_true_iff, bool_decide_eq_false. done.
Qed.

Lemma JSMap_delete_NoDup m k : NoDup m.*1 -> NoDup (JSMap.delete m k).*1.
Proof.
  unfold JSMap.delete. induction m as [|[k0 v0] m IH]; simpl; [done|].
  intros [Hnotin Hnd]%NoDup_cons. destruct (negb _); simpl; [|by apply IH].
  apply NoDup_cons. split; [|by apply IH].
  intros Hin. apply Hnotin.
  apply list_elem_of_fmap in Hin as ([k1 v1] & -> & Hin).
  apply list_elem_of_In, filter_In in Hin as [Hin _].
  apply list_elem_of_fmap. exists (k1, v1). split; [done|].
  by apply list_elem_of_In.
Qed.

End JSMapFacts.

Lemma JSMap_unique {K V} (m : list (K * V)) k v1 v2 :
  NoDup m.*1 -> (k, v1) ∈ m -> (k, v2) ∈ m -> v1 = v2.
Proof.
  induction m as [|[k' v'] m IH]; [by intros _ ?%elem_of_nil|].
  rewrite fmap_cons, NoDup_cons, !elem_of_cons. cbn [fst].
  intros [Hk Hnd] [?|H1] [?|H2]; simplify_eq; try done.
  - destruct Hk. apply list_elem_of_fmap. by eexists (_, _).
  - destruct Hk. apply list_elem_of_fmap. by eexists (_, _).
  - by apply IH.
Qed.

(** ** The roster and the kicked-out set *)

Lemma JSMap_delete_delete {K V : Type} `{EqDecision K} (m : JSMap.t K V) (k : K) :
  JSMap.delete (JSMap.delete m k) k = JSMap.delete m k.
Proof.
  unfold JSMap.delete. induction m as [|[k0 v0] m IH]; simpl; [done|].
  destruct (negb (bool_decide (k0 = k))) eqn:Hk; simpl; [|done].
  by rewrite Hk, IH.
Qed.

Lemma isStudentSocket_studentId sock studentId :
  isStudentSocket sock = Some studentId -> Socket.studentId sock = Some studentId.
Proof.
  unfold isStudentSocket. destruct (Socket.role sock) as [[]|]; try done.
  destruct (Socket.studentId sock) as [sid|]; [|done].
  destruct (JS.truthy sid); [|done]. by intros [= ->].
Qed.

Lemma disconnect_roster socket s :
  kickedOutStudents (disconnect socket s).1 = kickedOutStudents s /\
  (NoDup (sockets s).*1 -> NoDup (sockets (disconnect socket s).1).*1) /\
  (activeParticipants (disconnect socket s).1 = activeParticipants s \/
   exists sock studentId,
     JSMap.get (sockets s) socket = Some sock /\
     Socket.studentId sock = Some studentId /\
     activeParticipants (disconnect socket s).1
     = JSMap.delete (activeParticipants s) studentId).
Proof.
  unfold disconnect. destruct (JSMap.get (sockets s) socket) as [sock|] eqn:Hg;
    [|by split; [|split; [|left]]].
  destruct (isStudentSocket sock) as [studentId|] eqn:Hs; simpl.
  2: { split; [done|]. split; [apply JSMap_delete_NoDup | by left]. }
  split; [done|]. split; [apply JSMap_delete_NoDup|].
  right. exists sock, studentId.
  split; [done|]. split; [by apply isStudentSocket_studentId | done].
Qed.

Lemma kickParticipant_roster socket studentId reason s :
  NoDup (sockets s).*1 ->
  match JSMap.get (sockets s) socket ≫= Socket.role with
  | Some teacher =>
      kickedOutStudents (kickParticipant socket studentId reason s).1
      = {[studentId]} ∪ kickedOutStudents s /\
      activeParticipants (kickParticipant socket studentId reason s).1
      = JSMap.delete (activeParticipants s) studentId /\
      NoDup (sockets (kickParticipant socket studentId reason s).1).*1
  | _ => (kickParticipant socket studentId reason s).1 = s
  end.
Proof.
  intros Hnd.
  unfold kickParticipant. destruct (JSMap.get (sockets s) socket) as [sock|];
    [|done].
  simpl. destruct (Socket.role sock) as [[]|]; try done.
  destruct (List.find _ _) as [[k sock']|] eqn:Hf; [|done].
  apply find_some in Hf as [Hin Hsid]. apply bool_decide_eq_true_1 in Hsid.
  simpl in Hsid, Hin. apply list_elem_of_In in Hin.
  match goal with
  | |- context [disconnect k ?s1] =>
      destruct (disconnect_roster k s1) as (Hk & Hso & Hr);
      destruct (disconnect k s1) as [s2 events]
  end.
  simpl in *. split; [done|]. split; [|by apply Hso].
  destruct Hr as [-> | (sock2 & sid2 & Hg & Hs2 & ->)]; [done|].
  apply JSMap_get_Some in Hg.
  assert (sock2 = sock') as -> by (by eapply JSMap_unique).
  assert (sid2 = studentId) as -> by congruence.
  apply JSMap_delete_delete.
Qed.

Lemma exec_membership (c : Command) (s : State) :
  match c with
  | CreatePoll _ _ _ | StartPoll _ _ _ | SubmitResponse _ _ _ _ _ | Tick _ _
  | SendMessage _ _ _ _ _ _ _ => membership (exec c s) = membership s
  | _ => True
  end.
Proof.
  destruct c; cbn [exec]; try done.
  - unfold createPoll. by repeat case_match.
  - unfold startPoll. by repeat case_match.
  - unfold submitResponse. by repeat case_match.
  - unfold tick, endPoll. by repeat (case_match; simplify_eq/=).
  - unfold sendMessage. by repeat case_match.
Qed.

Lemma reachable_rosterOK (s : State) : reachable s -> rosterOK s.
Proof.
  induction 1 as [|s c Hs (Hsock & Hnd & Hentry) _].
  - split; [constructor|]. split; [constructor|].
    intros studentId participant Hin. by apply elem_of_nil in Hin.
  - pose proof (exec_membership c s) as Hm. unfold rosterOK.
    destruct c; cbn [exec] in *;
      try (unfold membership in Hm; injection Hm as -> -> ->; done).
    + unfold join. repeat case_match; try done. cbn.
      split; [done|]. split; [by apply JSMap_set_NoDup|].
      intros sid participant [[-> ->] | Hin]%JSMap_elem_of_set.
      * simpl. by case_bool_decide.
      * by apply Hentry.
    + unfold connection. destruct (JSMap.has _ _); [done|]. cbn.
      split; [by apply JSMap_set_NoDup | done].
    + unfold joinTeacher. destruct (JSMap.get _ _); [|done]. cbn.
      split; [by apply JSMap_set_NoDup | done].
    + unfold joinParticipant. destruct (JSMap.get _ _); [|done].
      case_bool_decide as Hk; [done|]. cbn.
      split; [by apply JSMap_set_NoDup|]. split; [by apply JSMap_set_NoDup|].
      intros sid participant [[-> ->] | Hin]%JSMap_elem_of_set; [done|].
      by apply Hentry.
    + pose proof (kickParticipant_roster socket studentId reason s Hsock) as Hk.
      destruct (JSMap.get (sockets s) socket ≫= Socket.role) as [[]|];
        try (by rewrite Hk).
      destruct Hk as (-> & -> & Hso). split; [done|].
      split; [by apply JSMap_delete_NoDup|].
      intros sid participant [Hin Hne]%JSMap_elem_of_delete.
      destruct (Hentry sid participant Hin) as (? & ? & ?).
      split; [done|]. split; [done|].
      by intros [?%elem_of_singleton|?]%elem_of_union.
    + destruct (disconnect_roster socket s) as (-> & Hso & Hr).
      split; [by apply Hso|].
      destruct Hr as [-> | (sock & sid & _ & _ & ->)]; [done|].
      split; [by apply JSMap_delete_NoDup|].
      intros sid' participant [Hin Hne]%JSMap_elem_of_delete.
      by apply Hentry.
Qed.

(** X13.  In every reachable state each roster entry is stored under its
    own id, has the role student, and belongs to a student who has not
    been kicked out; no id is listed twice. *)
Theorem roster_holds_unkicked_students (s : State) (studentId : string)
    (participant : Participant.t) :
  reachable s ->
  (studentId, participant) ∈ activeParticipants s ->
  Participant.id participant = studentId /\
  Participant.role participant = student /\
  (studentId ∉ kickedOutStudents s) /\
  JSMap.get (activeParticipants s) studentId = Some participant.
Proof.
  intros Hs Hin. destruct (reachable_rosterOK s Hs) as (_ & Hnd & Hentry).
  destruct (Hentry studentId participant Hin) as (Hid & Hrole & Hk).
  split; [done|]. split; [done|]. split; [done|].
  destruct (JSMap.get (activeParticipants s) studentId) as [p|] eqn:Hg.
  - apply JSMap_get_Some in Hg. f_equal. by eapply JSMap_unique.
  - apply JSMap_get_None in Hg. destruct Hg.
    apply list_elem_of_fmap. by exists (studentId, participant).
Qed.

(** X14.  The join route rejects an empty id or name with 400 and a
    kicked-out id with 403, in that order, and then changes nothing;
    otherwise it succeeds, the roster maps the id to a student entry with
    the given name and the time of the request, which the response
    carries, the other ids of the roster keep their entries, and nothing
    else changes. *)
Theorem join_outcome (now : Z) (studentId studentName : string) (s : State) :
  let '(s', response) := join now studentId studentName s in
  let participant := Participant.mk studentId studentName student now in
  (failsWith response ValidationError <-> studentId = "" \/ studentName = "") /\
  (failsWith response ForbiddenError <->
   studentId <> "" /\ studentName <> "" /\ studentId ∈ kickedOutStudents s) /\
  (accepted response <->
   studentId <> "" /\ studentName <> "" /\ studentId ∉ kickedOutStudents s) /\
  (~ accepted response -> s' = s) /\
  (accepted response ->
   response
   = json 200 (JoinBody.mk "Successfully joined as participant" (Some participant)) /\
   JSMap.get (activeParticipants s') studentId = Some participant /\
   (forall other, other <> studentId ->
      JSMap.get (activeParticipants s') other
      = JSMap.get (activeParticipants s) other) /\
   membership s' = (JSMap.set (activeParticipants s) studentId participant,
                    kickedOutStudents s, sockets s) /\
   sessionCore s' = sessionCore s).
Proof.
  unfold join.
  destruct (JS.truthy studentId) eqn:Hi; simpl.
  2: { assert (studentId = "") as -> by (by destruct studentId). outcome. }
  destruct (JS.truthy studentName) eqn:Hn; simpl.
  2: { assert (studentName = "") as -> by (by destruct studentName).
       apply truthy_ne in Hi. outcome. }
  apply truthy_ne in Hi, Hn.
  case_bool_decide as Hk; [outcome|].
  rewrite !JSMap_get_set, decide_True by done.
  outcome. cbn [activeParticipants].
  rewrite JSMap_get_set, decide_True by done. split; [done|].
  split; [|done]. intros other Hne. rewrite JSMap_get_set.
  by rewrite decide_False.
Qed.

Lemma exec_kicked (c : Command) (s : State) :
  kickedOutStudents (exec c s)
  = match c with
    | KickParticipant socket studentId _ =>
        match JSMap.get (sockets s) socket ≫= Socket.role with
        | Some teacher => {[studentId]} ∪ kickedOutStudents s
        | _ => kickedOutStudents s
        end
    | _ => kickedOutStudents s
    end.
Proof.
  destruct c; cbn [exec].
  - unfold createPoll. by repeat case_match.
  - unfold startPoll. by repeat case_match.
  - unfold submitResponse. by repeat case_match.
  - unfold join. by repeat case_match.
  - unfold tick, endPoll. by repeat (case_match; simplify_eq/=).
  - unfold connection. by repeat case_match.
  - unfold joinTeacher. by repeat case_match.
  - unfold joinParticipant. by repeat case_match.
  - unfold sendMessage. by repeat case_match.
  - apply kickParticipant_kicked.
  - by rewrite (proj2 (disconnect_frame socket s)).
Qed.

(** X15.  The set of kicked-out students changes only by a
    [kickParticipant] event that arrives on a connected socket whose role
    is teacher; the event then adds the named id, which was not in the
    set, and takes it off the roster. *)
Theorem kicked_set_written_by_teacher_kick (c : Command) (s : State) :
  reachable s ->
  kickedOutStudents (exec c s) <> kickedOutStudents s ->
  exists socket studentId reason sock,
    c = KickParticipant socket studentId reason /\
    JSMap.get (sockets s) socket = Some sock /\
    Socket.role sock = Some teacher /\
    (studentId ∉ kickedOutStudents s) /\
    kickedOutStudents (exec c s) = {[studentId]} ∪ kickedOutStudents s /\
    activeParticipants (exec c s) = JSMap.delete (activeParticipants s) studentId /\
    JSMap.get (activeParticipants (exec c s)) studentId = None.
Proof.
  intros Hs Hne. pose proof (exec_kicked c s) as Hk.
  destruct c; try done.
  destruct (reachable_rosterOK s Hs) as (Hsock & _).
  pose proof (kickParticipant_roster socket studentId reason s Hsock) as Hr.
  cbn [exec] in *.
  destruct (JSMap.get (sockets s) socket) as [sock|] eqn:Hg; [|done].
  simpl in Hk, Hr. destruct (Socket.role sock) as [[]|] eqn:Hrole; try done.
  destruct Hr as (_ & Hroster & _).
  exists socket, studentId, reason, sock.
  split; [done|]. split; [done|]. split; [done|].
  split.
  { intros Hin. apply Hne. rewrite Hk. apply set_eq. intros x.
    rewrite elem_of_union, elem_of_singleton.
    split; [intros [->|?]; done | by right]. }
  split; [done|]. split; [done|].
  rewrite Hroster, JSMap_get_delete. by rewrite decide_True.
Qed.

(** X16.  Any connected socket becomes a teacher by sending [joinTeacher]
    with whatever id and name, and can then kick: after the two events
    the named student is kicked out, whoever the socket was. *)
Theorem any_connected_socket_can_kick (socket : nat) (sock : Socket.t)
    (teacherId teacherName studentId : string) (reason : option string)
    (s : State) :
  JSMap.get (sockets s) socket = Some sock ->
  studentId ∈ kickedOutStudents
    (run [JoinTeacher socket teacherId teacherName;
          KickParticipant socket studentId reason] s).
Proof.
  intros Hg. cbn [run fold_left]. rewrite exec_kicked.
  cbn [exec]. unfold joinTeacher. rewrite Hg. cbn [fst withSockets sockets].
  rewrite JSMap_get_set, decide_True by done. simpl.
  apply elem_of_union_l, elem_of_singleton. done.
Qed.

(** ** The chat log *)

Lemma slice_last_100 {A : Type} (l : list A) (x : A) :
  (if JS.length (l ++ [x]) >? 100
   then drop (List.length (l ++ [x]) - 100)%nat (l ++ [x])
   else (l ++ [x])%list)
  = (drop (List.length l + 1 - 100)%nat l ++ [x])%list.
Proof.
  assert (List.length (l ++ [x]) = (List.length l + 1)%nat) as Hlen
    by (rewrite length_app; cbn; lia).
  destruct (Z.gtb_spec (JS.length (l ++ [x])) 100) as [Hgt|Hle].
  - rewrite Hlen. by rewrite drop_app_le by lia.
  - unfold JS.length in Hle.
    by replace (List.length l + 1 - 100)%nat with 0%nat by lia.
Qed.

Lemma exec_chatMessages (c : Command) (s : State) :
  chatMessages (exec c s) = chatMessages s \/
  (exists now ref teacherId, c = StartPoll now ref teacherId /\
     chatMessages (exec c s) = []) \/
  (exists now socket messageId message senderName senderRole senderId,
     c = SendMessage now socket messageId message senderName senderRole senderId /\
     chatMessages (exec c s)
     = (drop (List.length (chatMessages s) + 1 - 100)%nat (chatMessages s) ++
          [ChatMessage.mk messageId (JS.trim message) senderName senderRole
             senderId now])%list).
Proof.
  destruct c; cbn [exec].
  - left. unfold createPoll. by repeat case_match.
  - unfold startPoll. repeat case_match; try (by left).
    right; left. by eexists _, _, _.
  - left. unfold submitResponse. by repeat case_match.
  - left. unfold join. by repeat case_match.
  - left. unfold tick, endPoll. by repeat (case_match; simplify_eq/=).
  - left. unfold connection. by repeat case_match.
  - left. unfold joinTeacher. by repeat case_match.
  - left. unfold joinParticipant. by repeat case_match.
  - unfold sendMessage. destruct (JSMap.get (sockets s) socket) eqn:Hg;
      [|by left].
    destruct (_ && _); [by left|].
    right; right. eexists _, _, _, _, _, _, _. split; [done|].
    cbn [fst chatMessages]. apply slice_last_100.
  - left. pose proof (kickParticipant_sessionCore socket studentId reason s) as H.
    unfold sessionCore in H. by injection H.
  - left. pose proof (proj1 (disconnect_frame socket s)) as H.
    unfold sessionCore in H. by injection H.
Qed.

(** X17.  The chat log never holds more than 100 messages, and each
    message in it has a trimmed text. *)
Theorem chat_log_bounded (s : State) :
  reachable s ->
  (List.length (chatMessages s) <= 100)%nat /\
  Forall (fun m => JS.trim (ChatMessage.message m) = ChatMessage.message m)
    (chatMessages s).
Proof.
  induction 1 as [|s c Hs [IHlen IHtrim] _]; [by split; [cbn; lia|]|].
  destruct (exec_chatMessages c s)
    as [-> | [(now & ref & teacherId & _ & ->)
           | (now & socket & messageId & message & senderName & senderRole
              & senderId & _ & ->)]]; [done| by split; [cbn; lia|] |].
  split.
  - rewrite length_app, length_drop. cbn. lia.
  - apply Forall_app. split; [by apply Forall_drop|].
    apply Forall_singleton. cbn. apply trim_idempotent.
Qed.

(** X18.  A chat message sent on a connected socket is dropped only when
    it claims the role student with a kicked-out id; otherwise it becomes
    the last message of the log, with its text trimmed and the sender
    name, role and id of the payload, behind the last 99 of the earlier
    messages, and only the log changes.  The role is the one the payload
    claims: the same kicked-out id gets its message through under any
    other role. *)
Theorem sendMessage_outcome (now : Z) (socket : nat)
    (messageId message senderName senderRole senderId : string) (s : State) :
  is_Some (JSMap.get (sockets s) socket) ->
  let '(s', events) :=
    sendMessage now socket messageId message senderName senderRole senderId s in
  let chatMessage :=
    ChatMessage.mk messageId (JS.trim message) senderName senderRole senderId now in
  if decide (senderRole = "student" /\ senderId ∈ kickedOutStudents s)
  then s' = s /\ events = []
  else
    chatMessages s'
    = (drop (List.length (chatMessages s) + 1 - 100)%nat (chatMessages s) ++
         [chatMessage])%list /\
    events = [newMessage chatMessage] /\
    membership s' = membership s /\
    (polls s', pollHistory s', currentPoll s', timers s')
    = (polls s, pollHistory s, currentPoll s, timers s).
Proof.
  intros [sock Hg]. unfold sendMessage. rewrite Hg.
  destruct (String.eqb_spec senderRole "student") as [Hr|Hr]; simpl.
  - case_bool_decide as Hk.
    + by rewrite decide_True.
    + rewrite decide_False by (by intros [_ ?]).
      cbn [chatMessages]. by rewrite slice_last_100.
  - rewrite decide_False by (by intros [? _]).
    cbn [chatMessages]. by rewrite slice_last_100.
Qed.

(** ** The poll history *)

Lemma roster_values_students (s : State) :
  reachable s ->
  Forall (fun participant => Participant.role participant = student)
    (JSMap.values (activeParticipants s)).
Proof.
  intros Hs. destruct (reachable_rosterOK s Hs) as (_ & _ & Hentry).
  apply Forall_forall. intros participant Hin. unfold JSMap.values in Hin.
  apply list_elem_of_fmap in Hin as ([studentId p] & -> & Hin).
  by destruct (Hentry studentId p Hin) as (_ & ? & _).
Qed.

Lemma endedSnapshot_exec (s : State) (c : Command) (entry : HistoryEntry.t) :
  enabled c s = true -> endedSnapshot s entry -> endedSnapshot (exec c s) entry.
Proof.
  intros Hen (Ha & Ht & He & Hf & Hsm & Hr & stored & Hp & Hd).
  repeat (split; [done|]).
  destruct (exec_lookup_Some s c _ stored Hen Hp) as (stored' & Hp' & Hstep).
  exists stored'. split; [done|].
  by rewrite (pollStep_definitionOf _ _ _ _ Hstep).
Qed.

Lemma reachable_endedSnapshot (s : State) :
  reachable s -> Forall (endedSnapshot s) (pollHistory s).
Proof.
  induction 1 as [|s c Hs IH Hen]; [by constructor|].
  assert (Forall (endedSnapshot (exec c s)) (pollHistory s)) as Hold.
  { eapply Forall_impl; [exact IH|]. intros entry. by apply endedSnapshot_exec. }
  destruct (exec_engineStep c s)
    as [_ _ -> | ? ? ? _ _ _ _ _ -> | ? ? ? _ _ _ _ _ ->
        | ? ? ? ? ? ? _ _ _ _ _ _ _ _ _ -> | ? ? ? _ _ _ _ _ _ ->
        | now ref poll -> Hi Hp Hle Hpolls _ ->]; try done.
  apply Forall_app. split; [done|]. apply Forall_singleton.
  destruct (stored_poll_bounds s ref poll Hs Hp) as [_ Hid].
  unfold endedSnapshot. cbn [HistoryEntry.poll HistoryEntry.participants].
  split; [done|]. split; [done|]. split; [by eexists|].
  split; [reflexivity|]. split; [reflexivity|].
  split; [by apply roster_values_students|].
  exists (endedPoll now (decrementTimeLeft poll)). split; [|done].
  cbn [endedPoll decrementTimeLeft Poll.id]. rewrite Hid, Hpolls.
  apply lookup_insert_eq.
Qed.

(** X19.  The history is written by one event only, the tick that takes
    a running poll's time to zero; that tick appends the ended copy of the
    poll with the roster of the moment, and every other turn leaves the
    history as it is. *)
Theorem history_appended_on_expiry (c : Command) (s : State) :
  pollHistory (exec c s) = pollHistory s \/
  exists now ref poll,
    c = Tick now ref /\
    ref ∈ timers s /\
    polls s !! ref = Some poll /\
    Poll.timeLeft poll <= 1 /\
    polls (exec c s) !! ref = Some (endedPoll now (decrementTimeLeft poll)) /\
    timers (exec c s) = clearInterval ref (timers s) /\
    pollHistory (exec c s)
    = (pollHistory s ++
         [HistoryEntry.mk (endedPoll now (decrementTimeLeft poll))
            (JSMap.values (activeParticipants s))])%list.
Proof.
  destruct (exec_engineStep c s)
    as [_ _ -> | ? ? ? _ _ _ _ _ -> | ? ? ? _ _ _ _ _ ->
        | ? ? ? ? ? ? _ _ _ _ _ _ _ _ _ -> | ? ? ? _ _ _ _ _ _ ->
        | now ref poll -> Hi Hp Hle Hpolls Ht Hh]; try (by left).
  right. exists now, ref, poll. split; [done|].
  split; [by apply includes_elem_of|]. split; [done|]. split; [lia|].
  split; [|done]. rewrite Hpolls. apply lookup_insert_eq.
Qed.

(** X20.  Every entry of the history of a reachable state is the copy of
    an ended poll: not active, no time left, an end time, the final
    results and the summary of its own tally, and a list of participants
    who are all students; the poll it was copied from is still stored
    under its id, with the same definition. *)
Theorem history_entries_are_ended_polls (s : State) (entry : HistoryEntry.t) :
  reachable s ->
  entry ∈ pollHistory s ->
  let poll := HistoryEntry.poll entry in
  pollState poll = Ended /\
  Poll.timeLeft poll = 0 /\
  is_Some (Poll.endTime poll) /\
  Poll.finalResults poll = Some (finalResultsOf poll) /\
  Poll.summary poll = Some (summaryOf poll) /\
  Forall (fun participant => Participant.role participant = student)
    (HistoryEntry.participants entry) /\
  exists stored,
    polls s !! Poll.id poll = Some stored /\
    definitionOf stored = definitionOf poll.
Proof.
  intros Hs Hin. cbv zeta.
  pose proof (reachable_endedSnapshot s Hs) as Hall.
  rewrite Forall_forall in Hall.
  destruct (Hall entry Hin) as (Ha & Ht & He & Hf & Hsm & Hr & Hst).
  split; [|done]. unfold pollState. by rewrite Ha, Hf.
Qed.

(** X21.  The history route answers 400 without a teacher id; with one it
    lists, in order, the entries of the history whose poll that teacher
    created, and in a reachable state every item listed carries final
    results, a summary, the summary's total as its number of votes, and
    an end time. *)
Theorem getHistory_outcome (teacherId : string) (s : State) :
  reachable s ->
  if decide (teacherId = "")
  then failsWith (getHistory teacherId s) ValidationError
  else
    exists body,
      getHistory teacherId s = json 200 body /\
      HistoryBody.total body = JS.length (HistoryBody.history body) /\
      (forall item,
         item ∈ HistoryBody.history body <->
         exists entry,
           entry ∈ pollHistory s /\
           Poll.teacherId (HistoryEntry.poll entry) = teacherId /\
           item = formatHistory entry) /\
      Forall
        (fun item =>
           exists finalResults summary,
             HistoryItem.results item = HistoryResults.final finalResults /\
             HistoryItem.summary item = Some summary /\
             HistoryItem.totalVotes item = Summary.totalResponses summary /\
             is_Some (HistoryItem.endTime item))
        (HistoryBody.history body).
Proof.
  intros Hs. unfold getHistory. destruct (decide (teacherId = "")) as [->|Hne].
  - by eexists.
  - apply truthy_ne in Hne. rewrite Hne. cbn [negb].
    eexists. split; [done|]. cbn [HistoryBody.total HistoryBody.history].
    split; [done|].
    assert (forall item,
              item ∈ formatHistory <$> teacherHistory teacherId (pollHistory s) <->
              exists entry,
                entry ∈ pollHistory s /\
                Poll.teacherId (HistoryEntry.poll entry) = teacherId /\
                item = formatHistory entry) as Hitems.
    { intros item. rewrite list_elem_of_fmap. unfold teacherHistory.
      split.
      - intros (entry & -> & Hin). apply list_elem_of_In, filter_In in Hin.
        destruct Hin as [Hin Heq]. apply String.eqb_eq in Heq.
        exists entry. by rewrite list_elem_of_In.
      - intros (entry & Hin & Heq & ->). exists entry. split; [done|].
        apply list_elem_of_In, filter_In. rewrite <- list_elem_of_In.
        split; [done|]. by apply String.eqb_eq. }
    split; [exact Hitems|].
    apply Forall_forall. intros item Hin. apply Hitems in Hin.
    destruct Hin as (entry & Hin & _ & ->).
    pose proof (reachable_endedSnapshot s Hs) as Hall.
    rewrite Forall_forall in Hall.
    destruct (Hall entry Hin) as (_ & _ & He & Hf & Hsm & _).
    exists (finalResultsOf (HistoryEntry.poll entry)),
      (summaryOf (HistoryEntry.poll entry)).
    unfold formatHistory. cbn. by rewrite Hf, Hsm.
Qed.

(** ** The serverless entry point *)

(** X22.  The routes of [api/index.js] are the routes of [server.js]
    without sockets and timers: on the shared variables each write
    request leaves the same values and gives the same response as the
    server's route, and the read routes give the same responses. *)
Theorem api_request_as_server_turn (r : Api.Request) (s : State) :
  Api.exec r (apiView s) = apiView (exec (asCommand r) s) /\
  match r with
  | Api.CreatePoll pollId now req =>
      (Api.createPoll pollId now req (apiView s)).2
      = (createPoll pollId now req s).2
  | Api.StartPoll now pollId teacherId =>
      (Api.startPoll now pollId teacherId (apiView s)).2
      = (startPoll now pollId teacherId s).1.2
  | Api.SubmitResponse now pollId studentId studentName selectedOption =>
      (Api.submitResponse now pollId studentId studentName selectedOption
         (apiView s)).2
      = (submitResponse now pollId studentId studentName selectedOption s).1.2
  | Api.Join now studentId studentName =>
      (Api.join now studentId studentName (apiView s)).2
      = (join now studentId studentName s).2
  end /\
  Api.getCurrentPoll (apiView s) = getCurrentPoll s /\
  (forall teacherId, Api.getHistory teacherId (apiView s) = getHistory teacherId s) /\
  (forall pollId userId,
     Api.getResponse pollId userId (apiView s) = getResponse pollId userId s) /\
  Api.getChatMessages (apiView s) = getChatMessages s.
Proof.
  split; [|split; [|done]].
  - destruct r; cbn [Api.exec asCommand exec].
    + unfold Api.createPoll, createPoll.
      change (Api.currentPollActive (apiView s)) with (currentPollActive s).
      by repeat case_match.
    + unfold Api.startPoll, startPoll. cbn [Api.polls apiView].
      by repeat case_match.
    + unfold Api.submitResponse, submitResponse.
      cbn [Api.polls Api.kickedOutStudents apiView].
      by repeat case_match.
    + unfold Api.join, join. cbn [Api.kickedOutStudents apiView].
      by repeat case_match.
  - destruct r.
    + unfold Api.createPoll, createPoll.
      change (Api.currentPollActive (apiView s)) with (currentPollActive s).
      by repeat case_match.
    + unfold Api.startPoll, startPoll. cbn [Api.polls apiView].
      by repeat case_match.
    + unfold Api.submitResponse, submitResponse.
      cbn [Api.polls Api.kickedOutStudents apiView].
      by repeat case_match.
    + unfold Api.join, join. cbn [Api.kickedOutStudents apiView].
      by repeat case_match.
Qed.

Lemma Api_exec_active (r : Api.Request) (s : Api.State) :
  Api.currentPollActive s = true ->
  Api.currentPoll (Api.exec r s) = Api.currentPoll s /\
  forall ref poll,
    Api.polls s !! ref = Some poll -> Poll.isActive poll = true ->
    exists poll',
      Api.polls (Api.exec r s) !! ref = Some poll' /\ Poll.isActive poll' = true.
Proof.
  intros Hact. destruct r; cbn [Api.exec].
  - unfold Api.createPoll. rewrite Hact.
    repeat case_match; (split; [done|]); intros ref poll Hp Ha; by exists poll.
  - unfold Api.startPoll.
    destruct (Api.polls s !! pollId) as [p|] eqn:Hp0;
      [|split; [done|]; intros ref poll Hp Ha; by exists poll].
    repeat case_match; (split; [done|]); intros ref poll Hp Ha;
      try (by exists poll).
    cbn [fst Api.polls]. destruct (decide (ref = pollId)) as [->|Hne].
    + rewrite lookup_insert_eq. by eexists.
    + rewrite lookup_insert_ne by done. by exists poll.
  - unfold Api.submitResponse.
    case_bool_decide; [split; [done|]; intros ref poll Hp Ha; by exists poll|].
    destruct (Api.polls s !! pollId) as [p|] eqn:Hp0;
      [|split; [done|]; intros ref poll Hp Ha; by exists poll].
    destruct (Poll.isActive p) eqn:Hpa; simpl;
      [|split; [done|]; intros ref poll Hp Ha; by exists poll].
    repeat case_match; (split; [done|]); intros ref poll Hp Ha;
      try (by exists poll).
    cbn [fst Api.polls]. destruct (decide (ref = pollId)) as [->|Hne].
    + rewrite lookup_insert_eq. by eexists.
    + rewrite lookup_insert_ne by done. by exists poll.
  - unfold Api.join.
    repeat case_match; (split; [done|]); intros ref poll Hp Ha; by exists poll.
Qed.

Lemma Api_exec_currentPollActive (r : Api.Request) (s : Api.State) :
  Api.currentPollActive s = true ->
  Api.currentPollActive (Api.exec r s) = true /\
  Api.currentPoll (Api.exec r s) = Api.currentPoll s.
Proof.
  intros Hact. destruct (Api_exec_active r s Hact) as [Hc Hkeep].
  split; [|done]. unfold Api.currentPollActive, Api.currentPollObject in *.
  rewrite Hc. destruct (Api.currentPoll s) as [ref|]; [|done].
  destruct (Api.polls s !! ref) as [poll|] eqn:Hp; [|done].
  destruct (Hkeep ref poll Hp Hact) as (poll' & -> & Ha). done.
Qed.

(** X23.  The serverless entry point has no timer and no end route, so a
    current poll that has been started stays active whatever requests
    follow, and from then on every create request is turned down and
    changes nothing. *)
Theorem api_started_poll_never_ends (rs : list Api.Request) (s : Api.State)
    (pollId : string) (now : Z) (req : CreateRequest.t) :
  Api.currentPollActive s = true ->
  Api.currentPollActive (Api.run rs s) = true /\
  Api.currentPoll (Api.run rs s) = Api.currentPoll s /\
  Api.createPoll pollId now req (Api.run rs s)
  = (Api.run rs s,
     if negb (JS.truthy (CreateRequest.question req))
        || (JS.length (CreateRequest.options req) <? 2)
     then error 400 "Question and at least 2 options are required"
     else if negb (JS.truthy (CreateRequest.teacherId req))
             || negb (JS.truthy (CreateRequest.teacherName req))
     then error 400 "Teacher ID and name are required"
     else error 409 "There is already an active poll. Please end it before creating a new one.").
Proof.
  intros Hact.
  assert (Api.currentPollActive (Api.run rs s) = true /\
          Api.currentPoll (Api.run rs s) = Api.currentPoll s) as [Ha Hc].
  { revert s Hact. induction rs as [|r rs IH]; intros s Hact; [done|].
    destruct (Api_exec_currentPollActive r s Hact) as [Ha <-].
    exact (IH _ Ha). }
  split; [done|]. split; [done|].
  unfold Api.createPoll. rewrite Ha. by repeat case_match.
Qed.

Lemma Api_exec_frame (r : Api.Request) (s : Api.State) :
  Api.kickedOutStudents (Api.exec r s) = Api.kickedOutStudents s /\
  Api.pollHistory (Api.exec r s) = Api.pollHistory s.
Proof.
  destruct r; cbn [Api.exec].
  - unfold Api.createPoll. by repeat case_match.
  - unfold Api.startPoll. by repeat case_match.
  - unfold Api.submitResponse. by repeat case_match.
  - unfold Api.join. by repeat case_match.
Qed.

Lemma Api_run_frame (rs : list Api.Request) (s : Api.State) :
  Api.kickedOutStudents (Api.run rs s) = Api.kickedOutStudents s /\
  Api.pollHistory (Api.run rs s) = Api.pollHistory s.
Proof.
  revert s. induction rs as [|r rs IH]; intros s; [done|].
  destruct (Api_exec_frame r s) as [<- <-]. apply IH.
Qed.

(** X24.  Nothing in [api/index.js] writes the set of kicked-out
    students or the history: after any requests from the start state the
    set and the history are empty, so no response or join request is
    answered 403 for a removed student, and the history route lists
    nothing. *)
Theorem api_no_kick_no_history (rs : list Api.Request) :
  let s := Api.run rs Api.initial in
  Api.kickedOutStudents s = ∅ /\
  Api.pollHistory s = [] /\
  (forall now studentId studentName,
     ~ failsWith (Api.join now studentId studentName s).2 ForbiddenError) /\
  (forall now pollId studentId studentName selectedOption,
     (Api.submitResponse now pollId studentId studentName selectedOption s).2
     <> error 403 "You have been removed from this session") /\
  (forall teacherId,
     teacherId <> "" ->
     Api.getHistory teacherId s = json 200 (HistoryBody.mk [] 0)).
Proof.
  intros s. destruct (Api_run_frame rs Api.initial) as [Hk Hh].
  fold s in Hk, Hh. change (Api.kickedOutStudents Api.initial) with (∅ : gset string) in Hk.
  change (Api.pollHistory Api.initial) with (@nil HistoryEntry.t) in Hh.
  split; [done|]. split; [done|]. split; [|split].
  - intros now studentId studentName. unfold Api.join. rewrite Hk.
    rewrite bool_decide_eq_false_2 by apply not_elem_of_empty.
    destruct (_ || _); cbn [snd].
    + rewrite failsWith_status. done.
    + apply json_not_failsWith.
  - intros now pollId studentId studentName selectedOption.
    unfold Api.submitResponse. rewrite Hk.
    rewrite bool_decide_eq_false_2 by apply not_elem_of_empty.
    by repeat case_match.
  - intros teacherId Hne. unfold Api.getHistory. apply truthy_ne in Hne.
    rewrite Hne, Hh. done.
Qed.

(** ** The texts of a created poll *)

Lemma trimStart_blank (s : string) :
  allWhiteSpace s = true -> JS.trimStart s = "".
Proof.
  induction s as [|c s IH]; [done|]. unfold allWhiteSpace. simpl.
  intros [Hc Hs]%andb_true_iff. rewrite Hc. by apply IH.
Qed.

Lemma allWhiteSpace_app (a b : string) :
  allWhiteSpace (a ++ b) = allWhiteSpace a && allWhiteSpace b.
Proof. unfold allWhiteSpace. by rewrite list_ascii_app, forallb_app. Qed.

Lemma trim_blank (s : string) : JS.trim s = "" <-> allWhiteSpace s = true.
Proof.
  split.
  - intros Ht. destruct (trim_decompose s) as ((pre & post & Hs & Hpre & Hpost) & _).
    rewrite Ht in Hs. rewrite Hs, allWhiteSpace_app, Hpre. exact Hpost.
  - intros Hs. unfold JS.trim. by rewrite trimStart_blank.
Qed.

Lemma newPoll_options_elem_of pollId now req option :
  option ∈ Poll.options (newPoll pollId now req) <->
  option <> "" /\
  exists raw, raw ∈ CreateRequest.options req /\ JS.trim raw = option.
Proof.
  cbn [newPoll Poll.options]. rewrite list_elem_of_In, filter_In, in_map_iff.
  unfold JS.nonEmpty. rewrite truthy_ne. split.
  - intros [(raw & Ht & Hin) Hne]. split; [done|]. exists raw.
    by rewrite list_elem_of_In.
  - intros [Hne (raw & Hin & Ht)]. split; [|done]. exists raw.
    by rewrite <- list_elem_of_In.
Qed.

(** X1.  The create route stores the texts of the request stripped: the
    request's question is a run of white space, the stored question, and a
    run of white space, and the stored question neither starts nor ends
    with white space; the stored options are the stripped options of the
    request that are not empty, so there are at most as many. *)
Theorem created_poll_texts_stripped (pollId : string) (now : Z)
    (req : CreateRequest.t) :
  let poll := newPoll pollId now req in
  (exists pre post,
     CreateRequest.question req = pre ++ Poll.question poll ++ post /\
     allWhiteSpace pre = true /\ allWhiteSpace post = true) /\
  startsWithWhiteSpace (Poll.question poll) = false /\
  endsWithWhiteSpace (Poll.question poll) = false /\
  (forall option,
     option ∈ Poll.options poll <->
     option <> "" /\
     exists raw, raw ∈ CreateRequest.options req /\ JS.trim raw = option) /\
  JS.length (Poll.options poll) <= JS.length (CreateRequest.options req).
Proof.
  cbv zeta.
  destruct (trim_decompose (CreateRequest.question req)) as (Hd & Hs & He & _).
  split; [exact Hd|]. split; [exact Hs|]. split; [exact He|].
  split; [intros option; apply newPoll_options_elem_of|].
  cbn [newPoll Poll.options]. unfold JS.length.
  pose proof (filter_length_le JS.nonEmpty (List.map JS.trim (CreateRequest.options req))) as Hle.
  rewrite length_map in Hle. lia.
Qed.

(** X25.  The validation of the create route looks at the raw texts, the
    stored poll holds the stripped ones: a valid request is stored with an
    empty question exactly when its question is white space only, and
    with no option at all exactly when each of its options is. *)
Theorem createPoll_blank_texts (pollId : string) (now : Z)
    (req : CreateRequest.t) (s : State) :
  validated req ->
  currentPollActive s = false ->
  exists poll,
    polls (createPoll pollId now req s).1 !! pollId = Some poll /\
    (Poll.question poll = "" <->
     allWhiteSpace (CreateRequest.question req) = true) /\
    (Poll.options poll = [] <->
     Forall (fun option => allWhiteSpace option = true)
       (CreateRequest.options req)).
Proof.
  intros (Hq & Hl & Ht & Hn) Ha. exists (newPoll pollId now req).
  split; [|split].
  - unfold createPoll. apply truthy_ne in Hq, Ht, Hn. rewrite Hq, Ht, Hn, Ha.
    destruct (Z.ltb_spec (JS.length (CreateRequest.options req)) 2); [lia|].
    cbn. apply lookup_insert_eq.
  - apply trim_blank.
  - rewrite Forall_forall. split.
    + intros Hnil raw Hin. apply trim_blank.
      destruct (decide (JS.trim raw = "")) as [|Hne]; [done|].
      assert (JS.trim raw ∈ Poll.options (newPoll pollId now req)) as Hin'
        by (apply newPoll_options_elem_of; eauto).
      rewrite Hnil in Hin'. by apply elem_of_nil in Hin'.
    + intros Hall.
      destruct (Poll.options (newPoll pollId now req)) as [|option rest] eqn:Ho;
        [done|].
      assert (option ∈ Poll.options (newPoll pollId now req)) as Hin
        by (rewrite Ho; apply list_elem_of_here).
      apply newPoll_options_elem_of in Hin as [Hne (raw & Hin & Heq)].
      apply Hall, trim_blank in Hin. congruence.
Qed.

(** X3.  A stored poll is never deleted and its definition never
    changes: whatever turns follow, the poll is still stored under its id
    with the same id, question, options, duration, correct index, creator
    and creation time. *)
Theorem poll_definition_is_fixed (cs : list Command) (s : State)
    (ref : string) (poll : Poll.t) :
  allEnabled cs s = true ->
  polls s !! ref = Some poll ->
  exists poll',
    polls (run cs s) !! ref = Some poll' /\
    (Poll.id poll', Poll.question poll', Poll.options poll',
     Poll.duration poll', Poll.correctAnswer poll', Poll.teacherId poll',
     Poll.teacherName poll', Poll.createdAt poll')
    = (Poll.id poll, Poll.question poll, Poll.options poll,
       Poll.duration poll, Poll.correctAnswer poll, Poll.teacherId poll,
       Poll.teacherName poll, Poll.createdAt poll).
Proof. apply run_lookup_Some. Qed.

(** ** Joining and leaving over a socket *)

Lemma JSMap_delete_set {K V} `{EqDecision K} (m : JSMap.t K V) k v :
  JSMap.delete (JSMap.set m k v) k = JSMap.delete m k.
Proof.
  unfold JSMap.delete. induction m as [|[k0 v0] m IH]; simpl.
  - by rewrite bool_decide_eq_true_2.
  - destruct (decide (k0 = k)) as [->|Hne]; simpl.
    + by rewrite !bool_decide_eq_true_2.
    + rewrite bool_decide_eq_false_2 by done. simpl. by rewrite IH.
Qed.

(** X26.  A [joinParticipant] event on a connected socket with an id
    that is not kicked out puts the student on the roster, and the
    disconnection of that socket takes the student off again and forgets
    the socket; only a student who joined with an empty id stays listed,
    because the disconnect handler skips a socket whose id is empty. *)
Theorem joinParticipant_then_disconnect (now : Z) (socket : nat)
    (sock : Socket.t) (studentId studentName : string) (s : State) :
  JSMap.get (sockets s) socket = Some sock ->
  studentId ∉ kickedOutStudents s ->
  let s1 := exec (JoinParticipant now socket studentId studentName) s in
  let s2 := exec (Disconnect socket) s1 in
  JSMap.get (activeParticipants s1) studentId
  = Some (Participant.mk studentId studentName student now) /\
  JSMap.get (sockets s2) socket = None /\
  activeParticipants s2
  = (if decide (studentId = "") then activeParticipants s1
     else JSMap.delete (activeParticipants s) studentId) /\
  kickedOutStudents s2 = kickedOutStudents s /\
  sessionCore s2 = sessionCore s.
Proof.
  intros Hg Hk. cbv zeta. cbn [exec]. unfold joinParticipant. rewrite Hg.
  rewrite bool_decide_eq_false_2 by done. cbn [fst].
  set (sock' := Socket.mk _ _ _ _ _).
  set (participant := Participant.mk _ _ _ _).
  split.
  { cbn [activeParticipants withParticipants]. rewrite JSMap_get_set.
    by rewrite decide_True. }
  unfold disconnect. cbn [sockets withParticipants withSockets].
  rewrite JSMap_get_set, decide_True by done.
  unfold isStudentSocket. cbn [sock' Socket.role Socket.studentId].
  destruct (decide (studentId = "")) as [->|Hne].
  - cbn [JS.truthy fst sockets activeParticipants kickedOutStudents
      withSockets withParticipants].
    rewrite JSMap_get_delete, decide_True by done. done.
  - apply truthy_ne in Hne. rewrite Hne.
    cbn [fst sockets activeParticipants kickedOutStudents withSockets
      withParticipants].
    rewrite JSMap_get_delete, decide_True by done.
    by rewrite JSMap_delete_set.
Qed.

(** ** Examples *)

Lemma reachable_ended : reachable Scenario.ended.
Proof. apply reachable_run; [constructor | vm_compute; reflexivity]. Qed.

Lemma reachable_beforeExpiry : reachable Scenario.beforeExpiry.
Proof. apply reachable_run; [constructor | vm_compute; reflexivity]. Qed.

Lemma reachable_answered : reachable (run Scenario.answered initial).
Proof. apply reachable_run; [constructor | vm_compute; reflexivity]. Qed.

(** X2, witness: the poll of scenario A. *)
Lemma stored_poll_wellformed_witness :
  exists poll,
    polls Scenario.ended !! "p1" = Some poll /\
    Poll.id poll = "p1" /\
    10 <= Poll.duration poll <= 300 /\
    Forall (fun option => option <> "" /\ JS.trim option = option)
      (Poll.options poll).
Proof.
  destruct (polls Scenario.ended !! "p1") as [poll|] eqn:Hp;
    [|vm_compute in Hp; discriminate].
  destruct (stored_poll_wellformed Scenario.ended "p1" poll reachable_ended Hp)
    as (Hid & Hd & _ & _ & Ho & _).
  exists poll. split; [reflexivity|]. split; [exact Hid|].
  split; [exact Hd | exact Ho].
Defined.

(** X3, witness: the poll created in scenario A, after the rest of the
    scenario. *)
Lemma poll_definition_is_fixed_witness :
  exists poll poll',
    polls (run Scenario.created initial) !! "p1" = Some poll /\
    polls Scenario.ended !! "p1" = Some poll' /\
    Poll.options poll' = Poll.options poll /\
    Poll.correctAnswer poll' = Poll.correctAnswer poll.
Proof.
  destruct (polls (run Scenario.created initial) !! "p1") as [poll|] eqn:Hp;
    [|vm_compute in Hp; discriminate].
  assert (allEnabled
            ([StartPoll 2000 "p1" "t1";
              SubmitResponse 2300 "p1" "s1" "Ann" "A";
              SubmitResponse 2600 "p1" "s2" "Bob" "B"] ++ Scenario.ticks 10 "p1")
            (run Scenario.created initial) = true) as Hen
    by (vm_compute; reflexivity).
  destruct (poll_definition_is_fixed _ _ "p1" poll Hen Hp) as (poll' & Hp' & Hd).
  assert (run ([StartPoll 2000 "p1" "t1";
                SubmitResponse 2300 "p1" "s1" "Ann" "A";
                SubmitResponse 2600 "p1" "s2" "Bob" "B"] ++ Scenario.ticks 10 "p1")
            (run Scenario.created initial) = Scenario.ended) as Hrun
    by (vm_compute; reflexivity).
  rewrite Hrun in Hp'.
  exists poll, poll'. split; [reflexivity|]. split; [exact Hp'|].
  injection Hd as _ _ Ho _ Hc _ _ _. split; [exact Ho | exact Hc].
Defined.

(** X4, witness: scenario A one tick before expiry has one timer, that
    of [p1]. *)
Lemma timers_of_active_polls_witness :
  timers Scenario.beforeExpiry = ["p1"] /\
  NoDup (timers Scenario.beforeExpiry) /\
  exists poll,
    polls Scenario.beforeExpiry !! "p1" = Some poll /\
    Poll.isActive poll = true.
Proof.
  destruct (timers_of_active_polls Scenario.beforeExpiry reachable_beforeExpiry)
    as (Hnd & Hiff & _).
  split; [vm_compute; reflexivity|]. split; [exact Hnd|].
  apply Hiff. vm_compute. apply list_elem_of_here.
Defined.

(** X5, witness: the ten ticks of scenario A end the poll. *)
Lemma active_poll_expires_witness :
  let nows := [3000; 4000; 5000; 6000; 7000; 8000; 9000; 10000; 11000; 12000] in
  exists poll',
    polls (run (ticksAt "p1" nows) (run Scenario.answered initial)) !! "p1"
    = Some poll' /\
    pollState poll' = Ended /\
    "p1" ∉ timers (run (ticksAt "p1" nows) (run Scenario.answered initial)).
Proof.
  cbv zeta.
  destruct (polls (run Scenario.answered initial) !! "p1") as [poll|] eqn:Hp;
    [|vm_compute in Hp; discriminate].
  assert (Poll.isActive poll = true /\ Poll.timeLeft poll = 10) as [Ha Hl].
  { pose proof Hp as Hq. vm_compute in Hq. injection Hq as <-.
    split; reflexivity. }
  destruct (active_poll_expires _ "p1" poll
              [3000; 4000; 5000; 6000; 7000; 8000; 9000; 10000; 11000; 12000]
              reachable_answered Hp Ha) as (_ & poll' & Hp' & Hcase).
  rewrite Hl in Hcase. exists poll'. split; [exact Hp'|]. exact Hcase.
Defined.

(** X6, witness: option A of the ended poll of scenario A has one
    response. *)
Lemma tally_entry_counts_its_responses_witness :
  exists poll,
    polls Scenario.ended !! "p1" = Some poll /\
    tallyCount (Poll.results poll) "A" = 1 /\
    tallyCount (Poll.results poll) "A"
    = Z.of_nat (size (responsesFor poll "A")).
Proof.
  destruct (polls Scenario.ended !! "p1") as [poll|] eqn:Hp;
    [|vm_compute in Hp; discriminate].
  destruct (tally_entry_counts_its_responses Scenario.ended "p1" poll "A"
              reachable_ended Hp) as [Hc _].
  exists poll. split; [reflexivity|]. split; [|exact Hc].
  pose proof Hp as Hq. vm_compute in Hq. injection Hq as <-. reflexivity.
Defined.

(** X7, witness: the response of [s1] in scenario A selects A, the
    correct option. *)
Lemma response_flag_matches_correct_option_witness :
  exists poll response,
    polls Scenario.ended !! "p1" = Some poll /\
    Poll.responses poll !! "s1" = Some response /\
    JS.inherited "s1" = false /\
    Response.studentId response = "s1" /\
    (Response.isCorrect response = true <->
     JS.index (Poll.options poll) (Poll.correctAnswer poll)
     = Some (Response.selectedOption response)).
Proof.
  destruct (polls Scenario.ended !! "p1") as [poll|] eqn:Hp;
    [|vm_compute in Hp; discriminate].
  destruct (Poll.responses poll !! "s1") as [response|] eqn:Hr.
  2: { pose proof Hp as Hq. vm_compute in Hq. injection Hq as <-.
       vm_compute in Hr. discriminate Hr. }
  destruct (response_flag_matches_correct_option Scenario.ended "p1" poll "s1"
              response reachable_ended Hp Hr) as (Hn & Hid & _ & Hc).
  exists poll, response. split; [reflexivity|]. split; [exact Hr|].
  split; [exact Hn|]. split; [exact Hid | exact Hc].
Defined.

(** X8, witness: the summary of scenario A. *)
Lemma summary_counts_flagged_responses_witness :
  exists poll summary,
    polls Scenario.ended !! "p1" = Some poll /\
    Poll.summary poll = Some summary /\
    Summary.correctResponses summary
    = Z.of_nat (size (correctResponsesOf poll)).
Proof.
  destruct (polls Scenario.ended !! "p1") as [poll|] eqn:Hp;
    [|vm_compute in Hp; discriminate].
  assert (pollState poll = Ended) as He.
  { pose proof Hp as Hq. vm_compute in Hq. injection Hq as <-. reflexivity. }
  destruct (summary_counts_flagged_responses Scenario.ended "p1" poll
              reachable_ended Hp He) as (summary & Hs & Hc & _).
  exists poll, summary. split; [reflexivity|]. split; [exact Hs | exact Hc].
Defined.


Lemma reachable_joined :
  reachable (run [Connection 1; JoinTeacher 1 "t1" "Teacher";
                  Connection 2; JoinParticipant 500 2 "s1" "Ann"] initial).
Proof. apply reachable_run; [constructor | vm_compute; reflexivity]. Qed.

(** X13, witness: the student [s1] who joined over a socket. *)
Lemma roster_holds_unkicked_students_witness :
  let s := run [Connection 1; JoinTeacher 1 "t1" "Teacher";
                Connection 2; JoinParticipant 500 2 "s1" "Ann"] initial in
  ("s1" ∉ kickedOutStudents s) /\
  JSMap.get (activeParticipants s) "s1"
  = Some (Participant.mk "s1" "Ann" student 500).
Proof.
  cbv zeta.
  assert (("s1", Participant.mk "s1" "Ann" student 500)
          ∈ activeParticipants
              (run [Connection 1; JoinTeacher 1 "t1" "Teacher";
                    Connection 2; JoinParticipant 500 2 "s1" "Ann"] initial))
    as Hin.
  { assert (activeParticipants
              (run [Connection 1; JoinTeacher 1 "t1" "Teacher";
                    Connection 2; JoinParticipant 500 2 "s1" "Ann"] initial)
            = [("s1", Participant.mk "s1" "Ann" student 500)]) as ->
      by (vm_compute; reflexivity).
    apply list_elem_of_here. }
  destruct (roster_holds_unkicked_students _ "s1" _ reachable_joined Hin)
    as (_ & _ & Hk & Hg).
  split; [exact Hk | exact Hg].
Defined.

(** X15, witness: the teacher socket kicks the student [s1]. *)
Lemma kicked_set_written_by_teacher_kick_witness :
  let s := run [Connection 1; JoinTeacher 1 "t1" "Teacher";
                Connection 2; JoinParticipant 500 2 "s1" "Ann"] initial in
  exists socket studentId reason sock,
    KickParticipant 1 "s1" None = KickParticipant socket studentId reason /\
    JSMap.get (sockets s) socket = Some sock /\
    Socket.role sock = Some teacher /\
    JSMap.get (activeParticipants (exec (KickParticipant 1 "s1" None) s)) studentId
    = None.
Proof.
  cbv zeta.
  assert (kickedOutStudents
            (exec (KickParticipant 1 "s1" None)
               (run [Connection 1; JoinTeacher 1 "t1" "Teacher";
                     Connection 2; JoinParticipant 500 2 "s1" "Ann"] initial))
          <> kickedOutStudents
               (run [Connection 1; JoinTeacher 1 "t1" "Teacher";
                     Connection 2; JoinParticipant 500 2 "s1" "Ann"] initial))
    as Hne.
  { assert (kickedOutStudents
              (run [Connection 1; JoinTeacher 1 "t1" "Teacher";
                    Connection 2; JoinParticipant 500 2 "s1" "Ann"] initial)
            = ∅) as -> by (vm_compute; reflexivity).
    assert (bool_decide
              ("s1" ∈ kickedOutStudents
                 (exec (KickParticipant 1 "s1" None)
                    (run [Connection 1; JoinTeacher 1 "t1" "Teacher";
                          Connection 2; JoinParticipant 500 2 "s1" "Ann"]
                       initial))) = true) as Hin
      by (vm_compute; reflexivity).
    apply bool_decide_eq_true_1 in Hin. intros Heq. rewrite Heq in Hin.
    by apply not_elem_of_empty in Hin. }
  destruct (kicked_set_written_by_teacher_kick (KickParticipant 1 "s1" None) _
              reachable_joined Hne)
    as (socket & studentId & reason & sock & Hc & Hg & Hr & _ & _ & _ & Hnone).
  exists socket, studentId, reason, sock.
  split; [exact Hc|]. split; [exact Hg|]. split; [exact Hr | exact Hnone].
Defined.

(** X16, witness: a socket that has only connected. *)
Lemma any_connected_socket_can_kick_witness :
  "s1" ∈ kickedOutStudents
    (run [JoinTeacher 1 "nobody" "Nobody"; KickParticipant 1 "s1" None]
       (run [Connection 1] initial)).
Proof.
  apply (any_connected_socket_can_kick 1 Socket.fresh).
  vm_compute. reflexivity.
Defined.

Lemma reachable_chatting :
  reachable (run [Connection 1; SendMessage 100 1 "m1" " hi " "Ann" "student" "s1"]
               initial).
Proof. apply reachable_run; [constructor | vm_compute; reflexivity]. Qed.

(** X17, witness: the log after one message. *)
Lemma chat_log_bounded_witness :
  let s := run [Connection 1; SendMessage 100 1 "m1" " hi " "Ann" "student" "s1"]
             initial in
  (List.length (chatMessages s) <= 100)%nat /\
  Forall (fun m => JS.trim (ChatMessage.message m) = ChatMessage.message m)
    (chatMessages s).
Proof. cbv zeta. exact (chat_log_bounded _ reachable_chatting). Defined.

(** X18, witness: a first message on a connected socket. *)
Lemma sendMessage_outcome_witness :
  let s := run [Connection 1] initial in
  chatMessages (sendMessage 100 1 "m1" " hi " "Ann" "student" "s1" s).1
  = (drop (List.length (chatMessages s) + 1 - 100)%nat (chatMessages s) ++
       [ChatMessage.mk "m1" (JS.trim " hi ") "Ann" "student" "s1" 100])%list.
Proof.
  cbv zeta.
  assert (is_Some (JSMap.get (sockets (run [Connection 1] initial)) 1%nat))
    as Hs.
  { exists Socket.fresh. vm_compute. reflexivity. }
  pose proof (sendMessage_outcome 100 1 "m1" " hi " "Ann" "student" "s1"
                (run [Connection 1] initial) Hs) as Ho.
  destruct (sendMessage 100 1 "m1" " hi " "Ann" "student" "s1"
              (run [Connection 1] initial)) as [s' events].
  destruct (decide ("student" = "student" /\
                    "s1" ∈ kickedOutStudents (run [Connection 1] initial)))
    as [[_ Hin]|_].
  - assert (kickedOutStudents (run [Connection 1] initial) = ∅) as Hk
      by (vm_compute; reflexivity).
    rewrite Hk in Hin. by apply not_elem_of_empty in Hin.
  - destruct Ho as [Hc _]. exact Hc.
Defined.

(** X20, witness: the history of scenario A has the ended poll. *)
Lemma history_entries_are_ended_polls_witness :
  exists entry,
    entry ∈ pollHistory Scenario.ended /\
    pollState (HistoryEntry.poll entry) = Ended /\
    Poll.timeLeft (HistoryEntry.poll entry) = 0.
Proof.
  destruct (pollHistory Scenario.ended) as [|entry rest] eqn:Hh;
    [vm_compute in Hh; discriminate Hh|].
  assert (entry ∈ pollHistory Scenario.ended) as Hin
    by (rewrite Hh; apply list_elem_of_here).
  destruct (history_entries_are_ended_polls Scenario.ended entry reachable_ended
              Hin) as (He & Ht & _).
  exists entry. split; [apply list_elem_of_here|]. split; [exact He | exact Ht].
Defined.

(** X21, witness: the history route for the teacher of scenario A. *)
Lemma getHistory_outcome_witness :
  exists body,
    getHistory "t1" Scenario.ended = json 200 body /\
    HistoryBody.total body = JS.length (HistoryBody.history body).
Proof.
  pose proof (getHistory_outcome "t1" Scenario.ended reachable_ended) as Ho.
  destruct (decide ("t1" = "")) as [Heq|_]; [discriminate Heq|].
  destruct Ho as (body & Hb & Ht & _).
  exists body. split; [exact Hb | exact Ht].
Defined.

(** X23, witness: a started poll of the serverless entry point, after a
    response and a join. *)
Lemma api_started_poll_never_ends_witness :
  let s := Api.run [Api.CreatePoll "p1" 1000
                      (Scenario.request ["A"; "B"] (Some 10) (Some 0));
                    Api.StartPoll 2000 "p1" "t1"] Api.initial in
  let rs := [Api.SubmitResponse 2300 "p1" "s1" "Ann" "A";
             Api.Join 2400 "s2" "Bob"] in
  Api.currentPollActive (Api.run rs s) = true /\
  Api.createPoll "p2" 3000 (Scenario.request ["C"; "D"] (Some 10) (Some 0))
    (Api.run rs s)
  = (Api.run rs s,
     error 409 "There is already an active poll. Please end it before creating a new one.").
Proof.
  cbv zeta.
  destruct (api_started_poll_never_ends
              [Api.SubmitResponse 2300 "p1" "s1" "Ann" "A";
               Api.Join 2400 "s2" "Bob"]
              (Api.run [Api.CreatePoll "p1" 1000
                          (Scenario.request ["A"; "B"] (Some 10) (Some 0));
                        Api.StartPoll 2000 "p1" "t1"] Api.initial)
              "p2" 3000 (Scenario.request ["C"; "D"] (Some 10) (Some 0)))
    as (Ha & _ & Hc); [vm_compute; reflexivity|].
  split; [exact Ha | exact Hc].
Defined.

(** X25, witness: a request whose question and options are blanks. *)
Lemma createPoll_blank_texts_witness :
  let req := CreateRequest.mk " " [" "; "  "] None "t1" "Teacher" None in
  exists poll,
    polls (createPoll "p1" 1000 req initial).1 !! "p1" = Some poll /\
    Poll.question poll = "" /\
    Poll.options poll = [].
Proof.
  cbv zeta.
  destruct (createPoll_blank_texts "p1" 1000
              (CreateRequest.mk " " [" "; "  "] None "t1" "Teacher" None) initial)
    as (poll & Hp & Hq & Ho).
  - split; [discriminate|]. split; [vm_compute; discriminate|].
    split; discriminate.
  - reflexivity.
  - exists poll. split; [exact Hp|]. split.
    + apply Hq. reflexivity.
    + apply Ho. repeat constructor.
Defined.

(** X26, witness: a student joins on a connected socket and leaves. *)
Lemma joinParticipant_then_disconnect_witness :
  let s := run [Connection 2] initial in
  let s1 := exec (JoinParticipant 500 2 "s1" "Ann") s in
  let s2 := exec (Disconnect 2) s1 in
  JSMap.get (activeParticipants s1) "s1"
  = Some (Participant.mk "s1" "Ann" student 500) /\
  JSMap.get (sockets s2) 2%nat = None /\
  activeParticipants s2 = JSMap.delete (activeParticipants s) "s1".
Proof.
  cbv zeta.
  destruct (joinParticipant_then_disconnect 500 2 Socket.fresh "s1" "Ann"
              (run [Connection 2] initial))
    as (Hj & Hs & Ha & _).
  - vm_compute. reflexivity.
  - assert (kickedOutStudents (run [Connection 2] initial) = ∅) as ->
      by (vm_compute; reflexivity).
    apply not_elem_of_empty.
  - split; [exact Hj|]. split; [exact Hs|].
    destruct (decide ("s1" = "")) as [Heq|_]; [discriminate Heq | exact Ha].
Defined.

(** ** The tally of an active poll *)

(** X27.  In every reachable state the results of an active poll hold an
    entry for each of its options: the start route has assigned them, so
    the response route never takes the branch that creates a missing
    entry, and an accepted response adds one to an entry that is there. *)
Theorem active_poll_tally_initialised (s : State) (ref : string)
    (poll : Poll.t) (option : string) :
  reachable s ->
  polls s !! ref = Some poll ->
  Poll.isActive poll = true ->
  option ∈ Poll.options poll ->
  is_Some (Poll.results poll !! option).
Proof.
  intros Hs Hp. revert option.
  eapply (reachable_poll_invariant
            (fun poll =>
               forall option,
                 Poll.isActive poll = true -> option ∈ Poll.options poll ->
                 is_Some (Poll.results poll !! option))); [| |exact Hs|exact Hp].
  - intros pollId now req option Ha. discriminate Ha.
  - intros c r p p' Hstep IH option.
    destruct Hstep as [ | now _ _ | now sid sname opt _ _ _ _ _ | now _ | now _ _ ].
    + apply IH.
    + intros _ Hin. cbn [startedPoll Poll.results Poll.options] in *.
      rewrite initialised_results. by rewrite decide_True.
    + intros Ha Hin. rewrite results_respondedPoll.
      destruct (decide (opt = option)); [by eexists|]. by apply IH.
    + apply IH.
    + intros Ha. discriminate Ha.
Qed.

(** X27, witness: option B of the running poll of scenario A. *)
Lemma active_poll_tally_initialised_witness :
  exists poll,
    polls Scenario.beforeExpiry !! "p1" = Some poll /\
    is_Some (Poll.results poll !! "B").
Proof.
  destruct (polls Scenario.beforeExpiry !! "p1") as [poll|] eqn:Hp;
    [|vm_compute in Hp; discriminate Hp].
  assert (Poll.isActive poll = true /\ Poll.options poll = ["A"; "B"])
    as [Ha Ho].
  { pose proof Hp as Hq. vm_compute in Hq. injection Hq as <-.
    split; reflexivity. }
  exists poll. split; [reflexivity|].
  apply (active_poll_tally_initialised Scenario.beforeExpiry "p1" poll "B"
           reachable_beforeExpiry Hp Ha).
  rewrite Ho. apply list_elem_of_further, list_elem_of_here.
Defined.
